(** * Attendance backend: scan, complete and statistics routes

    A shallow embedding of the lecturer routes of the attendance
    backend (routes/lecturer.ts) over the tables of db/schema.ts, and
    the properties of the scan-validation protocol, the session
    completion back-fill and the statistics aggregation.

    Layout:
    - the tables and their constraints (db/schema.ts, the drizzle migration);
    - the store statements the handlers await, and handlers as programs
      over these statements, so that one definition of a handler can be run
      alone, run with a failing statement, or interleaved with another
      request;
    - the three handlers;
    - the courses and the other lecturer routes, in direct style over the
      whole store; the student route, the two screens of the devices and
      the deletion of a session;
    - the properties.

    Tables are lists in insertion order and a query without ORDER BY
    yields its rows in that order. *)

From Stdlib Require Import ZArith QArith List String Ascii Bool Lia DecimalString.
From Stdlib Require Import PrimFloat Uint63 FloatOps SpecFloat.
Import ListNotations.

Local Open Scope string_scope.
Local Open Scope Z_scope.
Local Open Scope nat_scope.

(* ================================================================== *)
(** ** Tables                                                          *)
(* ================================================================== *)

(** Primary keys of the application tables are uuid columns; only
    equality of keys is ever used. *)
Definition uuid := N.

(** The [user] table of the auth schema (migration: id text primary key,
    name, role text default 'student'). *)
Record User := mkUser {
  user_id : string;
  user_name : string;
  user_role : string
}.

Inductive SessionStatus := active | completed.
Inductive RecordStatus := present | absent.

(** [attendance_sessions]. *)
Record AttendanceSession := mkSession {
  session_id : uuid;
  session_courseId : uuid;
  session_lecturerId : string;
  session_week : Z;
  session_date : string;
  session_time : string;
  session_status : SessionStatus
}.

(** [attendance_records].  The surrogate key [id] and [created_at] are
    filled in by the store and read by no handler (only logged); they are
    left out.  [scanTime] is a nullable timestamp, in milliseconds. *)
Record AttendanceRecord := mkRecord {
  record_sessionId : uuid;
  record_studentId : string;
  record_status : RecordStatus;
  record_scanTime : option Z
}.

Record Db := mkDb {
  users : list User;
  attendanceSessions : list AttendanceSession;
  attendanceRecords : list AttendanceRecord
}.

Definition status_eqb (a b : RecordStatus) : bool :=
  match a, b with
  | present, present | absent, absent => true
  | _, _ => false
  end.

Definition session_status_eqb (a b : SessionStatus) : bool :=
  match a, b with
  | active, active | completed, completed => true
  | _, _ => false
  end.

(** The key of the unique index [attendance_records_unique_idx]. *)
Definition same_key (sid : uuid) (stu : string) (r : AttendanceRecord) : bool :=
  N.eqb (record_sessionId r) sid && String.eqb (record_studentId r) stu.

Definition has_record (sid : uuid) (stu : string) (rs : list AttendanceRecord) : bool :=
  existsb (same_key sid stu) rs.

Definition records_of (sid : uuid) (stu : string) (rs : list AttendanceRecord)
  : list AttendanceRecord :=
  filter (same_key sid stu) rs.

Definition user_exists (id : string) (us : list User) : bool :=
  existsb (fun u => String.eqb (user_id u) id) us.

Definition session_exists (sid : uuid) (ss : list AttendanceSession) : bool :=
  existsb (fun s => N.eqb (session_id s) sid) ss.

(** No key occurs twice. *)
Fixpoint distinctb (l : list string) : bool :=
  match l with
  | [] => true
  | x :: l' => negb (existsb (String.eqb x) l') && distinctb l'
  end.

Fixpoint unique_records (rs : list AttendanceRecord) : bool :=
  match rs with
  | [] => true
  | r :: rs' =>
      negb (has_record (record_sessionId r) (record_studentId r) rs')
      && unique_records rs'
  end.

(** The constraints of the schema that the handlers rely on: the primary
    key of [user], the unique index of [attendance_records] and its two
    foreign keys. *)
Definition schema_ok (db : Db) : bool :=
  distinctb (map user_id (users db))
  && unique_records (attendanceRecords db)
  && forallb (fun r => session_exists (record_sessionId r) (attendanceSessions db)
                       && user_exists (record_studentId r) (users db))
             (attendanceRecords db).

(* ================================================================== *)
(** ** Store statements                                                *)
(* ================================================================== *)

Inductive DbErr :=
| UniqueViolation (index : string)
| ForeignKeyViolation (constraint : string)
| StoreUnavailable.

(** Conditions of the statistics query. *)
Record StatConditions := mkCond {
  cond_lecturerId : string;
  cond_courseId : option uuid;
  cond_week : option Z
}.

Record StatRow := mkRow {
  row_studentId : string;
  row_studentName : string;
  row_status : RecordStatus
}.

(** One constructor per statement awaited by the handlers; the index is
    the type of the rows it resolves to. *)
Inductive Stmt : Type -> Type :=
| FindSession (sessionId : uuid) : Stmt (option AttendanceSession)
| FindSessionWithRecords (sessionId : uuid)
    : Stmt (option (AttendanceSession * list string))
| FindUser (id : option string) : Stmt (option User)
| FindRecord (sessionId : uuid) (studentId : string) : Stmt (option AttendanceRecord)
| InsertRecords (rows : list AttendanceRecord) : Stmt unit
| SelectCourseStudents (courseId : uuid)
    : Stmt (list (User * AttendanceRecord * AttendanceSession))
| FindStudents : Stmt (list User)
| UpdateSessionStatus (sessionId : uuid) (st : SessionStatus) : Stmt unit
| SelectStatRows (c : StatConditions) : Stmt (list StatRow).

Definition find_session (sid : uuid) (db : Db) : option AttendanceSession :=
  find (fun s => N.eqb (session_id s) sid) (attendanceSessions db).

Definition find_user (id : string) (db : Db) : option User :=
  find (fun u => String.eqb (user_id u) id) (users db).

Definition session_records (sid : uuid) (db : Db) : list AttendanceRecord :=
  filter (fun r => N.eqb (record_sessionId r) sid) (attendanceRecords db).

(** One row of an INSERT: the unique index is checked when the row goes
    in, the foreign keys after it. *)
Definition insert_row (r : AttendanceRecord) (db : Db) : DbErr + Db :=
  if has_record (record_sessionId r) (record_studentId r) (attendanceRecords db)
  then inl (UniqueViolation "attendance_records_unique_idx")
  else if negb (session_exists (record_sessionId r) (attendanceSessions db))
  then inl (ForeignKeyViolation "attendance_records_session_id_attendance_sessions_id_fk")
  else if negb (user_exists (record_studentId r) (users db))
  then inl (ForeignKeyViolation "attendance_records_student_id_user_id_fk")
  else inr (mkDb (users db) (attendanceSessions db) (attendanceRecords db ++ [r])).

(** A multi-row INSERT is one statement: all rows go in, or none. *)
Fixpoint insert_rows (rows : list AttendanceRecord) (db : Db) : DbErr + Db :=
  match rows with
  | [] => inr db
  | r :: rest =>
      match insert_row r db with
      | inr db' => insert_rows rest db'
      | inl e => inl e
      end
  end.

Definition set_status (sid : uuid) (st : SessionStatus) (s : AttendanceSession)
  : AttendanceSession :=
  if N.eqb (session_id s) sid
  then mkSession (session_id s) (session_courseId s) (session_lecturerId s)
                 (session_week s) (session_date s) (session_time s) st
  else s.

Definition update_status (sid : uuid) (st : SessionStatus) (db : Db) : Db :=
  mkDb (users db) (map (set_status sid st) (attendanceSessions db))
       (attendanceRecords db).

(** user INNER JOIN attendance_records INNER JOIN attendance_sessions
    WHERE session.course_id = courseId AND user.role = 'student'. *)
Definition course_students (courseId : uuid) (db : Db)
  : list (User * AttendanceRecord * AttendanceSession) :=
  flat_map (fun u =>
    flat_map (fun r =>
      if String.eqb (user_id u) (record_studentId r) then
        flat_map (fun s =>
          if N.eqb (record_sessionId r) (session_id s)
             && N.eqb (session_courseId s) courseId
             && String.eqb (user_role u) "student"
          then [(u, r, s)] else [])
          (attendanceSessions db)
      else [])
      (attendanceRecords db))
    (users db).

Definition opt_matches {A} (eqb : A -> A -> bool) (c : option A) (x : A) : bool :=
  match c with
  | None => true
  | Some v => eqb x v
  end.

Definition session_matches (c : StatConditions) (s : AttendanceSession) : bool :=
  String.eqb (session_lecturerId s) (cond_lecturerId c)
  && opt_matches N.eqb (cond_courseId c) (session_courseId s)
  && opt_matches Z.eqb (cond_week c) (session_week s).

(** attendance_records INNER JOIN attendance_sessions INNER JOIN user
    WHERE the conditions hold, projected on (studentId, name, status). *)
Definition stat_rows (c : StatConditions) (db : Db) : list StatRow :=
  flat_map (fun r =>
    flat_map (fun s =>
      if N.eqb (record_sessionId r) (session_id s) && session_matches c s then
        flat_map (fun u =>
          if String.eqb (record_studentId r) (user_id u)
          then [mkRow (record_studentId r) (user_name u) (record_status r)]
          else [])
          (users db)
      else [])
      (attendanceSessions db))
    (attendanceRecords db).

(** The effect of one statement on the store.  A statement that raises
    leaves the store as it was. *)
Definition exec {X : Type} (s : Stmt X) (db : Db) : (DbErr + X) * Db :=
  match s in Stmt T return (DbErr + T) * Db with
  | FindSession sid => (inr (find_session sid db), db)
  | FindSessionWithRecords sid =>
      (inr (match find_session sid db with
            | Some s => Some (s, map record_studentId (session_records sid db))
            | None => None
            end), db)
  | FindUser id =>
      (inr (match id with
            | Some i => find_user i db
            | None => None
            end), db)
  | FindRecord sid stu => (inr (find (same_key sid stu) (attendanceRecords db)), db)
  | InsertRecords rows =>
      match insert_rows rows db with
      | inr db' => (inr tt, db')
      | inl e => (inl e, db)
      end
  | SelectCourseStudents cid => (inr (course_students cid db), db)
  | FindStudents =>
      (inr (filter (fun u => String.eqb (user_role u) "student") (users db)), db)
  | UpdateSessionStatus sid st => (inr tt, update_status sid st db)
  | SelectStatRows c => (inr (stat_rows c db), db)
  end.

(* ================================================================== *)
(** ** Handlers as programs over statements                            *)
(* ================================================================== *)

Inductive Exn :=
| TypeError
| StoreError (e : DbErr).

(** What a request ends with: nothing (requireAuth has already replied),
    [reply.status(s).send({ error })], a returned body, or an error
    rethrown by the handler's catch block. *)
Inductive Response (A : Type) : Type :=
| NoReply
| Send (status : Z) (error : string)
| Return (body : A)
| Throw (e : Exn).

Arguments NoReply {A}.
Arguments Send {A} status error.
Arguments Return {A} body.
Arguments Throw {A} e.

Inductive Prog (A : Type) : Type :=
| Done (r : A)
| Await (X : Type) (s : Stmt X) (k : X -> Prog A).

Arguments Done {A} r.
Arguments Await {A X} s k.

Declare Scope prog_scope.
Delimit Scope prog_scope with prog.
Notation "'await' x <- s ; k" := (Await s (fun x => k))
  (at level 10, x binder, s at level 100, k at level 200) : prog_scope.
Local Open Scope prog_scope.

(** Sequential run: every statement succeeds unless a constraint of the
    store rejects it; the rejection is logged and rethrown. *)
Fixpoint run {A : Type} (p : Prog (Response A)) (db : Db) : Response A * Db :=
  match p with
  | Done r => (r, db)
  | Await s k =>
      match exec s db with
      | (inr x, db') => run (k x) db'
      | (inl e, db') => (Throw (StoreError e), db')
      end
  end.

(** Run in which the store becomes unavailable: [faults] says, statement
    by statement, whether the await is lost before the statement takes
    effect. *)
Fixpoint run_faulty {A : Type} (faults : list bool) (p : Prog (Response A)) (db : Db)
  : Response A * Db :=
  match p with
  | Done r => (r, db)
  | Await s k =>
      match faults with
      | true :: _ => (Throw (StoreError StoreUnavailable), db)
      | _ =>
          match exec s db with
          | (inr x, db') => run_faulty (tl faults) (k x) db'
          | (inl e, db') => (Throw (StoreError e), db')
          end
      end
  end.

(* ================================================================== *)
(** ** Values of the host language                                     *)
(* ================================================================== *)

#[local] Set Warnings "-register-all".

(** What [JSON.parse] can produce.  The fields of a parsed object have
    distinct keys. *)
Inductive JsValue : Type :=
| JNull
| JBool (b : bool)
| JNum (x : float)
| JStr (s : string)
| JArr (items : list JsValue)
| JObj (fields : list (string * JsValue)).

Fixpoint assoc {V : Type} (k : string) (l : list (string * V)) : option V :=
  match l with
  | [] => None
  | (k', v) :: l' => if String.eqb k k' then Some v else assoc k l'
  end.

(** Property read [v.k] for the keys the handler destructures
    (studentId, name, timestamp); [None] is [undefined].  Only an object
    literal can carry one of these keys. *)
Definition get (v : JsValue) (k : string) : option JsValue :=
  match v with
  | JObj fields => assoc k fields
  | _ => None
  end.

(** A JavaScript number that is an integer or NaN ([None]): time values. *)
Definition TimeValue := option Z.

(** The exact quotient of a time difference by 1000, or NaN.  The handler
    computes it in double precision and only compares it with 0 and 30;
    both are doubles and rounding is monotone, so the comparisons on the
    rounded quotient are those on the exact one. *)
Definition seconds_between (currentTime : Z) (qrTime : TimeValue) : option Q :=
  match qrTime with
  | Some t => Some (inject_Z (currentTime - t) / inject_Z 1000)%Q
  | None => None
  end.

(** [x < y] and [x > y] on numbers: false as soon as one side is NaN. *)
Definition js_lt (x : option Q) (y : Q) : bool :=
  match x with
  | Some q => match (q ?= y)%Q with Lt => true | _ => false end
  | None => false
  end.

Definition js_gt (x : option Q) (y : Q) : bool :=
  match x with
  | Some q => match (q ?= y)%Q with Gt => true | _ => false end
  | None => false
  end.

(** The messages sent by the scan route. *)
Definition ERR_ONLY_LECTURERS_SCAN := "Access denied. Only lecturers can scan QR codes.".
Definition ERR_QRDATA_REQUIRED := "qrData is required.".
Definition ERR_INVALID_FORMAT := "Invalid QR data format.".
Definition ERR_EXPIRED :=
  "QR code is invalid or expired. Must be scanned within 30 seconds.".
Definition ERR_SESSION_NOT_FOUND := "Session not found.".
Definition ERR_SCAN_NOT_OWNER := "Access denied. You can only scan for your own sessions.".
Definition ERR_NOT_ACTIVE := "Session is not active.".
Definition ERR_STUDENT_NOT_FOUND := "Student not found.".
Definition ERR_ALREADY_SCANNED := "Student already scanned for this session.".

(** The authenticated user handed over by requireAuth. *)
Record AuthUser := mkAuth {
  auth_id : string;
  auth_name : string;
  auth_role : string
}.

(** The request of the scan route; a body without [qrData] is as one with
    the empty text, both are falsy. *)
Record ScanRequest := mkScanRequest {
  scan_auth : option AuthUser;
  scan_params_id : uuid;
  scan_qrData : string
}.

Record ScanOk := mkScanOk {
  scan_success : bool;
  scan_studentName : string
}.

(** [timeDifference < 0 || timeDifference > 30]. *)
Definition outside_window (currentTime : Z) (qrTime : TimeValue) : bool :=
  let timeDifference := seconds_between currentTime qrTime in
  js_lt timeDifference 0 || js_gt timeDifference 30.

(** The statements of the scan route, from the session lookup on. *)
Definition scan_insert (sessionId : uuid) (student : User) (studentId : string)
           (scanTime : Z) : Prog (Response ScanOk) :=
  await _ <- InsertRecords [mkRecord sessionId studentId present (Some scanTime)];
  Done (Return (mkScanOk true (user_name student))).

Definition scan_check_record (sessionId : uuid) (student : User) (studentId : string)
           (scanTime : Z) : Prog (Response ScanOk) :=
  await existingRecord <- FindRecord sessionId studentId;
  match existingRecord with
  | Some _ => Done (Send 400 ERR_ALREADY_SCANNED)
  | None => scan_insert sessionId student studentId scanTime
  end.

Definition scan_check_student (sessionId : uuid) (studentId : option string)
           (scanTime : Z) : Prog (Response ScanOk) :=
  await student <- FindUser studentId;
  match student, studentId with
  | Some st, Some sid => scan_check_record sessionId st sid scanTime
  | _, _ => Done (Send 404 ERR_STUDENT_NOT_FOUND)
  end.

Definition scan_store (lecturerId : string) (sessionId : uuid)
           (studentId : option string) (scanTime : Z) : Prog (Response ScanOk) :=
  await attendanceSession <- FindSession sessionId;
  match attendanceSession with
  | None => Done (Send 404 ERR_SESSION_NOT_FOUND)
  | Some s =>
      if negb (String.eqb (session_lecturerId s) lecturerId)
      then Done (Send 403 ERR_SCAN_NOT_OWNER)
      else if negb (session_status_eqb (session_status s) active)
      then Done (Send 400 ERR_NOT_ACTIVE)
      else scan_check_student sessionId studentId scanTime
  end.

Section Scan.

(** Builtins of the host, taken as they are:
    [JSON.parse] ([None] when it throws a SyntaxError),
    [new Date(v).getTime()] for a value [v] other than [undefined],
    and the text the driver sends for a value that is not a string when
    it is compared with a text column ([None]: nothing matches). *)
Variable JSON_parse : string -> option JsValue.
Variable Date_getTime : JsValue -> TimeValue.
Variable driver_text : option JsValue -> option string.

(** [new Date(qrTimestamp).getTime()]; [new Date(undefined)] is an
    invalid date, whose time value is NaN. *)
Definition qrTime_of (qrTimestamp : option JsValue) : TimeValue :=
  match qrTimestamp with
  | None => None
  | Some v => Date_getTime v
  end.

Definition text_param (v : option JsValue) : option string :=
  match v with
  | Some (JStr s) => Some s
  | other => driver_text other
  end.

(** POST /api/lecturer/sessions/:id/scan.  [currentTime] is the clock
    read by the freshness check, [scanTime] the one read for the row. *)
Definition scan (req : ScanRequest) (currentTime scanTime : Z)
  : Prog (Response ScanOk) :=
  match scan_auth req with
  | None => Done NoReply
  | Some user =>
      let lecturerId := auth_id user in
      let sessionId := scan_params_id req in
      let qrData := scan_qrData req in
      if negb (String.eqb (auth_role user) "lecturer")
      then Done (Send 403 ERR_ONLY_LECTURERS_SCAN)
      else if String.eqb qrData ""
      then Done (Send 400 ERR_QRDATA_REQUIRED)
      else
        match JSON_parse qrData with
        | None => Done (Send 400 ERR_INVALID_FORMAT)
        | Some JNull => Done (Throw TypeError)
        | Some qrDataObject =>
            let studentId := get qrDataObject "studentId" in
            let qrTimestamp := get qrDataObject "timestamp" in
            let qrTime := qrTime_of qrTimestamp in
            if outside_window currentTime qrTime
            then Done (Send 400 ERR_EXPIRED)
            else scan_store lecturerId sessionId (text_param studentId) scanTime
        end
  end.

(** The request of a lecturer whose [qrData] parses to [obj]. *)
Definition carries (req : ScanRequest) (user : AuthUser) (obj : JsValue) : Prop :=
  scan_auth req = Some user
  /\ auth_role user = "lecturer"
  /\ scan_qrData req <> ""
  /\ JSON_parse (scan_qrData req) = Some obj
  /\ obj <> JNull.

End Scan.

(* ================================================================== *)
(** ** Sets and maps of the host language                              *)
(* ================================================================== *)

(** [Set] and [Map] keep their keys in insertion order; setting a key
    that is present replaces its value in place. *)
Definition Set_has (x : string) (s : list string) : bool :=
  existsb (String.eqb x) s.

Definition Set_add (s : list string) (x : string) : list string :=
  if Set_has x s then s else s ++ [x].

Definition Set_of (l : list string) : list string :=
  fold_left Set_add l [].

Fixpoint Map_set {V : Type} (k : string) (v : V) (m : list (string * V))
  : list (string * V) :=
  match m with
  | [] => [(k, v)]
  | (k', v') :: m' =>
      if String.eqb k k' then (k, v) :: m' else (k', v') :: Map_set k v m'
  end.

Definition Map_of {V : Type} (entries : list (string * V)) : list (string * V) :=
  fold_left (fun m kv => Map_set (fst kv) (snd kv) m) entries [].

Definition Map_values {V : Type} (m : list (string * V)) : list V :=
  map snd m.

(* ================================================================== *)
(** ** PUT /api/lecturer/sessions/:id/complete                         *)
(* ================================================================== *)

Definition ERR_ONLY_LECTURERS_COMPLETE :=
  "Access denied. Only lecturers can complete sessions.".
Definition ERR_COMPLETE_NOT_OWNER :=
  "Access denied. You can only complete your own sessions.".

Record CompleteRequest := mkCompleteRequest {
  complete_auth : option AuthUser;
  complete_params_id : uuid
}.

Record CompleteOk := mkCompleteOk {
  complete_success : bool;
  complete_absentCount : nat
}.

Definition absent_row (sessionId : uuid) (student : User) : AttendanceRecord :=
  mkRecord sessionId (user_id student) absent None.

(** The status flip and the reply. *)
Definition complete_finish (sessionId : uuid) (unscannedStudents : list User)
  : Prog (Response CompleteOk) :=
  await _ <- UpdateSessionStatus sessionId completed;
  Done (Return (mkCompleteOk true (List.length unscannedStudents))).

(** The back-fill, skipped when nobody is left to mark. *)
Definition complete_backfill (sessionId : uuid) (unscannedStudents : list User)
  : Prog (Response CompleteOk) :=
  match unscannedStudents with
  | [] => complete_finish sessionId unscannedStudents
  | _ :: _ =>
      await _ <- InsertRecords (map (absent_row sessionId) unscannedStudents);
      complete_finish sessionId unscannedStudents
  end.

Definition unscanned (recordStudentIds : list string) (allStudents : list User)
  : list User :=
  let scannedStudentIds := Set_of recordStudentIds in
  filter (fun student => negb (Set_has (user_id student) scannedStudentIds))
         allStudents.

Definition complete (req : CompleteRequest) : Prog (Response CompleteOk) :=
  match complete_auth req with
  | None => Done NoReply
  | Some user =>
      let lecturerId := auth_id user in
      let sessionId := complete_params_id req in
      if negb (String.eqb (auth_role user) "lecturer")
      then Done (Send 403 ERR_ONLY_LECTURERS_COMPLETE)
      else
        await attendanceSession <- FindSessionWithRecords sessionId;
        match attendanceSession with
        | None => Done (Send 404 ERR_SESSION_NOT_FOUND)
        | Some (s, recordStudentIds) =>
            if negb (String.eqb (session_lecturerId s) lecturerId)
            then Done (Send 403 ERR_COMPLETE_NOT_OWNER)
            else
              await courseStudents <- SelectCourseStudents (session_courseId s);
              await allStudents <- FindStudents;
              complete_backfill sessionId (unscanned recordStudentIds allStudents)
        end
  end.

(* ================================================================== *)
(** ** GET /api/lecturer/statistics                                    *)
(* ================================================================== *)

Definition ERR_ONLY_LECTURERS := "Access denied. Only lecturers can access this endpoint.".

(** The query string: [courseId] is [None] when absent or empty; [week]
    is [None] when absent or empty and otherwise holds what [parseInt]
    reads from it (a week that is not numeric is outside the model). *)
Record StatisticsRequest := mkStatisticsRequest {
  stat_auth : option AuthUser;
  stat_courseId : option uuid;
  stat_week : option Z
}.

Record StudentEntry := mkEntry {
  entry_studentId : string;
  entry_name : string
}.

(** [percentage] is a number of the host: an integer, or [None] when
    it is not finite. *)
Record Statistics := mkStatistics {
  totalStudents : nat;
  presentCount : nat;
  absentCount : nat;
  percentage : option Z;
  presentList : list StudentEntry;
  absentList : list StudentEntry
}.

(** A count as a double; exact below 2^53, and array lengths are below 2^32. *)
Definition number_of_nat (n : nat) : float :=
  PrimFloat.of_uint63 (Uint63.of_Z (Z.of_nat n)).

(** [Math.round]: the nearest integer, a tie going up. *)
Definition Math_round (x : float) : option Z :=
  match Prim2SF x with
  | S754_zero _ => Some 0%Z
  | S754_finite s m e =>
      let n := if s then Z.neg m else Z.pos m in
      Some (if (0 <=? e)%Z then n * 2 ^ e
            else (2 * n + 2 ^ (- e)) / 2 ^ (1 - e))%Z
  | S754_infinity _ | S754_nan => None
  end.

(** [totalStudents > 0 ? Math.round((presentCount / totalStudents) * 100) : 0],
    in double precision as the host computes it. *)
Definition percentage_of (presentCount totalStudents : nat) : option Z :=
  if Nat.ltb 0 totalStudents
  then Math_round (PrimFloat.mul
                     (PrimFloat.div (number_of_nat presentCount)
                                    (number_of_nat totalStudents))
                     (number_of_nat 100))
  else Some 0%Z.

Definition entries_with (st : RecordStatus) (records : list StatRow)
  : list StudentEntry :=
  map (fun r => mkEntry (row_studentId r) (row_studentName r))
      (filter (fun r => status_eqb (row_status r) st) records).

Definition dedupe (l : list StudentEntry) : list StudentEntry :=
  Map_values (Map_of (map (fun p => (entry_studentId p, p)) l)).

Definition compute_statistics (records : list StatRow) : Statistics :=
  let presentList := entries_with present records in
  let absentList := entries_with absent records in
  let totalStudents :=
    List.length (Set_of (map entry_studentId (presentList ++ absentList))) in
  let presentCount := List.length presentList in
  let absentCount := List.length absentList in
  let percentage := percentage_of presentCount totalStudents in
  mkStatistics totalStudents presentCount absentCount percentage
               (dedupe presentList) (dedupe absentList).

Definition statistics (req : StatisticsRequest) : Prog (Response Statistics) :=
  match stat_auth req with
  | None => Done NoReply
  | Some user =>
      let lecturerId := auth_id user in
      if negb (String.eqb (auth_role user) "lecturer")
      then Done (Send 403 ERR_ONLY_LECTURERS)
      else
        let conditions := mkCond lecturerId (stat_courseId req) (stat_week req) in
        await records <- SelectStatRows conditions;
        Done (Return (compute_statistics records))
  end.

(* ================================================================== *)
(** ** Two requests in flight                                          *)
(* ================================================================== *)

(** One await of a request is one step; the store serialises statements. *)
Definition step {A : Type} (p : Prog (Response A)) (db : Db)
  : Prog (Response A) * Db :=
  match p with
  | Done r => (Done r, db)
  | Await s k =>
      match exec s db with
      | (inr x, db') => (k x, db')
      | (inl e, db') => (Done (Throw (StoreError e)), db')
      end
  end.

(** [sched] says which request moves next ([true]: the first one); when
    it runs out the first request runs to its end, then the second. *)
Fixpoint interleave {A B : Type} (sched : list bool)
         (p : Prog (Response A)) (q : Prog (Response B)) (db : Db)
  : Response A * Response B * Db :=
  match sched with
  | [] =>
      let '(a, db1) := run p db in
      let '(b, db2) := run q db1 in
      (a, b, db2)
  | true :: sched' =>
      let '(p', db') := step p db in interleave sched' p' q db'
  | false :: sched' =>
      let '(q', db') := step q db in interleave sched' p q' db'
  end.

(* ================================================================== *)
(** ** A small deployment used in the examples                         *)
(* ================================================================== *)

Definition lecturer1 := mkAuth "lec-1" "Dr. Lim" "lecturer".

Definition demo_users : list User :=
  [ mkUser "lec-1" "Dr. Lim" "lecturer";
    mkUser "stu-a" "Aina" "student";
    mkUser "stu-b" "Badrul" "student" ].

(** One course (id 10) with one active session (id 1) in week 3. *)
Definition demo_session : AttendanceSession :=
  mkSession 1%N 10%N "lec-1" 3%Z "2026-01-27" "10:00:00" active.

(** Nobody scanned yet. *)
Definition db0 : Db := mkDb demo_users [demo_session] [].

(** Aina was scanned. *)
Definition db1 : Db :=
  mkDb demo_users [demo_session] [mkRecord 1%N "stu-a" present (Some 5000%Z)].

(** The payloads of the examples, with what the builtins make of them:
    the text the student route issues for Aina at
    1970-01-01T00:00:10.000Z, and the same object without its timestamp. *)
Definition dquote : string := String (ascii_of_nat 34) EmptyString.

Definition json_field (k v : string) : string :=
  dquote ++ k ++ dquote ++ ":" ++ dquote ++ v ++ dquote.

Definition qr_aina : string :=
  "{" ++ json_field "studentId" "stu-a" ++ "," ++ json_field "name" "Aina" ++ ","
      ++ json_field "timestamp" "1970-01-01T00:00:10.000Z" ++ "}".

Definition qr_aina_no_timestamp : string :=
  "{" ++ json_field "studentId" "stu-a" ++ "," ++ json_field "name" "Aina" ++ "}".

Definition demo_JSON_parse (text : string) : option JsValue :=
  if String.eqb text qr_aina then
    Some (JObj [("studentId", JStr "stu-a"); ("name", JStr "Aina");
                ("timestamp", JStr "1970-01-01T00:00:10.000Z")])
  else if String.eqb text qr_aina_no_timestamp then
    Some (JObj [("studentId", JStr "stu-a"); ("name", JStr "Aina")])
  else None.

Definition demo_Date_getTime (v : JsValue) : TimeValue :=
  match v with
  | JStr "1970-01-01T00:00:10.000Z" => Some 10000%Z
  | _ => None
  end.

Definition demo_driver_text (v : option JsValue) : option string := None.

Definition demo_scan := scan demo_JSON_parse demo_Date_getTime demo_driver_text.

Definition obj_aina : JsValue :=
  JObj [("studentId", JStr "stu-a"); ("name", JStr "Aina");
        ("timestamp", JStr "1970-01-01T00:00:10.000Z")].

(** The lecturer scans Aina's code for session 1, and for a session that
    does not exist. *)
Definition req_aina : ScanRequest := mkScanRequest (Some lecturer1) 1%N qr_aina.
Definition req_aina_nowhere : ScanRequest := mkScanRequest (Some lecturer1) 99%N qr_aina.
Definition req_aina_no_timestamp : ScanRequest :=
  mkScanRequest (Some lecturer1) 1%N qr_aina_no_timestamp.

(** The lecturer completes session 1. *)
Definition req_complete : CompleteRequest := mkCompleteRequest (Some lecturer1) 1%N.

(** A second course (id 20) with its own session (id 2): Aina attends
    course 10, Badrul attends course 20 only. *)
Definition other_session : AttendanceSession :=
  mkSession 2%N 20%N "lec-1" 3%Z "2026-01-28" "14:00:00" active.

Definition db2 : Db :=
  mkDb demo_users [demo_session; other_session]
       [ mkRecord 1%N "stu-a" present (Some 5000%Z);
         mkRecord 2%N "stu-b" present (Some 6000%Z) ].

(** The lecturer asks for the statistics, without a filter. *)
Definition req_statistics : StatisticsRequest :=
  mkStatisticsRequest (Some lecturer1) None None.

(** The same course meets again in week 4 (session 3); Aina is scanned
    in both sessions. *)
Definition week4_session : AttendanceSession :=
  mkSession 3%N 10%N "lec-1" 4%Z "2026-02-03" "10:00:00" active.

Definition db3 : Db :=
  mkDb demo_users [demo_session; week4_session]
       [ mkRecord 1%N "stu-a" present (Some 5000%Z);
         mkRecord 3%N "stu-a" present (Some 7000%Z) ].

(** A class of 40 students, numbered 00 to 39; in session 1 the first 23
    are present and the other 17 absent. *)
Definition two_digits (n : nat) : string :=
  String (ascii_of_nat (48 + n / 10)) (String (ascii_of_nat (48 + n mod 10)) EmptyString).

Definition student_no (n : nat) : User :=
  mkUser ("stu-" ++ two_digits n) ("Student " ++ two_digits n) "student".

Definition row_no (n : nat) : AttendanceRecord :=
  if Nat.ltb n 23
  then mkRecord 1%N (user_id (student_no n)) present (Some 5000%Z)
  else mkRecord 1%N (user_id (student_no n)) absent None.

Definition db_class : Db :=
  mkDb (mkUser "lec-1" "Dr. Lim" "lecturer" :: map student_no (seq 0 40))
       [demo_session]
       (map row_no (seq 0 40)).

(** The users of the rows of the course query. *)
Definition students_in_course (courseId : uuid) (db : Db) : list string :=
  map (fun row => user_id (fst (fst row))) (course_students courseId db).

(* ================================================================== *)
(** ** The courses table and the other lecturer routes                 *)
(* ================================================================== *)

(** [courses]; [created_at] is left out as for the other tables. *)
Record Course := mkCourse {
  course_id : uuid;
  course_name : string;
  course_code : string;
  course_lecturerId : string
}.

(** The whole store: the courses beside the three tables above. *)
Record Store := mkStore {
  courses : list Course;
  tables : Db
}.

Definition find_course (courseId : uuid) (st : Store) : option Course :=
  find (fun c => N.eqb (course_id c) courseId) (courses st).

Definition course_exists (courseId : uuid) (cs : list Course) : bool :=
  existsb (fun c => N.eqb (course_id c) courseId) cs.

Definition code_taken (code : string) (cs : list Course) : bool :=
  existsb (fun c => String.eqb (course_code c) code) cs.

(** The key of [attendance_sessions_unique_idx]. *)
Definition same_slot (courseId : uuid) (week : Z) (date : string)
           (s : AttendanceSession) : bool :=
  N.eqb (session_courseId s) courseId && Z.eqb (session_week s) week
  && String.eqb (session_date s) date.

Definition slot_taken (courseId : uuid) (week : Z) (date : string)
           (ss : list AttendanceSession) : bool :=
  existsb (same_slot courseId week date) ss.

(** INSERT INTO courses: primary key, unique code, then the foreign key
    to the lecturer. *)
Definition insert_course (c : Course) (st : Store) : DbErr + Store :=
  if course_exists (course_id c) (courses st)
  then inl (UniqueViolation "courses_pkey")
  else if code_taken (course_code c) (courses st)
  then inl (UniqueViolation "courses_code_idx")
  else if negb (user_exists (course_lecturerId c) (users (tables st)))
  then inl (ForeignKeyViolation "courses_lecturer_id_user_id_fk")
  else inr (mkStore (courses st ++ [c]) (tables st)).

(** INSERT INTO attendance_sessions: primary key, the unique index on
    (course, week, date), then the two foreign keys. *)
Definition insert_session (s : AttendanceSession) (st : Store) : DbErr + Store :=
  let db := tables st in
  if session_exists (session_id s) (attendanceSessions db)
  then inl (UniqueViolation "attendance_sessions_pkey")
  else if slot_taken (session_courseId s) (session_week s) (session_date s)
                     (attendanceSessions db)
  then inl (UniqueViolation "attendance_sessions_unique_idx")
  else if negb (course_exists (session_courseId s) (courses st))
  then inl (ForeignKeyViolation "attendance_sessions_course_id_courses_id_fk")
  else if negb (user_exists (session_lecturerId s) (users db))
  then inl (ForeignKeyViolation "attendance_sessions_lecturer_id_user_id_fk")
  else inr (mkStore (courses st)
                    (mkDb (users db) (attendanceSessions db ++ [s])
                          (attendanceRecords db))).

Definition ERR_ONLY_LECTURERS_COURSE := "Access denied. Only lecturers can create courses.".
Definition ERR_NAME_CODE_REQUIRED := "Name and code are required.".
Definition ERR_ONLY_LECTURERS_SESSION := "Access denied. Only lecturers can create sessions.".
Definition ERR_SESSION_FIELDS_REQUIRED := "courseId, week, date, and time are required.".
Definition ERR_COURSE_NOT_FOUND := "Course not found.".
Definition ERR_SESSION_NOT_COURSE_OWNER :=
  "Access denied. You can only create sessions for your courses.".
Definition ERR_VIEW_NOT_OWNER := "Access denied. You can only view your own sessions.".
Definition ERR_EXPORT_ONLY_LECTURERS := "Access denied. Only lecturers can export data.".
Definition ERR_EXPORT_REQUIRED := "courseId and format are required.".
Definition ERR_EXPORT_NOT_OWNER :=
  "Access denied. You can only export data for your courses.".
Definition ERR_ONLY_STUDENTS := "Access denied. Only students can access this endpoint.".

(** The message about the export format holds the two names in double
    quotes. *)
Definition ERR_EXPORT_FORMAT : string :=
  "format must be either " ++ String (ascii_of_nat 34) "csv"
  ++ String (ascii_of_nat 34) " or " ++ String (ascii_of_nat 34) "xlsx"
  ++ String (ascii_of_nat 34) ".".

(** *** POST /api/lecturer/courses

    [newId] is the key the store draws for the row. *)
Record CreateCourseRequest := mkCreateCourseRequest {
  cc_auth : option AuthUser;
  cc_name : string;
  cc_code : string
}.

Definition create_course (req : CreateCourseRequest) (newId : uuid) (st : Store)
  : Response Course * Store :=
  match cc_auth req with
  | None => (NoReply, st)
  | Some user =>
      let lecturerId := auth_id user in
      if negb (String.eqb (auth_role user) "lecturer")
      then (Send 403 ERR_ONLY_LECTURERS_COURSE, st)
      else if String.eqb (cc_name req) "" || String.eqb (cc_code req) ""
      then (Send 400 ERR_NAME_CODE_REQUIRED, st)
      else
        let row := mkCourse newId (cc_name req) (cc_code req) lecturerId in
        match insert_course row st with
        | inr st' => (Return row, st')
        | inl e => (Throw (StoreError e), st)
        end
  end.

(** *** GET /api/lecturer/courses *)
Record CourseSummary := mkCourseSummary {
  summary_id : uuid;
  summary_name : string;
  summary_code : string
}.

Definition get_courses (auth : option AuthUser) (st : Store)
  : Response (list CourseSummary) :=
  match auth with
  | None => NoReply
  | Some user =>
      let lecturerId := auth_id user in
      if negb (String.eqb (auth_role user) "lecturer")
      then Send 403 ERR_ONLY_LECTURERS
      else
        Return (map (fun c => mkCourseSummary (course_id c) (course_name c) (course_code c))
                    (filter (fun c => String.eqb (course_lecturerId c) lecturerId)
                            (courses st)))
  end.

(** *** POST /api/lecturer/sessions

    The body: [courseId] is [None] when absent or empty; [week] is an
    integer, falsy when 0; [date] and [time] are texts as the store keeps
    them, falsy when empty. *)
Record CreateSessionRequest := mkCreateSessionRequest {
  cs_auth : option AuthUser;
  cs_courseId : option uuid;
  cs_week : Z;
  cs_date : string;
  cs_time : string
}.

Definition create_session (req : CreateSessionRequest) (newId : uuid) (st : Store)
  : Response AttendanceSession * Store :=
  match cs_auth req with
  | None => (NoReply, st)
  | Some user =>
      let lecturerId := auth_id user in
      if negb (String.eqb (auth_role user) "lecturer")
      then (Send 403 ERR_ONLY_LECTURERS_SESSION, st)
      else
        match cs_courseId req with
        | None => (Send 400 ERR_SESSION_FIELDS_REQUIRED, st)
        | Some courseId =>
            if Z.eqb (cs_week req) 0 || String.eqb (cs_date req) ""
               || String.eqb (cs_time req) ""
            then (Send 400 ERR_SESSION_FIELDS_REQUIRED, st)
            else
              match find_course courseId st with
              | None => (Send 404 ERR_COURSE_NOT_FOUND, st)
              | Some course =>
                  if negb (String.eqb (course_lecturerId course) lecturerId)
                  then (Send 403 ERR_SESSION_NOT_COURSE_OWNER, st)
                  else
                    let row := mkSession newId courseId lecturerId (cs_week req)
                                         (cs_date req) (cs_time req) active in
                    match insert_session row st with
                    | inr st' => (Return row, st')
                    | inl e => (Throw (StoreError e), st)
                    end
              end
        end
  end.

(** *** GET /api/lecturer/sessions/:id *)
Record StudentStatus := mkStudentStatus {
  ss_id : string;
  ss_name : string;
  ss_status : RecordStatus
}.

Record SessionDetails := mkSessionDetails {
  details_session : AttendanceSession;
  details_students : list StudentStatus
}.

(** [records.map(record => ({ id: record.student.id, ... }))]; a record
    whose student is missing makes the property read throw. *)
Fixpoint students_of (rs : list AttendanceRecord) (db : Db)
  : option (list StudentStatus) :=
  match rs with
  | [] => Some []
  | r :: rs' =>
      match find_user (record_studentId r) db, students_of rs' db with
      | Some u, Some l => Some (mkStudentStatus (user_id u) (user_name u) (record_status r) :: l)
      | _, _ => None
      end
  end.

Definition session_details (auth : option AuthUser) (sessionId : uuid) (db : Db)
  : Response SessionDetails :=
  match auth with
  | None => NoReply
  | Some user =>
      let lecturerId := auth_id user in
      if negb (String.eqb (auth_role user) "lecturer")
      then Send 403 ERR_ONLY_LECTURERS
      else
        match find_session sessionId db with
        | None => Send 404 ERR_SESSION_NOT_FOUND
        | Some attendanceSession =>
            if negb (String.eqb (session_lecturerId attendanceSession) lecturerId)
            then Send 403 ERR_VIEW_NOT_OWNER
            else
              match students_of (session_records sessionId db) db with
              | Some students => Return (mkSessionDetails attendanceSession students)
              | None => Throw TypeError
              end
        end
  end.

(** *** GET /api/lecturer/dashboard

    [today] is the date part of the clock's ISO text. *)
Record Dashboard := mkDashboard {
  ongoingSessions : nat;
  todayScans : nat;
  lecturerName : string
}.

Definition ongoing (lecturerId : string) (s : AttendanceSession) : bool :=
  String.eqb (session_lecturerId s) lecturerId
  && session_status_eqb (session_status s) active.

(** attendance_records INNER JOIN attendance_sessions WHERE the session is
    the lecturer's, dated today, and the record is a present one. *)
Definition today_scan_rows (lecturerId today : string) (db : Db)
  : list (AttendanceRecord * AttendanceSession) :=
  flat_map (fun r =>
    flat_map (fun s =>
      if N.eqb (record_sessionId r) (session_id s)
         && (String.eqb (session_lecturerId s) lecturerId
             && String.eqb (session_date s) today
             && status_eqb (record_status r) present)
      then [(r, s)] else [])
      (attendanceSessions db))
    (attendanceRecords db).

Definition dashboard (auth : option AuthUser) (today : string) (db : Db)
  : Response Dashboard :=
  match auth with
  | None => NoReply
  | Some user =>
      let lecturerId := auth_id user in
      let lecturerName := auth_name user in
      if negb (String.eqb (auth_role user) "lecturer")
      then Send 403 ERR_ONLY_LECTURERS
      else
        Return (mkDashboard
                  (List.length (filter (ongoing lecturerId) (attendanceSessions db)))
                  (List.length (today_scan_rows lecturerId today db))
                  lecturerName)
  end.

(** *** GET /api/lecturer/export

    The query string: [courseId] and [weekStart] as for the statistics;
    [weekEnd] is kept as sent; [format] is empty when absent. *)
Record ExportRequest := mkExportRequest {
  ex_auth : option AuthUser;
  ex_courseId : option uuid;
  ex_weekStart : option Z;
  ex_weekEnd : option string;
  ex_format : string
}.

Record ExportRow := mkExportRow {
  er_week : Z;
  er_date : string;
  er_time : string;
  er_studentId : string;
  er_studentName : string;
  er_status : RecordStatus
}.

(** The CSV text (sent with its two headers), or the course and the rows
    for the client to convert. *)
Inductive ExportBody :=
| CsvContent (csvContent : string)
| JsonExport (course : CourseSummary) (records : list ExportRow).

(** attendance_records INNER JOIN attendance_sessions INNER JOIN user
    WHERE the session is of the course, and of week [weekStart] when it
    is given. *)
Definition export_rows (courseId : uuid) (weekStart : option Z) (db : Db)
  : list ExportRow :=
  flat_map (fun r =>
    flat_map (fun s =>
      if N.eqb (record_sessionId r) (session_id s)
         && (N.eqb (session_courseId s) courseId
             && opt_matches Z.eqb weekStart (session_week s))
      then
        flat_map (fun u =>
          if String.eqb (record_studentId r) (user_id u)
          then [mkExportRow (session_week s) (session_date s) (session_time s)
                            (user_id u) (user_name u) (record_status r)]
          else [])
          (users db)
      else [])
      (attendanceSessions db))
    (attendanceRecords db).

Definition status_text (st : RecordStatus) : string :=
  match st with
  | present => "present"
  | absent => "absent"
  end.

(** An integer in a template literal. *)
Definition string_of_Z (z : Z) : string := NilZero.string_of_int (Z.to_int z).

Definition newline : string := String (ascii_of_nat 10) EmptyString.

Definition quoted (cell : string) : string :=
  String (ascii_of_nat 34) (cell ++ String (ascii_of_nat 34) EmptyString).

Definition csv_headers : list string :=
  ["Week"; "Date"; "Time"; "Student ID"; "Student Name"; "Status"].

Definition csv_cells (r : ExportRow) : list string :=
  [string_of_Z (er_week r); er_date r; er_time r; er_studentId r;
   er_studentName r; status_text (er_status r)].

Definition csv_content (records : list ExportRow) : string :=
  String.concat newline
    (String.concat "," csv_headers
     :: map (fun r => String.concat "," (map quoted (csv_cells r))) records).

Definition export_data (req : ExportRequest) (st : Store) : Response ExportBody :=
  match ex_auth req with
  | None => NoReply
  | Some user =>
      let lecturerId := auth_id user in
      if negb (String.eqb (auth_role user) "lecturer")
      then Send 403 ERR_EXPORT_ONLY_LECTURERS
      else
        match ex_courseId req with
        | None => Send 400 ERR_EXPORT_REQUIRED
        | Some courseId =>
            if String.eqb (ex_format req) ""
            then Send 400 ERR_EXPORT_REQUIRED
            else if negb (String.eqb (ex_format req) "csv"
                          || String.eqb (ex_format req) "xlsx")
            then Send 400 ERR_EXPORT_FORMAT
            else
              match find_course courseId st with
              | None => Send 404 ERR_COURSE_NOT_FOUND
              | Some course =>
                  if negb (String.eqb (course_lecturerId course) lecturerId)
                  then Send 403 ERR_EXPORT_NOT_OWNER
                  else
                    let records := export_rows courseId (ex_weekStart req) (tables st) in
                    if String.eqb (ex_format req) "csv"
                    then Return (CsvContent (csv_content records))
                    else Return (JsonExport
                                   (mkCourseSummary (course_id course) (course_name course)
                                                    (course_code course))
                                   records)
              end
        end
  end.

(** *** Deleting a session (the report screen)

    DELETE FROM attendance_sessions WHERE id = sessionId, issued by the
    signed-in user [uid], with row level security in force on the table
    and the policy of add_delete_policy.sql as its only delete policy:
    the rows whose lecturer is [uid] are let through, and the records of
    a deleted session go with it (ON DELETE CASCADE). *)
Definition deletable (uid : string) (sessionId : uuid) (s : AttendanceSession) : bool :=
  N.eqb (session_id s) sessionId && String.eqb (session_lecturerId s) uid.

Definition delete_session (uid : string) (sessionId : uuid) (db : Db) : Db :=
  let deleted := map session_id (filter (deletable uid sessionId) (attendanceSessions db)) in
  mkDb (users db)
       (filter (fun s => negb (deletable uid sessionId s)) (attendanceSessions db))
       (filter (fun r => negb (existsb (N.eqb (record_sessionId r)) deleted))
               (attendanceRecords db)).

(** *** GET /api/student/qr and the two screens *)

Record QrBody := mkQrBody {
  qr_studentId : string;
  qr_name : string;
  qr_timestamp : string;
  qr_qrData : string
}.

(** The object put in the code. *)
Definition qr_object (studentId name timestamp : string) : JsValue :=
  JObj [("studentId", JStr studentId); ("name", JStr name);
        ("timestamp", JStr timestamp)].

(** [a || b] on texts. *)
Definition or_text (a b : string) : string :=
  if String.eqb a "" then b else a.

(** The user of the auth context on the device. *)
Record ClientUser := mkClientUser {
  client_email : string;
  client_name : string
}.

(** What the scan screen shows. *)
Inductive ScanAlert :=
| QrCodeExpired
| AttendanceMarked (name studentId : option JsValue)
| InvalidQrCode.

Record ScanScreen := mkScanScreen {
  scanned : bool;
  processing : bool
}.

Section Devices.

(** Builtins of the host: [JSON.stringify], [Date.prototype.toISOString]
    of the date with a given time value, and the two used by the scan
    route. *)
Variable JSON_stringify : JsValue -> string.
Variable toISOString : Z -> string.
Variable JSON_parse : string -> option JsValue.
Variable Date_getTime : JsValue -> TimeValue.

(** GET /api/student/qr at clock [now]. *)
Definition student_qr (auth : option AuthUser) (now : Z) : Response QrBody :=
  match auth with
  | None => NoReply
  | Some user =>
      let userId := auth_id user in
      let userName := auth_name user in
      if negb (String.eqb (auth_role user) "student")
      then Send 403 ERR_ONLY_STUDENTS
      else
        let timestamp := toISOString now in
        let qrData := JSON_stringify (qr_object userId userName timestamp) in
        Return (mkQrBody userId userName timestamp qrData)
  end.

(** The code the student screen builds by itself, every five seconds. *)
Definition generateQRData (user : option ClientUser) (now : Z) : string :=
  let timestampValue := toISOString now in
  JSON_stringify
    (qr_object (or_text (match user with Some u => client_email u | None => "" end)
                        "STUDENT123")
               (or_text (match user with Some u => client_name u | None => "" end)
                        "Student Name")
               timestampValue).

(** The scan screen's handler for a code read by the camera: the alert it
    raises, if any, and the two flags when it is done. *)
Definition handleBarCodeScanned (data : string) (now : Z) (screen : ScanScreen)
  : option ScanAlert * ScanScreen :=
  if scanned screen || processing screen then (None, screen)
  else
    match JSON_parse data with
    | None | Some JNull => (Some InvalidQrCode, mkScanScreen false false)
    | Some qrData =>
        let qrTimestamp := qrTime_of Date_getTime (get qrData "timestamp") in
        let diffSeconds := seconds_between now qrTimestamp in
        if js_gt diffSeconds 30
        then (Some QrCodeExpired, mkScanScreen false false)
        else (Some (AttendanceMarked (get qrData "name") (get qrData "studentId")),
              mkScanScreen true true)
    end.

End Devices.

(** Pressing OK on the alert of a marked attendance. *)
Definition pressOK (screen : ScanScreen) : ScanScreen := mkScanScreen false false.

(** Builtins for the examples: the text of an object of texts, the ISO
    text of a time of 1 January 1970, and a parser that reads back the
    objects of a table. *)
Fixpoint demo_members (fields : list (string * JsValue)) : string :=
  match fields with
  | [] => ""
  | (k, v) :: rest =>
      let member := match v with JStr text => json_field k text | _ => "" end in
      match rest with
      | [] => member
      | _ :: _ => member ++ "," ++ demo_members rest
      end
  end.

Definition demo_JSON_stringify (v : JsValue) : string :=
  match v with
  | JObj fields => "{" ++ demo_members fields ++ "}"
  | _ => "null"
  end.

Definition three_digits (n : nat) : string :=
  String (ascii_of_nat (48 + n / 100)) (two_digits (n mod 100)).

Definition demo_toISOString (t : Z) : string :=
  "1970-01-01T" ++ two_digits (Z.to_nat (t / 3600000))
    ++ ":" ++ two_digits (Z.to_nat ((t / 60000) mod 60))
    ++ ":" ++ two_digits (Z.to_nat ((t / 1000) mod 60))
    ++ "." ++ three_digits (Z.to_nat (t mod 1000)) ++ "Z".

Definition demo_JSON_parse_of (table : list JsValue) (text : string) : option JsValue :=
  find (fun v => String.eqb (demo_JSON_stringify v) text) table.

(** Aina as the student route and as her own device know her; the code
    her device builds at 10 s names her address. *)
Definition student_aina := mkAuth "stu-a" "Aina" "student".

Definition client_aina := mkClientUser "aina@uni.example" "Aina".

Definition obj_local_aina : JsValue :=
  qr_object "aina@uni.example" "Aina" "1970-01-01T00:00:10.000Z".

Definition demo_JSON_parse_local : string -> option JsValue :=
  demo_JSON_parse_of [obj_local_aina].

(** *** Further constraints of the schema

    The primary key of [attendance_sessions], its unique index, the
    primary key and the unique code of [courses], and the foreign key
    from a session to its course. *)
Fixpoint distinct_ids (l : list uuid) : bool :=
  match l with
  | [] => true
  | x :: l' => negb (existsb (N.eqb x) l') && distinct_ids l'
  end.

Fixpoint unique_slots (ss : list AttendanceSession) : bool :=
  match ss with
  | [] => true
  | s :: ss' =>
      negb (slot_taken (session_courseId s) (session_week s) (session_date s) ss')
      && unique_slots ss'
  end.

Definition sessions_ok (db : Db) : bool :=
  distinct_ids (map session_id (attendanceSessions db)).

Definition store_ok (st : Store) : bool :=
  schema_ok (tables st)
  && sessions_ok (tables st)
  && unique_slots (attendanceSessions (tables st))
  && distinct_ids (map course_id (courses st))
  && distinctb (map course_code (courses st))
  && forallb (fun s => course_exists (session_courseId s) (courses st))
             (attendanceSessions (tables st)).

(** What a joined query yields for one record once the keys are unique:
    the row of its session and of its student, if both are there. *)
Definition joined (r : AttendanceRecord) (db : Db)
  : option (AttendanceSession * User) :=
  match find_session (record_sessionId r) db, find_user (record_studentId r) db with
  | Some s, Some u => Some (s, u)
  | _, _ => None
  end.

(** A request that did not go through, in a run with the store losses
    [faults]: the store is as it was, the reply is not a success, and a
    store error can only be the loss of the store. *)
Definition went_wrong {A : Type} (faults : list bool) (db : Db)
           (r : Response A) (db' : Db) : Prop :=
  db' = db
  /\ (forall body, r <> Return body)
  /\ (forall e, r = Throw (StoreError e) -> e = StoreUnavailable /\ In true faults).

(** The (course, week, date) of a session, and all of it but the status. *)
Definition slot_of (s : AttendanceSession) : uuid * Z * string :=
  (session_courseId s, session_week s, session_date s).

Definition frame_of (s : AttendanceSession)
  : uuid * uuid * string * Z * string * string :=
  (session_id s, session_courseId s, session_lecturerId s, session_week s,
   session_date s, session_time s).

(** Two courses, both of Dr. Lim, around the tables of the examples. *)
Definition demo_courses : list Course :=
  [ mkCourse 10%N "Intro to Computer Science" "CS101" "lec-1";
    mkCourse 20%N "Data Structures" "CS201" "lec-1" ].

Definition store0 : Store := mkStore demo_courses db0.
Definition store1 : Store := mkStore demo_courses db1.
Definition store2 : Store := mkStore demo_courses db2.

(** Dr. Lim opens a session of course 20 in week 5. *)
Definition req_new_session : CreateSessionRequest :=
  mkCreateSessionRequest (Some lecturer1) (Some 20%N) 5%Z "2026-02-10" "14:00:00".

Definition req_new_course : CreateCourseRequest :=
  mkCreateCourseRequest (Some lecturer1) "Operating Systems" "CS301".

(** A record of a session of the course, and of the week when one is
    asked for. *)
Definition in_course_week (courseId : uuid) (week : option Z) (db : Db)
           (r : AttendanceRecord) : bool :=
  match find_session (record_sessionId r) db with
  | Some s => N.eqb (session_courseId s) courseId && opt_matches Z.eqb week (session_week s)
  | None => false
  end.

(* ================================================================== *)
(** ** Notions used in the statements                                  *)
(* ================================================================== *)

(** The (session, student) pair of a row. *)
Definition key_of (r : AttendanceRecord) : uuid * string :=
  (record_sessionId r, record_studentId r).

Definition is_student (u : User) : bool := String.eqb (user_role u) "student".

(** The users with role student that have no row, present or absent, in
    the session. *)
Definition lacking (sid : uuid) (db : Db) : list User :=
  filter (fun u => negb (has_record sid (user_id u) (attendanceRecords db)))
         (filter is_student (users db)).

(** The store once the absent rows are in. *)
Definition backfilled (sid : uuid) (db : Db) : Db :=
  mkDb (users db) (attendanceSessions db)
       (attendanceRecords db ++ map (absent_row sid) (lacking sid db)).

(** Every value of a map of entries sits under its own student id. *)
Definition keyed (m : list (string * StudentEntry)) : Prop :=
  Forall (fun kv => entry_studentId (snd kv) = fst kv) m.

(** *** Two scans of one student in one session

    Where a scan request stands between its awaits, once its payload has
    passed the freshness check: before the session lookup, the student
    lookup, the lookup of an existing row, the insert; or answered, with
    the success body, the duplicate message, or the rethrown rejection
    of the unique index. *)
Inductive Pc :=
| at_session | at_student | at_record | at_insert
| won | duplicate | rejected.

Definition unique_idx_error : Exn :=
  StoreError (UniqueViolation "attendance_records_unique_idx").

Section RaceModel.

Variables (lecturerId : string) (sid : uuid) (student : User) (db : Db).

(** The rest of the handler at each point. *)
Definition prog_at (scanTime : Z) (pc : Pc) : Prog (Response ScanOk) :=
  match pc with
  | at_session => scan_store lecturerId sid (Some (user_id student)) scanTime
  | at_student => scan_check_student sid (Some (user_id student)) scanTime
  | at_record => scan_check_record sid student (user_id student) scanTime
  | at_insert => scan_insert sid student (user_id student) scanTime
  | won => Done (Return (mkScanOk true (user_name student)))
  | duplicate => Done (Send 400%Z ERR_ALREADY_SCANNED)
  | rejected => Done (Throw unique_idx_error)
  end.

(** The answer of a request that has one. *)
Definition reply (pc : Pc) : Response ScanOk :=
  match pc with
  | won => Return (mkScanOk true (user_name student))
  | duplicate => Send 400%Z ERR_ALREADY_SCANNED
  | rejected => Throw unique_idx_error
  | _ => NoReply
  end.

(** The store, with the present row of the student once a scan has put
    it in; [w] is the scan time of that row. *)
Definition with_row (w : option Z) : Db :=
  match w with
  | None => db
  | Some t =>
      mkDb (users db) (attendanceSessions db)
           (attendanceRecords db ++ [mkRecord sid (user_id student) present (Some t)])
  end.

End RaceModel.

(** One await of a request whose row would carry [scanTime]. *)
Definition next (scanTime : Z) (pc : Pc) (w : option Z) : Pc * option Z :=
  match pc, w with
  | at_session, _ => (at_student, w)
  | at_student, _ => (at_record, w)
  | at_record, None => (at_insert, w)
  | at_record, Some _ => (duplicate, w)
  | at_insert, None => (won, Some scanTime)
  | at_insert, Some _ => (rejected, w)
  | _, _ => (pc, w)
  end.

(** The awaits that are left, at most four. *)
Definition settle (scanTime : Z) (pc : Pc) (w : option Z) : Pc * option Z :=
  let '(pc1, w1) := next scanTime pc w in
  let '(pc2, w2) := next scanTime pc1 w1 in
  let '(pc3, w3) := next scanTime pc2 w2 in
  next scanTime pc3 w3.

Fixpoint race (t1 t2 : Z) (sched : list bool) (pc1 pc2 : Pc) (w : option Z)
  : Pc * Pc * option Z :=
  match sched with
  | [] =>
      let '(pc1', w1) := settle t1 pc1 w in
      let '(pc2', w2) := settle t2 pc2 w1 in
      (pc1', pc2', w2)
  | true :: sched' =>
      let '(pc1', w') := next t1 pc1 w in race t1 t2 sched' pc1' pc2 w'
  | false :: sched' =>
      let '(pc2', w') := next t2 pc2 w in race t1 t2 sched' pc1 pc2' w'
  end.

Definition answered (pc : Pc) : bool :=
  match pc with
  | won | duplicate | rejected => true
  | _ => false
  end.

(** While no row is in, no request is answered; once it is in, exactly one
    request has won, and the row carries its scan time. *)
Definition one_winner (t1 t2 : Z) (pc1 pc2 : Pc) (w : option Z) : Prop :=
  match w with
  | None => answered pc1 = false /\ answered pc2 = false
  | Some t =>
      (pc1 = won /\ pc2 <> won /\ t = t1) \/ (pc2 = won /\ pc1 <> won /\ t = t2)
  end.

(** How a race ends: one request has won and its row is in; the other was
    answered with the duplicate message or with the rejection. *)
Definition one_won (t1 t2 : Z) (a b : Pc) (w : option Z) : Prop :=
  (a = won /\ (b = duplicate \/ b = rejected) /\ w = Some t1)
  \/ (b = won /\ (a = duplicate \/ a = rejected) /\ w = Some t2).

(* ================================================================== *)
(** ** The freshness window                                            *)
(* ================================================================== *)

Lemma js_lt_zero (d : Z) :
  js_lt (seconds_between d (Some 0%Z)) 0 = (d <? 0)%Z.
Proof.
  unfold js_lt, seconds_between, Qcompare, Qdiv, Qmult, Qinv, inject_Z; simpl.
  rewrite Z.sub_0_r, !Z.mul_1_r.
  destruct (Z.compare_spec d 0), (Z.ltb_spec d 0); try reflexivity; lia.
Qed.

Lemma js_gt_thirty (d : Z) :
  js_gt (seconds_between d (Some 0%Z)) 30 = (30000 <? d)%Z.
Proof.
  unfold js_gt, seconds_between, Qcompare, Qdiv, Qmult, Qinv, inject_Z; simpl.
  rewrite Z.sub_0_r, !Z.mul_1_r.
  destruct (Z.compare_spec d 30000), (Z.ltb_spec 30000 d); try reflexivity; lia.
Qed.

Lemma seconds_between_shift (now t : Z) :
  seconds_between now (Some t) = seconds_between (now - t) (Some 0%Z).
Proof. unfold seconds_between. now rewrite Z.sub_0_r. Qed.

(** The check of the handler, in milliseconds. *)
Lemma outside_window_ms (now t : Z) :
  outside_window now (Some t) = ((now - t <? 0)%Z || (30000 <? now - t)%Z).
Proof.
  unfold outside_window.
  now rewrite seconds_between_shift, js_lt_zero, js_gt_thirty.
Qed.

Lemma inside_window_iff (now t : Z) :
  outside_window now (Some t) = false <-> (0 <= now - t <= 30000)%Z.
Proof.
  rewrite outside_window_ms, orb_false_iff, !Z.ltb_ge. tauto.
Qed.

Lemma outside_window_iff (now t : Z) :
  outside_window now (Some t) = true <-> (now - t < 0 \/ 30000 < now - t)%Z.
Proof.
  rewrite outside_window_ms, orb_true_iff, !Z.ltb_lt. tauto.
Qed.

(** A payload without a usable time passes the check at any time. *)
Lemma outside_window_NaN (now : Z) : outside_window now None = false.
Proof. reflexivity. Qed.

Section ScanFacts.

Variable JSON_parse : string -> option JsValue.
Variable Date_getTime : JsValue -> TimeValue.
Variable driver_text : option JsValue -> option string.

Local Abbreviation scan_route := (scan JSON_parse Date_getTime driver_text).
Local Abbreviation qrTime := (qrTime_of Date_getTime).
Local Abbreviation text := (text_param driver_text).
Local Abbreviation carries := (carries JSON_parse).

(** Such a request reaches the freshness check, and the store only
    behind it. *)
Lemma scan_carries req user obj now scanTime :
  carries req user obj ->
  scan_route req now scanTime =
    if outside_window now (qrTime (get obj "timestamp"))
    then Done (Send 400%Z ERR_EXPIRED)
    else scan_store (auth_id user) (scan_params_id req)
                    (text (get obj "studentId")) scanTime.
Proof.
  intros (Ha & Hr & Hq & Hp & Hn).
  unfold scan. rewrite Ha, Hr, Hp. simpl.
  apply String.eqb_neq in Hq. rewrite Hq.
  destruct obj; try reflexivity. congruence.
Qed.

(** Text that does not parse is answered with the format error. *)
Lemma scan_unparseable req user now scanTime :
  scan_auth req = Some user -> auth_role user = "lecturer" ->
  scan_qrData req <> "" -> JSON_parse (scan_qrData req) = None ->
  scan_route req now scanTime = Done (Send 400%Z ERR_INVALID_FORMAT).
Proof.
  intros Ha Hr Hq Hp. unfold scan. rewrite Ha, Hr, Hp. simpl.
  apply String.eqb_neq in Hq. now rewrite Hq.
Qed.

(** C7. For a payload whose timestamp is a time [issuedAt], the request
    passes the freshness check (and goes on to the store) exactly when
    0 <= now - issuedAt <= 30 s, the bound of 30 s included; it is
    answered with the expiry error when the age is negative or above
    30 s. *)
Theorem scan_window_inclusive req user obj issuedAt now scanTime :
  carries req user obj ->
  qrTime (get obj "timestamp") = Some issuedAt ->
  (scan_route req now scanTime =
     scan_store (auth_id user) (scan_params_id req)
                (text (get obj "studentId")) scanTime
   <-> (0 <= now - issuedAt <= 30 * 1000)%Z)
  /\ (scan_route req now scanTime = Done (Send 400%Z ERR_EXPIRED)
      <-> (now - issuedAt < 0 \/ now - issuedAt > 30 * 1000)%Z).
Proof.
  intros Hc Ht. rewrite (scan_carries _ _ _ _ _ Hc), Ht.
  pose proof (inside_window_iff now issuedAt) as Hin.
  pose proof (outside_window_iff now issuedAt) as Hout.
  destruct (outside_window now (Some issuedAt)); split; split; intros H.
  - discriminate H.
  - apply Hin in H. discriminate H.
  - destruct Hout as [Hout _]. specialize (Hout eq_refl). lia.
  - reflexivity.
  - apply Hin. reflexivity.
  - reflexivity.
  - discriminate H.
  - destruct Hout as [_ Hout]. assert (true = false) by (symmetry; apply Hout; lia).
    discriminate.
Qed.

(** C6 as the code has it. A payload issued in the future and a payload
    older than 30 s are answered alike, with status 400 and the one
    expiry message, whatever the store holds; no reply tells the two
    apart. *)
Theorem scan_future_and_stale_same_reply req user obj issuedAt now scanTime db :
  carries req user obj ->
  qrTime (get obj "timestamp") = Some issuedAt ->
  (now - issuedAt < 0 \/ now - issuedAt > 30 * 1000)%Z ->
  run (scan_route req now scanTime) db = (Send 400%Z ERR_EXPIRED, db).
Proof.
  intros Hc Ht Hage. rewrite (scan_carries _ _ _ _ _ Hc), Ht.
  replace (outside_window now (Some issuedAt)) with true; [reflexivity|].
  symmetry. apply outside_window_iff. lia.
Qed.

(** C3 as the code has it. The freshness check comes first and does not
    look at the store; then the session must exist, then the caller must
    own it, then it must be active. *)
Theorem scan_check_order req user obj now scanTime db :
  carries req user obj ->
  let t := qrTime (get obj "timestamp") in
  (outside_window now t = true ->
     run (scan_route req now scanTime) db = (Send 400%Z ERR_EXPIRED, db))
  /\ (outside_window now t = false ->
      find_session (scan_params_id req) db = None ->
      run (scan_route req now scanTime) db = (Send 404%Z ERR_SESSION_NOT_FOUND, db))
  /\ (forall s,
      outside_window now t = false ->
      find_session (scan_params_id req) db = Some s ->
      session_lecturerId s <> auth_id user ->
      run (scan_route req now scanTime) db = (Send 403%Z ERR_SCAN_NOT_OWNER, db))
  /\ (forall s,
      outside_window now t = false ->
      find_session (scan_params_id req) db = Some s ->
      session_lecturerId s = auth_id user ->
      session_status s <> active ->
      run (scan_route req now scanTime) db = (Send 400%Z ERR_NOT_ACTIVE, db)).
Proof.
  intros Hc t. rewrite (scan_carries _ _ _ _ _ Hc). fold t.
  repeat split.
  - intros ->. reflexivity.
  - intros -> Hs. simpl. now rewrite Hs.
  - intros s -> Hs Ho. simpl. rewrite Hs.
    apply String.eqb_neq in Ho. now rewrite Ho.
  - intros s -> Hs Ho Hst. simpl. rewrite Hs, Ho, String.eqb_refl. simpl.
    destruct (session_status s); [congruence | reflexivity].
Qed.

End ScanFacts.

Lemma req_aina_carries : carries demo_JSON_parse req_aina lecturer1 obj_aina.
Proof. repeat split; try reflexivity; intros H; vm_compute in H; discriminate H. Qed.

Lemma req_aina_nowhere_carries :
  carries demo_JSON_parse req_aina_nowhere lecturer1 obj_aina.
Proof. repeat split; try reflexivity; intros H; vm_compute in H; discriminate H. Qed.

(** Aina's code was issued at 10 s; at 40 s its age is exactly 30 s and
    the request is still let through to the store. *)
Lemma scan_window_inclusive_at_30s :
  (demo_scan req_aina 40000%Z 40000%Z
     = scan_store "lec-1" 1%N (Some "stu-a") 40000%Z
   <-> (0 <= 40000 - 10000 <= 30 * 1000)%Z)
  /\ (demo_scan req_aina 40000%Z 40000%Z = Done (Send 400%Z ERR_EXPIRED)
      <-> (40000 - 10000 < 0 \/ 40000 - 10000 > 30 * 1000)%Z).
Proof.
  exact (scan_window_inclusive demo_JSON_parse demo_Date_getTime demo_driver_text
           req_aina lecturer1 obj_aina 10000%Z 40000%Z 40000%Z
           req_aina_carries eq_refl).
Defined.

(** C6 does not hold as stated: Aina's code issued at 10 s is read at 5 s
    (issued in the future) and at 45 s (35 s old); both requests get the
    very same reply. *)
Lemma future_and_stale_get_one_reply :
  fst (run (demo_scan req_aina 5000%Z 5000%Z) db0) = Send 400%Z ERR_EXPIRED
  /\ fst (run (demo_scan req_aina 45000%Z 45000%Z) db0) = Send 400%Z ERR_EXPIRED.
Proof. split; vm_compute; reflexivity. Qed.

Lemma scan_future_and_stale_same_reply_at_45s :
  run (demo_scan req_aina 45000%Z 45000%Z) db0 = (Send 400%Z ERR_EXPIRED, db0).
Proof.
  apply (scan_future_and_stale_same_reply demo_JSON_parse demo_Date_getTime
           demo_driver_text req_aina lecturer1 obj_aina 10000%Z).
  - exact req_aina_carries.
  - reflexivity.
  - right. lia.
Defined.

(** C3 does not hold as stated: session 99 does not exist and the code is 35 s
    old; the reply is the expiry error, not the 404 of a missing session. *)
Lemma stale_scan_of_missing_session :
  find_session 99%N db0 = None
  /\ run (demo_scan req_aina_nowhere 45000%Z 45000%Z) db0
     = (Send 400%Z ERR_EXPIRED, db0)
  /\ Send 400%Z ERR_EXPIRED <> Send (A := ScanOk) 404%Z ERR_SESSION_NOT_FOUND.
Proof. repeat split; try (vm_compute; reflexivity). discriminate. Qed.

Lemma scan_check_order_demo :
  run (demo_scan req_aina_nowhere 45000%Z 45000%Z) db0 = (Send 400%Z ERR_EXPIRED, db0)
  /\ run (demo_scan req_aina_nowhere 20000%Z 20000%Z) db0
     = (Send 404%Z ERR_SESSION_NOT_FOUND, db0).
Proof.
  pose proof (scan_check_order demo_JSON_parse demo_Date_getTime demo_driver_text
                req_aina_nowhere lecturer1 obj_aina 45000%Z 45000%Z db0
                req_aina_nowhere_carries) as (Hstale & _).
  pose proof (scan_check_order demo_JSON_parse demo_Date_getTime demo_driver_text
                req_aina_nowhere lecturer1 obj_aina 20000%Z 20000%Z db0
                req_aina_nowhere_carries) as (_ & Hmissing & _).
  split.
  - apply Hstale. vm_compute. reflexivity.
  - apply Hmissing; vm_compute; reflexivity.
Defined.

(** C8, at the failing input: the object without a timestamp is not
    rejected; whatever the clock reads it passes the freshness check and
    Aina is recorded present. *)
Theorem scan_without_timestamp_is_recorded (now scanTime : Z) :
  run (demo_scan req_aina_no_timestamp now scanTime) db0
  = (Return (mkScanOk true "Aina"),
     mkDb demo_users [demo_session] [mkRecord 1%N "stu-a" present (Some scanTime)]).
Proof. reflexivity. Qed.

(* ================================================================== *)
(** ** Keys, sets and the constraints of the schema                    *)
(* ================================================================== *)

Lemma same_key_iff sid stu r :
  same_key sid stu r = true <-> key_of r = (sid, stu).
Proof.
  unfold same_key, key_of. rewrite andb_true_iff, N.eqb_eq, String.eqb_eq.
  split; [intros [-> ->]; reflexivity | intros [= -> ->]; split; reflexivity].
Qed.

Lemma has_record_iff sid stu rs :
  has_record sid stu rs = true <-> In (sid, stu) (map key_of rs).
Proof.
  unfold has_record. rewrite existsb_exists, in_map_iff.
  split; intros (r & H1 & H2).
  - exists r. split; [apply same_key_iff|]; assumption.
  - exists r. split; [|apply same_key_iff]; assumption.
Qed.

Lemma has_record_app sid stu rs rs' :
  has_record sid stu (rs ++ rs') = has_record sid stu rs || has_record sid stu rs'.
Proof. apply existsb_app. Qed.

Lemma unique_records_iff rs :
  unique_records rs = true <-> NoDup (map key_of rs).
Proof.
  induction rs as [|r rs IH]; simpl.
  - split; [constructor | reflexivity].
  - rewrite andb_true_iff, negb_true_iff, IH. split.
    + intros [Hn Hd]. constructor; [|assumption].
      intros Hin. apply has_record_iff in Hin. unfold key_of in Hin. congruence.
    + intros Hd. inversion Hd as [|? ? Hn Hd']; subst. split; [|assumption].
      destruct (has_record _ _ rs) eqn:E; [|reflexivity].
      apply has_record_iff in E. contradiction.
Qed.

Lemma Set_has_iff x s : Set_has x s = true <-> In x s.
Proof.
  unfold Set_has. rewrite existsb_exists. split.
  - intros (y & Hy & E). apply String.eqb_eq in E. now subst.
  - intros H. exists x. split; [assumption | apply String.eqb_refl].
Qed.

Lemma distinctb_iff l : distinctb l = true <-> NoDup l.
Proof.
  induction l as [|x l IH]; simpl.
  - split; [constructor | reflexivity].
  - rewrite andb_true_iff, negb_true_iff, IH. fold (Set_has x l). split.
    + intros [Hn Hd]. constructor; [|assumption].
      intros Hin. apply Set_has_iff in Hin. congruence.
    + intros Hd. inversion Hd as [|? ? Hn Hd']; subst. split; [|assumption].
      destruct (Set_has x l) eqn:E; [|reflexivity].
      apply Set_has_iff in E. contradiction.
Qed.

Lemma Set_add_In s x y : In y (Set_add s x) <-> In y s \/ y = x.
Proof.
  unfold Set_add. destruct (Set_has x s) eqn:E.
  - apply Set_has_iff in E. split; [tauto | intros [H | ->]; assumption].
  - rewrite in_app_iff. simpl. intuition congruence.
Qed.

Lemma Set_add_NoDup s x : NoDup s -> NoDup (Set_add s x).
Proof.
  intros Hs. unfold Set_add. destruct (Set_has x s) eqn:E; [assumption|].
  apply NoDup_app; [assumption | repeat constructor; intros [] | ].
  intros y Hy [<- | []]. apply Set_has_iff in Hy. congruence.
Qed.

Lemma fold_Set_add_In l : forall acc y,
  In y (fold_left Set_add l acc) <-> In y acc \/ In y l.
Proof.
  induction l as [|x l IH]; intros acc y; simpl.
  - tauto.
  - rewrite IH, Set_add_In. intuition congruence.
Qed.

Lemma fold_Set_add_NoDup l : forall acc,
  NoDup acc -> NoDup (fold_left Set_add l acc).
Proof.
  induction l as [|x l IH]; intros acc H; simpl; [assumption|].
  apply IH, Set_add_NoDup, H.
Qed.

(** [new Set(l)] holds the elements of [l], each once. *)
Lemma Set_of_In l y : In y (Set_of l) <-> In y l.
Proof. unfold Set_of. rewrite fold_Set_add_In. simpl. tauto. Qed.

Lemma Set_of_NoDup l : NoDup (Set_of l).
Proof. apply fold_Set_add_NoDup. constructor. Qed.

(** Membership in the set of scanned ids is having a row in the session. *)
Lemma scanned_has_record sid stu db :
  Set_has stu (Set_of (map record_studentId (session_records sid db)))
  = has_record sid stu (attendanceRecords db).
Proof.
  apply eq_iff_eq_true.
  rewrite Set_has_iff, Set_of_In, has_record_iff, !in_map_iff.
  unfold session_records. split.
  - intros (r & <- & Hr). apply filter_In in Hr as [Hr E].
    apply N.eqb_eq in E. exists r. unfold key_of. now rewrite E.
  - intros (r & [= <- <-] & Hr). exists r. split; [reflexivity|].
    apply filter_In. split; [assumption | apply N.eqb_refl].
Qed.

Lemma find_session_exists sid db s :
  find_session sid db = Some s -> session_exists sid (attendanceSessions db) = true.
Proof.
  intros H. apply find_some in H as [Hin E].
  apply existsb_exists. exists s. split; assumption.
Qed.

Lemma find_session_id sid db s :
  find_session sid db = Some s -> session_id s = sid.
Proof. intros H. apply find_some in H as [_ E]. now apply N.eqb_eq. Qed.

Lemma user_exists_In u us : In u us -> user_exists (user_id u) us = true.
Proof.
  intros H. apply existsb_exists. exists u. split; [assumption | apply String.eqb_refl].
Qed.

(** A batch of rows with fresh, distinct keys and satisfied foreign keys
    goes in whole, at the end of the table. *)
Lemma insert_rows_fresh rows : forall db,
  NoDup (map key_of rows) ->
  (forall r, In r rows ->
     has_record (record_sessionId r) (record_studentId r) (attendanceRecords db) = false
     /\ session_exists (record_sessionId r) (attendanceSessions db) = true
     /\ user_exists (record_studentId r) (users db) = true) ->
  insert_rows rows db
  = inr (mkDb (users db) (attendanceSessions db) (attendanceRecords db ++ rows)).
Proof.
  induction rows as [|r rows IH]; intros db Hd Hr; simpl.
  - rewrite app_nil_r. destruct db; reflexivity.
  - inversion Hd as [|? ? Hn Hd']; subst.
    destruct (Hr r (or_introl eq_refl)) as (H1 & H2 & H3).
    unfold insert_row. rewrite H1, H2, H3. simpl.
    rewrite IH; simpl.
    + now rewrite <- app_assoc.
    + assumption.
    + intros r' Hin. destruct (Hr r' (or_intror Hin)) as (H1' & H2' & H3').
      repeat split; try assumption.
      rewrite has_record_app, H1'. simpl. rewrite orb_false_r.
      destruct (same_key _ _ r) eqn:E; [|reflexivity].
      apply same_key_iff in E. exfalso. apply Hn. rewrite E.
      apply in_map_iff. exists r'. split; [reflexivity | assumption].
Qed.

(** *** The constraints are kept by every statement *)

Lemma schema_ok_iff db :
  schema_ok db = true <->
  NoDup (map user_id (users db))
  /\ NoDup (map key_of (attendanceRecords db))
  /\ (forall r, In r (attendanceRecords db) ->
        session_exists (record_sessionId r) (attendanceSessions db) = true
        /\ user_exists (record_studentId r) (users db) = true).
Proof.
  unfold schema_ok.
  rewrite !andb_true_iff, distinctb_iff, unique_records_iff, forallb_forall.
  split; intros ((H1 & H2) & H3) || intros (H1 & H2 & H3); repeat split;
    try assumption.
  - apply H3 in H. apply andb_true_iff in H. tauto.
  - apply H3 in H. apply andb_true_iff in H. tauto.
  - intros r Hr. apply andb_true_iff. apply H3, Hr.
Qed.

Lemma insert_row_schema_ok r db db' :
  schema_ok db = true -> insert_row r db = inr db' -> schema_ok db' = true.
Proof.
  intros Hok. unfold insert_row.
  destruct (has_record _ _ _) eqn:E1; [discriminate|].
  destruct (session_exists _ _) eqn:E2; [|discriminate].
  destruct (user_exists _ _) eqn:E3; [|discriminate].
  simpl. intros [= <-].
  apply schema_ok_iff in Hok as (H1 & H2 & H3).
  apply schema_ok_iff; simpl. repeat split.
  - assumption.
  - rewrite map_app. apply NoDup_app; [assumption | repeat constructor; intros [] |].
    simpl. intros k Hk [<- | []].
    apply has_record_iff in Hk. unfold key_of in Hk. simpl in Hk. congruence.
  - apply in_app_iff in H as [H | [<- | []]]; [apply H3, H | assumption].
  - apply in_app_iff in H as [H | [<- | []]]; [apply H3, H | assumption].
Qed.

Lemma insert_rows_schema_ok rows : forall db db',
  schema_ok db = true -> insert_rows rows db = inr db' -> schema_ok db' = true.
Proof.
  induction rows as [|r rows IH]; intros db db' Hok; simpl.
  - now intros [= <-].
  - destruct (insert_row r db) as [e | db1] eqn:E; [discriminate|].
    apply IH. eapply insert_row_schema_ok; eassumption.
Qed.

Lemma set_status_id sid st s : session_id (set_status sid st s) = session_id s.
Proof. unfold set_status. now destruct (N.eqb _ _). Qed.

Lemma session_exists_update sid' sid st ss :
  session_exists sid' (map (set_status sid st) ss) = session_exists sid' ss.
Proof.
  induction ss as [|s ss IH]; simpl; [reflexivity|].
  now rewrite set_status_id, IH.
Qed.

Lemma update_status_schema_ok sid st db :
  schema_ok db = true -> schema_ok (update_status sid st db) = true.
Proof.
  unfold schema_ok, update_status; simpl.
  rewrite !andb_true_iff, !forallb_forall. intros [[H1 H2] H3].
  repeat split; try assumption.
  intros r Hr. rewrite session_exists_update. apply H3, Hr.
Qed.

(** The unique index, the primary key and the foreign keys hold after a
    statement if they held before it, whether it succeeds or raises. *)
Lemma exec_schema_ok {X : Type} (s : Stmt X) db :
  schema_ok db = true -> schema_ok (snd (exec s db)) = true.
Proof.
  intros Hok. destruct s; simpl; try assumption.
  - destruct (insert_rows rows db) as [e | db'] eqn:E; simpl; [assumption|].
    eapply insert_rows_schema_ok; eassumption.
  - now apply update_status_schema_ok.
Qed.

Lemma step_schema_ok {A : Type} (p : Prog (Response A)) db :
  schema_ok db = true -> schema_ok (snd (step p db)) = true.
Proof.
  intros Hok. destruct p as [r | X s k]; simpl; [assumption|].
  pose proof (exec_schema_ok s db Hok) as H.
  destruct (exec s db) as [[e | x] db']; exact H.
Qed.

Lemma run_schema_ok {A : Type} (p : Prog (Response A)) : forall db,
  schema_ok db = true -> schema_ok (snd (run p db)) = true.
Proof.
  induction p as [r | X s k IH]; intros db Hok; simpl; [assumption|].
  pose proof (exec_schema_ok s db Hok) as H.
  destruct (exec s db) as [[e | x] db']; simpl in *; [assumption|].
  apply IH, H.
Qed.

Lemma interleave_schema_ok {A B : Type} (sched : list bool) :
  forall (p : Prog (Response A)) (q : Prog (Response B)) db,
  schema_ok db = true -> schema_ok (snd (interleave sched p q db)) = true.
Proof.
  induction sched as [|[|] sched IH]; intros p q db Hok; simpl.
  - pose proof (run_schema_ok p db Hok) as H1.
    destruct (run p db) as [a db1]. simpl in H1.
    pose proof (run_schema_ok q db1 H1) as H2.
    destruct (run q db1) as [b db2]. exact H2.
  - pose proof (step_schema_ok p db Hok) as H.
    destruct (step p db) as [p' db']. apply IH, H.
  - pose proof (step_schema_ok q db Hok) as H.
    destruct (step q db) as [q' db']. apply IH, H.
Qed.

(** Under the unique index a pair that has a row has exactly one. *)
Lemma unique_records_one sid stu rs :
  unique_records rs = true -> has_record sid stu rs = true ->
  List.length (records_of sid stu rs) = 1.
Proof.
  unfold records_of.
  induction rs as [|r rs IH]; simpl; [discriminate|].
  rewrite andb_true_iff, negb_true_iff. intros [Hn Hu].
  destruct (same_key sid stu r) eqn:E; simpl.
  - intros _. apply same_key_iff in E. injection E as <- <-.
    f_equal. destruct (filter _ rs) as [|r' l] eqn:F; [reflexivity|].
    assert (In r' (filter (same_key (record_sessionId r) (record_studentId r)) rs))
      as Hin by (rewrite F; left; reflexivity).
    apply filter_In in Hin as [Hin Ek].
    assert (has_record (record_sessionId r) (record_studentId r) rs = true)
      by (apply existsb_exists; exists r'; split; assumption).
    congruence.
  - intros H. apply IH; assumption.
Qed.

(* ================================================================== *)
(** ** Completing a session                                            *)
(* ================================================================== *)

Lemma unscanned_lacking sid db :
  unscanned (map record_studentId (session_records sid db))
            (filter (fun u => String.eqb (user_role u) "student") (users db))
  = lacking sid db.
Proof.
  unfold unscanned, lacking. apply filter_ext.
  intros u. now rewrite scanned_has_record.
Qed.

Lemma NoDup_map_filter {A B : Type} (f : A -> B) (p : A -> bool) l :
  NoDup (map f l) -> NoDup (map f (filter p l)).
Proof.
  induction l as [|a l IH]; simpl; [trivial|].
  intros H. inversion H as [|? ? Hn Hd]; subst.
  destruct (p a); simpl; [|now apply IH].
  constructor; [|now apply IH].
  intros Hin. apply Hn. apply in_map_iff in Hin as (x & E & Hx).
  apply filter_In in Hx as [Hx _]. apply in_map_iff. now exists x.
Qed.

Lemma NoDup_map_pair {A B : Type} (a : A) (l : list B) :
  NoDup l -> NoDup (map (pair a) l).
Proof.
  induction 1 as [|x l Hn Hd IH]; simpl; constructor; [|assumption].
  intros Hin. apply in_map_iff in Hin as (y & [= <-] & Hy). contradiction.
Qed.

Lemma lacking_In sid db u :
  In u (lacking sid db) <->
  In u (users db) /\ user_role u = "student"
  /\ has_record sid (user_id u) (attendanceRecords db) = false.
Proof.
  unfold lacking, is_student.
  rewrite !filter_In, negb_true_iff, String.eqb_eq. tauto.
Qed.

Lemma backfill_keys sid db :
  map key_of (map (absent_row sid) (lacking sid db))
  = map (pair sid) (map user_id (lacking sid db)).
Proof. rewrite !map_map. reflexivity. Qed.

(** The back-fill is accepted by the store: the rows are for distinct
    users, none of whom has a row in the session. *)
Lemma backfill_insert sid db :
  schema_ok db = true ->
  session_exists sid (attendanceSessions db) = true ->
  insert_rows (map (absent_row sid) (lacking sid db)) db = inr (backfilled sid db).
Proof.
  intros Hok Hs. apply schema_ok_iff in Hok as (Hu & _ & _).
  apply insert_rows_fresh.
  - rewrite backfill_keys. apply NoDup_map_pair.
    unfold lacking. now do 2 apply NoDup_map_filter.
  - intros r Hr. apply in_map_iff in Hr as (u & <- & Hin).
    apply lacking_In in Hin as (Hin & _ & Hno). simpl.
    repeat split; [assumption | assumption | now apply user_exists_In].
Qed.

Lemma backfilled_nothing sid db : lacking sid db = [] -> backfilled sid db = db.
Proof.
  unfold backfilled. intros ->. simpl. rewrite app_nil_r. now destruct db.
Qed.

(** After the back-fill every student has a row in the session. *)
Lemma backfilled_has_record sid db u :
  In u (users db) -> user_role u = "student" ->
  has_record sid (user_id u) (attendanceRecords (backfilled sid db)) = true.
Proof.
  intros Hin Hrole. simpl. rewrite has_record_app.
  destruct (has_record sid (user_id u) (attendanceRecords db)) eqn:E; [reflexivity|].
  simpl. apply has_record_iff. rewrite backfill_keys.
  apply in_map, in_map. apply lacking_In. auto.
Qed.

Lemma lacking_backfilled sid db : lacking sid (backfilled sid db) = [].
Proof.
  destruct (lacking sid (backfilled sid db)) as [|u l] eqn:E; [reflexivity|].
  assert (In u (lacking sid (backfilled sid db))) as Hin by (rewrite E; now left).
  apply lacking_In in Hin as (Hin & Hrole & Hno).
  rewrite (backfilled_has_record sid db u Hin Hrole) in Hno. discriminate.
Qed.

Lemma lacking_update sid sid' st db :
  lacking sid (update_status sid' st db) = lacking sid db.
Proof. reflexivity. Qed.

Lemma find_session_update sid st db s :
  find_session sid db = Some s ->
  find_session sid (update_status sid st db) = Some (set_status sid st s).
Proof.
  unfold find_session, update_status; simpl.
  induction (attendanceSessions db) as [|x ss IH]; simpl; [discriminate|].
  rewrite set_status_id. destruct (N.eqb (session_id x) sid); [|exact IH].
  now intros [= ->].
Qed.

Lemma find_session_other sid sid' st db :
  sid' <> sid ->
  find_session sid' (update_status sid st db) = find_session sid' db.
Proof.
  intros Hne. unfold find_session, update_status; simpl.
  induction (attendanceSessions db) as [|x ss IH]; simpl; [reflexivity|].
  rewrite set_status_id. destruct (N.eqb (session_id x) sid') eqn:E; [|exact IH].
  unfold set_status. apply N.eqb_eq in E.
  destruct (N.eqb_spec (session_id x) sid); [congruence | reflexivity].
Qed.

Lemma set_status_twice sid st s :
  set_status sid st (set_status sid st s) = set_status sid st s.
Proof.
  unfold set_status. destruct (N.eqb (session_id s) sid) eqn:E; simpl; now rewrite E.
Qed.

Lemma update_status_twice sid st db :
  update_status sid st (update_status sid st db) = update_status sid st db.
Proof.
  unfold update_status; simpl. f_equal. rewrite map_map.
  apply map_ext. intros s. apply set_status_twice.
Qed.

Lemma set_status_lecturer sid st s :
  session_lecturerId (set_status sid st s) = session_lecturerId s.
Proof. unfold set_status. now destruct (N.eqb _ _). Qed.

Lemma set_status_status sid st s :
  session_id s = sid -> session_status (set_status sid st s) = st.
Proof. intros <-. unfold set_status. now rewrite N.eqb_refl. Qed.

Section CompleteRuns.

Variables (req : CompleteRequest) (user : AuthUser) (s : AttendanceSession) (db : Db).
Hypothesis Hauth : complete_auth req = Some user.
Hypothesis Hrole : auth_role user = "lecturer".
Hypothesis Hfind : find_session (complete_params_id req) db = Some s.
Hypothesis Hown : session_lecturerId s = auth_id user.

Local Abbreviation sid := (complete_params_id req).

(** The three reads leave the store alone and hand the unscanned
    students to the back-fill. *)
Lemma complete_reads :
  run (complete req) db = run (complete_backfill sid (lacking sid db)) db.
Proof.
  unfold complete. rewrite Hauth, Hrole. simpl.
  rewrite Hfind, Hown, String.eqb_refl. simpl.
  now rewrite unscanned_lacking.
Qed.

Lemma complete_reads_faulty faults :
  run_faulty (false :: false :: false :: faults) (complete req) db
  = run_faulty faults (complete_backfill sid (lacking sid db)) db.
Proof.
  unfold complete. rewrite Hauth, Hrole. simpl.
  rewrite Hfind, Hown, String.eqb_refl. simpl.
  now rewrite unscanned_lacking.
Qed.

Hypothesis Hok : schema_ok db = true.

(** The run of the handler when no statement is lost. *)
Lemma complete_run :
  run (complete req) db
  = (Return (mkCompleteOk true (List.length (lacking sid db))),
     update_status sid completed (backfilled sid db)).
Proof.
  rewrite complete_reads. unfold complete_backfill.
  destruct (lacking sid db) as [|u l] eqn:E.
  - simpl. now rewrite (backfilled_nothing _ _ E).
  - rewrite <- E. simpl.
    rewrite (backfill_insert _ _ Hok (find_session_exists _ _ _ Hfind)).
    reflexivity.
Qed.

(** The run in which the store is lost between the back-fill and the
    status flip. *)
Lemma complete_run_lost_flip :
  lacking sid db <> [] ->
  run_faulty [false; false; false; false; true] (complete req) db
  = (Throw (StoreError StoreUnavailable), backfilled sid db).
Proof.
  intros Hne. rewrite complete_reads_faulty. unfold complete_backfill.
  destruct (lacking sid db) as [|u l] eqn:E; [congruence|].
  rewrite <- E. simpl.
  rewrite (backfill_insert _ _ Hok (find_session_exists _ _ _ Hfind)).
  reflexivity.
Qed.

End CompleteRuns.

Lemma backfilled_schema_ok sid db :
  schema_ok db = true ->
  session_exists sid (attendanceSessions db) = true ->
  schema_ok (backfilled sid db) = true.
Proof.
  intros Hok Hs.
  exact (insert_rows_schema_ok _ _ _ Hok (backfill_insert sid db Hok Hs)).
Qed.

(** C1 as the code has it. The session's owner completes it; the store
    satisfies the constraints of the schema. The absent rows go to the
    users with role student that have no row in the session, whether or
    not they ever attended the course, and to nobody else; afterwards
    every student has exactly one row in the session, and the session is
    completed. *)
Theorem complete_backfills_every_student req user s db :
  schema_ok db = true ->
  complete_auth req = Some user ->
  auth_role user = "lecturer" ->
  find_session (complete_params_id req) db = Some s ->
  session_lecturerId s = auth_id user ->
  let sid := complete_params_id req in
  exists db',
    run (complete req) db
    = (Return (mkCompleteOk true (List.length (lacking sid db))), db')
    /\ attendanceRecords db'
       = (attendanceRecords db ++ map (absent_row sid) (lacking sid db))%list
    /\ (forall u, In u (lacking sid db) <->
          In u (users db) /\ user_role u = "student"
          /\ has_record sid (user_id u) (attendanceRecords db) = false)
    /\ (forall u, In u (users db) -> user_role u = "student" ->
          List.length (records_of sid (user_id u) (attendanceRecords db')) = 1)
    /\ (exists s', find_session sid db' = Some s' /\ session_status s' = completed).
Proof.
  intros Hok Hauth Hrole Hfind Hown sid.
  exists (update_status sid completed (backfilled sid db)).
  pose proof (find_session_exists _ _ _ Hfind) as Hex.
  split; [exact (complete_run req user s db Hauth Hrole Hfind Hown Hok)|].
  split; [reflexivity|].
  split; [intros u; apply lacking_In|].
  split.
  - intros u Hin Hst. apply unique_records_one.
    + pose proof (backfilled_schema_ok sid db Hok Hex) as H.
      unfold schema_ok in H. rewrite !andb_true_iff in H. apply H.
    + exact (backfilled_has_record sid db u Hin Hst).
  - exists (set_status sid completed s). split.
    + apply (find_session_update sid completed (backfilled sid db) s). exact Hfind.
    + apply set_status_status. exact (find_session_id _ _ _ Hfind).
Qed.

(** C5. Completing twice: the first run reports the students that had no
    row; the second run, on the store the first one left, inserts
    nothing, reports 0 and leaves the store as it is. *)
Theorem complete_twice_same_records req user s db :
  schema_ok db = true ->
  complete_auth req = Some user ->
  auth_role user = "lecturer" ->
  find_session (complete_params_id req) db = Some s ->
  session_lecturerId s = auth_id user ->
  let sid := complete_params_id req in
  exists db1,
    run (complete req) db
    = (Return (mkCompleteOk true (List.length (lacking sid db))), db1)
    /\ lacking sid db1 = []
    /\ run (complete req) db1 = (Return (mkCompleteOk true 0), db1).
Proof.
  intros Hok Hauth Hrole Hfind Hown sid.
  pose proof (find_session_exists _ _ _ Hfind) as Hex.
  set (db1 := update_status sid completed (backfilled sid db)).
  assert (lacking sid db1 = []) as Hnone by apply lacking_backfilled.
  exists db1. split; [exact (complete_run req user s db Hauth Hrole Hfind Hown Hok)|].
  split; [exact Hnone|].
  rewrite (complete_run req user (set_status sid completed s) db1 Hauth Hrole).
  - fold sid. rewrite Hnone, (backfilled_nothing _ _ Hnone). simpl.
    unfold db1. now rewrite update_status_twice.
  - apply (find_session_update sid completed (backfilled sid db) s). exact Hfind.
  - now rewrite set_status_lecturer.
  - apply update_status_schema_ok, backfilled_schema_ok; assumption.
Qed.

(** C4 as the code has it. The back-fill and the status flip are two
    statements.  When the store is lost between them the absent rows are
    in and the session is as it was, still to be completed; completing
    again then inserts nothing, reports 0 and leaves the very store an
    uninterrupted run would have left. *)
Theorem complete_lost_between_backfill_and_flip req user s db :
  schema_ok db = true ->
  complete_auth req = Some user ->
  auth_role user = "lecturer" ->
  find_session (complete_params_id req) db = Some s ->
  session_lecturerId s = auth_id user ->
  lacking (complete_params_id req) db <> [] ->
  let sid := complete_params_id req in
  exists mid,
    run_faulty [false; false; false; false; true] (complete req) db
    = (Throw (StoreError StoreUnavailable), mid)
    /\ attendanceRecords mid
       = (attendanceRecords db ++ map (absent_row sid) (lacking sid db))%list
    /\ attendanceSessions mid = attendanceSessions db
    /\ run (complete req) mid
       = (Return (mkCompleteOk true 0), snd (run (complete req) db)).
Proof.
  intros Hok Hauth Hrole Hfind Hown Hne sid.
  pose proof (find_session_exists _ _ _ Hfind) as Hex.
  exists (backfilled sid db).
  split; [exact (complete_run_lost_flip req user s db Hauth Hrole Hfind Hown Hok Hne)|].
  split; [reflexivity|]. split; [reflexivity|].
  rewrite (complete_run req user s db Hauth Hrole Hfind Hown Hok). simpl.
  rewrite (complete_run req user s (backfilled sid db) Hauth Hrole Hfind Hown).
  - fold sid. rewrite lacking_backfilled.
    now rewrite (backfilled_nothing _ _ (lacking_backfilled sid db)).
  - apply backfilled_schema_ok; assumption.
Qed.

Lemma complete_backfills_every_student_db1 :
  exists db',
    run (complete req_complete) db1
    = (Return (mkCompleteOk true (List.length (lacking 1%N db1))), db')
    /\ attendanceRecords db'
       = (attendanceRecords db1 ++ map (absent_row 1%N) (lacking 1%N db1))%list
    /\ (forall u, In u (lacking 1%N db1) <->
          In u (users db1) /\ user_role u = "student"
          /\ has_record 1%N (user_id u) (attendanceRecords db1) = false)
    /\ (forall u, In u (users db1) -> user_role u = "student" ->
          List.length (records_of 1%N (user_id u) (attendanceRecords db')) = 1)
    /\ (exists s', find_session 1%N db' = Some s' /\ session_status s' = completed).
Proof.
  exact (complete_backfills_every_student req_complete lecturer1 demo_session db1
           eq_refl eq_refl eq_refl eq_refl eq_refl).
Defined.

(** C1 does not hold as stated: session 1 belongs to course 10, whose only
    student is Aina; Badrul attends course 20.  Completing session 1
    gives Badrul an absent row in it. *)
Lemma complete_marks_student_of_another_course :
  students_in_course 10%N db2 = ["stu-a"]
  /\ students_in_course 20%N db2 = ["stu-b"]
  /\ run (complete req_complete) db2
     = (Return (mkCompleteOk true 1),
        mkDb demo_users
             [ mkSession 1%N 10%N "lec-1" 3%Z "2026-01-27" "10:00:00" completed;
               other_session ]
             [ mkRecord 1%N "stu-a" present (Some 5000%Z);
               mkRecord 2%N "stu-b" present (Some 6000%Z);
               mkRecord 1%N "stu-b" absent None ]).
Proof. repeat split. Qed.

Lemma complete_twice_same_records_db1 :
  exists db',
    run (complete req_complete) db1
    = (Return (mkCompleteOk true (List.length (lacking 1%N db1))), db')
    /\ lacking 1%N db' = []
    /\ run (complete req_complete) db' = (Return (mkCompleteOk true 0), db').
Proof.
  exact (complete_twice_same_records req_complete lecturer1 demo_session db1
           eq_refl eq_refl eq_refl eq_refl eq_refl).
Defined.

(** C4 does not hold as stated: the store is lost after the back-fill of
    session 1; Badrul's absent row is in, and session 1 is still active. *)
Lemma complete_interrupted_leaves_rows_in_active_session :
  run_faulty [false; false; false; false; true] (complete req_complete) db1
  = (Throw (StoreError StoreUnavailable),
     mkDb demo_users
          [ mkSession 1%N 10%N "lec-1" 3%Z "2026-01-27" "10:00:00" active ]
          [ mkRecord 1%N "stu-a" present (Some 5000%Z);
            mkRecord 1%N "stu-b" absent None ]).
Proof. reflexivity. Qed.

Lemma complete_lost_between_backfill_and_flip_db1 :
  exists mid,
    run_faulty [false; false; false; false; true] (complete req_complete) db1
    = (Throw (StoreError StoreUnavailable), mid)
    /\ attendanceRecords mid
       = (attendanceRecords db1 ++ map (absent_row 1%N) (lacking 1%N db1))%list
    /\ attendanceSessions mid = attendanceSessions db1
    /\ run (complete req_complete) mid
       = (Return (mkCompleteOk true 0), snd (run (complete req_complete) db1)).
Proof.
  apply (complete_lost_between_backfill_and_flip req_complete lecturer1 demo_session db1);
    try reflexivity.
  vm_compute. discriminate.
Defined.

(* ================================================================== *)
(** ** Statistics                                                      *)
(* ================================================================== *)

Lemma Map_set_keys {V : Type} k (v : V) m :
  map fst (Map_set k v m) = Set_add (map fst m) k.
Proof.
  induction m as [|[k' v'] m IH]; simpl; [reflexivity|].
  unfold Set_add in *. simpl.
  destruct (String.eqb_spec k k') as [-> | Hne]; simpl; [reflexivity|].
  rewrite IH. now destruct (Set_has k (map fst m)).
Qed.

Lemma fold_Map_set_keys {V : Type} (entries : list (string * V)) : forall m,
  map fst (fold_left (fun m kv => Map_set (fst kv) (snd kv) m) entries m)
  = fold_left Set_add (map fst entries) (map fst m).
Proof.
  induction entries as [|[k v] entries IH]; intros m; simpl; [reflexivity|].
  now rewrite IH, Map_set_keys.
Qed.

(** The keys of [new Map(entries)] are those of [new Set(keys)]. *)
Lemma Map_of_keys {V : Type} (entries : list (string * V)) :
  map fst (Map_of entries) = Set_of (map fst entries).
Proof. unfold Map_of, Set_of. now rewrite fold_Map_set_keys. Qed.

Lemma Map_set_keyed p m : keyed m -> keyed (Map_set (entry_studentId p) p m).
Proof.
  unfold keyed. induction 1 as [|[k v] m Hk Hm IH]; simpl.
  - repeat constructor.
  - destruct (String.eqb _ k); constructor; auto.
Qed.

Lemma fold_Map_set_keyed l : forall m,
  keyed m ->
  keyed (fold_left (fun m kv => Map_set (fst kv) (snd kv) m)
                   (map (fun p => (entry_studentId p, p)) l) m).
Proof.
  induction l as [|p l IH]; intros m Hm; simpl; [assumption|].
  apply IH, Map_set_keyed, Hm.
Qed.

Lemma keyed_values m : keyed m -> map entry_studentId (Map_values m) = map fst m.
Proof.
  unfold Map_values. induction 1 as [|kv m Hk Hm IH]; simpl; [reflexivity|].
  now rewrite Hk, IH.
Qed.

(** A returned list holds each student id of its rows once, in the order
    of first appearance. *)
Lemma dedupe_ids l :
  map entry_studentId (dedupe l) = Set_of (map entry_studentId l).
Proof.
  unfold dedupe. rewrite keyed_values.
  - rewrite Map_of_keys, map_map. reflexivity.
  - apply fold_Map_set_keyed. constructor.
Qed.

Lemma Set_add_length s x : List.length s <= List.length (Set_add s x) <= S (List.length s).
Proof.
  unfold Set_add. destruct (Set_has x s); [lia|].
  rewrite length_app. simpl. lia.
Qed.

Lemma fold_Set_add_length l : forall acc,
  List.length (fold_left Set_add l acc) <= List.length acc + List.length l.
Proof.
  induction l as [|x l IH]; intros acc; simpl; [lia|].
  specialize (IH (Set_add acc x)). pose proof (Set_add_length acc x). lia.
Qed.

Lemma Set_of_length l : List.length (Set_of l) <= List.length l.
Proof. unfold Set_of. apply (fold_Set_add_length l []). Qed.

Lemma dedupe_length l : List.length (dedupe l) <= List.length l.
Proof.
  rewrite <- (length_map entry_studentId (dedupe l)), dedupe_ids.
  rewrite <- (length_map entry_studentId l). apply Set_of_length.
Qed.

Lemma entries_with_ids st records :
  map entry_studentId (entries_with st records)
  = map row_studentId (filter (fun r => status_eqb (row_status r) st) records).
Proof. unfold entries_with. now rewrite map_map. Qed.

Lemma percentage_of_none (presentCount : nat) : percentage_of presentCount 0 = Some 0%Z.
Proof. reflexivity. Qed.

(** With no matching row the percentage is 0, and no quotient is taken. *)
Lemma statistics_of_nothing records :
  totalStudents (compute_statistics records) = 0 ->
  percentage (compute_statistics records) = Some 0%Z.
Proof. simpl. intros ->. reflexivity. Qed.

(** C9, at the failing input. With no student the percentage is 0 and no
    quotient is taken.  For the class of 40 with 23 present the exact
    percentage is 57.5 (twice it is 115), and [Math.round] takes 57.5 to
    58; but the double (23 / 40) * 100 lies below 57.5, and the handler
    returns 57. *)
Theorem statistics_percentage_of_23_in_40 :
  (forall presentCount, percentage_of presentCount 0 = Some 0%Z)
  /\ (2 * (100 * 23) = 115 * 40)%Z
  /\ Math_round (PrimFloat.div (number_of_nat 115) (number_of_nat 2)) = Some 58%Z
  /\ PrimFloat.ltb (PrimFloat.mul (PrimFloat.div (number_of_nat 23) (number_of_nat 40))
                                  (number_of_nat 100))
                   (PrimFloat.div (number_of_nat 115) (number_of_nat 2)) = true
  /\ percentage_of 23 40 = Some 57%Z
  /\ exists st,
       run (statistics req_statistics) db_class = (Return st, db_class)
       /\ totalStudents st = 40 /\ presentCount st = 23 /\ absentCount st = 17
       /\ percentage st = Some 57%Z.
Proof.
  split; [reflexivity|]. split; [reflexivity|].
  do 3 (split; [vm_compute; reflexivity|]).
  eexists. split; [reflexivity|]. vm_compute. repeat split.
Qed.

(** C10. The counts are those of the matching rows, before any
    deduplication; the returned lists hold each student once; the total
    is the number of distinct students.  In [db3] Aina is present in two
    matched sessions: presentCount is 2, the present list has one entry,
    the total is 1 and the percentage is above 100. *)
Theorem statistics_counts_before_dedup :
  (forall records,
     let st := compute_statistics records in
     let rows_with s := filter (fun r => status_eqb (row_status r) s) records in
     presentCount st = List.length (rows_with present)
     /\ absentCount st = List.length (rows_with absent)
     /\ map entry_studentId (presentList st)
        = Set_of (map row_studentId (rows_with present))
     /\ map entry_studentId (absentList st)
        = Set_of (map row_studentId (rows_with absent))
     /\ NoDup (map entry_studentId (presentList st))
     /\ NoDup (map entry_studentId (absentList st))
     /\ totalStudents st
        = List.length (Set_of (map row_studentId (rows_with present ++ rows_with absent)))
     /\ List.length (presentList st) <= presentCount st)
  /\ exists st,
       schema_ok db3 = true
       /\ records_of 1%N "stu-a" (attendanceRecords db3)
          = [mkRecord 1%N "stu-a" present (Some 5000%Z)]
       /\ records_of 3%N "stu-a" (attendanceRecords db3)
          = [mkRecord 3%N "stu-a" present (Some 7000%Z)]
       /\ run (statistics req_statistics) db3 = (Return st, db3)
       /\ presentCount st = 2
       /\ presentList st = [mkEntry "stu-a" "Aina"]
       /\ totalStudents st = 1
       /\ List.length (presentList st) < presentCount st
       /\ exists p, percentage st = Some p /\ (100 < p)%Z.
Proof.
  split.
  - intros records st rows_with. subst st. cbn [compute_statistics presentCount
      absentCount presentList absentList totalStudents].
    repeat split.
    + unfold entries_with. now rewrite length_map.
    + unfold entries_with. now rewrite length_map.
    + now rewrite dedupe_ids, entries_with_ids.
    + now rewrite dedupe_ids, entries_with_ids.
    + rewrite dedupe_ids. apply Set_of_NoDup.
    + rewrite dedupe_ids. apply Set_of_NoDup.
    + now rewrite map_app, !entries_with_ids, <- map_app.
    + apply dedupe_length.
  - eexists. split; [reflexivity|]. split; [reflexivity|]. split; [reflexivity|].
    split; [reflexivity|].
    do 3 (split; [vm_compute; reflexivity|]).
    split; [vm_compute; lia|].
    exists 200%Z. split; vm_compute; reflexivity.
Qed.

(* ================================================================== *)
(** ** Two scans of one student in one session                         *)
(* ================================================================== *)

Lemma find_none_existsb {A : Type} (f : A -> bool) l :
  existsb f l = false -> find f l = None.
Proof.
  induction l as [|a l IH]; simpl; [reflexivity|].
  destruct (f a); simpl; [discriminate | exact IH].
Qed.

Lemma find_app_none {A : Type} (f : A -> bool) l l' :
  find f l = None -> find f (l ++ l') = find f l'.
Proof.
  induction l as [|a l IH]; simpl; [reflexivity|].
  destruct (f a); [discriminate | exact IH].
Qed.

Lemma run_step {A : Type} (p : Prog (Response A)) db :
  run p db = run (fst (step p db)) (snd (step p db)).
Proof.
  destruct p as [r | X s k]; simpl; [reflexivity|].
  destruct (exec s db) as [[e | x] db']; reflexivity.
Qed.

(** *** The two requests never leave the seven points *)

Lemma next_one_winner_left t1 t2 pc1 pc2 w :
  one_winner t1 t2 pc1 pc2 w ->
  one_winner t1 t2 (fst (next t1 pc1 w)) pc2 (snd (next t1 pc1 w)).
Proof.
  destruct w as [t|], pc1; simpl; intros H;
    try (destruct H as [(H1 & H2 & H3) | (H1 & H2 & H3)]);
    try destruct H as [H1 H2]; try discriminate;
    try (left; repeat split; congruence);
    try (right; repeat split; congruence);
    try (split; [reflexivity | assumption]).
  destruct pc2; try discriminate; left; repeat split; discriminate.
Qed.

Lemma next_one_winner_right t1 t2 pc1 pc2 w :
  one_winner t1 t2 pc1 pc2 w ->
  one_winner t1 t2 pc1 (fst (next t2 pc2 w)) (snd (next t2 pc2 w)).
Proof.
  destruct w as [t|], pc2; simpl; intros H;
    try (destruct H as [(H1 & H2 & H3) | (H1 & H2 & H3)]);
    try destruct H as [H1 H2]; try discriminate;
    try (left; repeat split; congruence);
    try (right; repeat split; congruence);
    try (split; [assumption | reflexivity]).
  destruct pc1; try discriminate; right; repeat split; discriminate.
Qed.

Lemma settle_one_winner t1 t2 pc1 pc2 w :
  one_winner t1 t2 pc1 pc2 w ->
  let '(pc1', w1) := settle t1 pc1 w in
  let '(pc2', w2) := settle t2 pc2 w1 in
  one_won t1 t2 pc1' pc2' w2.
Proof.
  unfold one_won.
  destruct w as [t|], pc1, pc2; simpl;
    intros [(H1 & H2 & H3) | (H1 & H2 & H3)] || intros [H1 H2];
    try discriminate; try congruence; subst;
    try (left; repeat split; auto; fail);
    try (right; repeat split; auto; fail).
Qed.

Lemma race_one_winner t1 t2 sched : forall pc1 pc2 w,
  one_winner t1 t2 pc1 pc2 w ->
  let '(a, b, w') := race t1 t2 sched pc1 pc2 w in one_won t1 t2 a b w'.
Proof.
  induction sched as [|[|] sched IH]; intros pc1 pc2 w H; simpl.
  - pose proof (settle_one_winner t1 t2 pc1 pc2 w H) as Hs.
    destruct (settle t1 pc1 w) as [pc1' w1].
    destruct (settle t2 pc2 w1) as [pc2' w2]. exact Hs.
  - pose proof (next_one_winner_left t1 t2 pc1 pc2 w H) as Hn.
    destruct (next t1 pc1 w) as [pc1' w']. apply IH, Hn.
  - pose proof (next_one_winner_right t1 t2 pc1 pc2 w H) as Hn.
    destruct (next t2 pc2 w) as [pc2' w']. apply IH, Hn.
Qed.

Lemma settle_answered t pc w : answered (fst (settle t pc w)) = true.
Proof. destruct pc, w; reflexivity. Qed.

Section RaceFacts.

Variables (lecturerId : string) (sid : uuid) (student : User)
          (s : AttendanceSession) (db : Db).
Hypothesis Hfind : find_session sid db = Some s.
Hypothesis Hown : session_lecturerId s = lecturerId.
Hypothesis Hact : session_status s = active.
Hypothesis Huser : find_user (user_id student) db = Some student.
Hypothesis Hfresh : has_record sid (user_id student) (attendanceRecords db) = false.

Local Abbreviation prog := (prog_at lecturerId sid student).
Local Abbreviation store := (with_row sid student db).
Local Abbreviation answer := (reply student).

Lemma with_row_sessions w : find_session sid (store w) = Some s.
Proof. destruct w; exact Hfind. Qed.

Lemma with_row_users w : find_user (user_id student) (store w) = Some student.
Proof. destruct w; exact Huser. Qed.

Lemma with_row_has_record t :
  has_record sid (user_id student) (attendanceRecords (store (Some t))) = true.
Proof.
  simpl. rewrite has_record_app. simpl. unfold same_key. simpl.
  now rewrite N.eqb_refl, String.eqb_refl, orb_true_r.
Qed.

Lemma with_row_find_record t :
  find (same_key sid (user_id student)) (attendanceRecords (store (Some t)))
  = Some (mkRecord sid (user_id student) present (Some t)).
Proof.
  simpl. rewrite find_app_none by (apply find_none_existsb; exact Hfresh).
  simpl. unfold same_key. simpl. now rewrite N.eqb_refl, String.eqb_refl.
Qed.

(** One await of the handler is one move of [next]. *)
Lemma step_next t pc w :
  step (prog t pc) (store w)
  = (prog t (fst (next t pc w)), store (snd (next t pc w))).
Proof.
  destruct pc.
  - unfold prog_at, scan_store, step, exec.
    rewrite with_row_sessions, Hown, String.eqb_refl, Hact. now destruct w.
  - unfold prog_at, scan_check_student, step, exec.
    rewrite with_row_users. now destruct w.
  - destruct w as [t'|].
    + unfold prog_at at 1. unfold scan_check_record, step, exec.
      now rewrite with_row_find_record.
    + unfold prog_at at 1. unfold scan_check_record, step, exec. simpl.
      now rewrite (find_none_existsb _ _ Hfresh).
  - destruct w as [t'|].
    + unfold prog_at at 1. unfold scan_insert, step, exec, insert_rows, insert_row.
      cbn [record_sessionId record_studentId].
      now rewrite with_row_has_record.
    + unfold prog_at at 1. unfold scan_insert, step, exec, insert_rows, insert_row.
      cbn [record_sessionId record_studentId with_row].
      rewrite Hfresh, (find_session_exists _ _ _ Hfind).
      assert (user_exists (user_id student) (users db) = true) as ->.
      { apply find_some in Huser as [Hin _]. now apply user_exists_In. }
      reflexivity.
  - now destruct w.
  - now destruct w.
  - now destruct w.
Qed.

Lemma run_next t pc w :
  run (prog t pc) (store w)
  = run (prog t (fst (next t pc w))) (store (snd (next t pc w))).
Proof. now rewrite run_step, step_next. Qed.

Lemma run_settle t pc w :
  run (prog t pc) (store w)
  = (answer (fst (settle t pc w)), store (snd (settle t pc w))).
Proof.
  pose proof (settle_answered t pc w) as Ha. unfold settle in *.
  rewrite (run_next t pc w).
  destruct (next t pc w) as [pc1 w1]. cbn [fst snd].
  rewrite (run_next t pc1 w1).
  destruct (next t pc1 w1) as [pc2 w2]. cbn [fst snd].
  rewrite (run_next t pc2 w2).
  destruct (next t pc2 w2) as [pc3 w3]. cbn [fst snd].
  rewrite (run_next t pc3 w3).
  destruct (next t pc3 w3) as [pc4 w4]. cbn [fst snd] in *.
  destruct pc4; try discriminate Ha; reflexivity.
Qed.

(** Whatever the schedule, the two requests run as [race] says. *)
Lemma interleave_race t1 t2 sched : forall pc1 pc2 w,
  interleave sched (prog t1 pc1) (prog t2 pc2) (store w)
  = let '(a, b, w') := race t1 t2 sched pc1 pc2 w in
    (answer a, answer b, store w').
Proof.
  induction sched as [|[|] sched IH]; intros pc1 pc2 w; simpl.
  - rewrite run_settle. destruct (settle t1 pc1 w) as [a w1]. simpl.
    rewrite run_settle. destruct (settle t2 pc2 w1) as [b w2]. reflexivity.
  - rewrite step_next. destruct (next t1 pc1 w) as [pc1' w']. apply IH.
  - rewrite step_next. destruct (next t2 pc2 w) as [pc2' w']. apply IH.
Qed.

(** Two scans of the student, from the session lookup on, under any
    schedule: one wins, and the store holds its row. *)
Lemma scan_store_race t1 t2 sched :
  exists a b w,
    interleave sched (scan_store lecturerId sid (Some (user_id student)) t1)
                     (scan_store lecturerId sid (Some (user_id student)) t2) db
    = (answer a, answer b, store (Some w))
    /\ one_won t1 t2 a b (Some w).
Proof.
  pose proof (interleave_race t1 t2 sched at_session at_session None) as Hi.
  pose proof (race_one_winner t1 t2 sched at_session at_session None) as Hw.
  simpl in Hi, Hw. specialize (Hw (conj eq_refl eq_refl)).
  destruct (race t1 t2 sched at_session at_session None) as [[a b] w].
  assert (exists t, w = Some t) as [t ->].
  { destruct Hw as [(_ & _ & ->) | (_ & _ & ->)]; eauto. }
  exists a, b, t. split; assumption.
Qed.

(** Once the row is in, a scan is answered from the lookup of the
    existing row, and the store is left alone. *)
Lemma scan_store_after t w :
  run (scan_store lecturerId sid (Some (user_id student)) t) (store (Some w))
  = (Send 400%Z ERR_ALREADY_SCANNED, store (Some w)).
Proof. exact (run_settle t at_session (Some w)). Qed.

End RaceFacts.

(** C2 as the code has it. A lecturer's request for a student without a
    row in an active session of theirs is fired twice, with a fresh
    payload, and the two requests are interleaved in any way.  Exactly one
    of them records the student.  The other finds the row in its lookup
    and is answered with the duplicate message, or it has looked before
    the row went in, its insert is rejected by the unique index and the
    rejection is rethrown.  The store keeps its constraints and holds one
    row for the pair; any later scan is answered from the lookup. *)
Theorem scan_race_one_winner
        (JSON_parse : string -> option JsValue)
        (Date_getTime : JsValue -> TimeValue)
        (driver_text : option JsValue -> option string)
        req user obj issuedAt student s db now1 t1 now2 t2 sched :
  carries JSON_parse req user obj ->
  get obj "studentId" = Some (JStr (user_id student)) ->
  qrTime_of Date_getTime (get obj "timestamp") = Some issuedAt ->
  (0 <= now1 - issuedAt <= 30 * 1000)%Z ->
  (0 <= now2 - issuedAt <= 30 * 1000)%Z ->
  schema_ok db = true ->
  find_session (scan_params_id req) db = Some s ->
  session_lecturerId s = auth_id user ->
  session_status s = active ->
  find_user (user_id student) db = Some student ->
  has_record (scan_params_id req) (user_id student) (attendanceRecords db) = false ->
  let scan_route := scan JSON_parse Date_getTime driver_text in
  let recorded : Response ScanOk := Return (mkScanOk true (user_name student)) in
  exists a b db',
    interleave sched (scan_route req now1 t1) (scan_route req now2 t2) db = (a, b, db')
    /\ ((a = recorded
         /\ (b = Send 400%Z ERR_ALREADY_SCANNED \/ b = Throw unique_idx_error))
        \/ (b = recorded
            /\ (a = Send 400%Z ERR_ALREADY_SCANNED \/ a = Throw unique_idx_error)))
    /\ schema_ok db' = true
    /\ List.length (records_of (scan_params_id req) (user_id student)
                               (attendanceRecords db')) = 1
    /\ run (scan_route req now2 t2) db' = (Send 400%Z ERR_ALREADY_SCANNED, db').
Proof.
  intros Hc Hid Ht Hw1 Hw2 Hok Hfind Hown Hact Huser Hfresh scan_route recorded.
  assert (forall now t, (0 <= now - issuedAt <= 30 * 1000)%Z ->
            scan_route req now t
            = scan_store (auth_id user) (scan_params_id req)
                         (Some (user_id student)) t) as Hscan.
  { intros now t Hw. unfold scan_route.
    rewrite (scan_carries _ _ _ _ _ _ _ _ Hc), Ht, Hid.
    replace (outside_window now (Some issuedAt)) with false; [reflexivity|].
    symmetry. apply inside_window_iff. lia. }
  rewrite (Hscan now1 t1 Hw1), (Hscan now2 t2 Hw2).
  destruct (scan_store_race (auth_id user) (scan_params_id req) student s db
              Hfind Hown Hact Huser Hfresh t1 t2 sched) as (a & b & w & Hi & Hwon).
  pose proof (interleave_schema_ok sched
                (scan_store (auth_id user) (scan_params_id req) (Some (user_id student)) t1)
                (scan_store (auth_id user) (scan_params_id req) (Some (user_id student)) t2)
                db Hok) as Hok'.
  rewrite Hi in Hok'. cbn [snd] in Hok'.
  eexists _, _, _. split; [exact Hi|].
  split.
  { destruct Hwon as [(-> & Hb & _) | (-> & Ha & _)].
    - left. split; [reflexivity|]. destruct Hb as [-> | ->]; [left | right]; reflexivity.
    - right. split; [reflexivity|]. destruct Ha as [-> | ->]; [left | right]; reflexivity. }
  split; [exact Hok'|].
  split.
  - apply unique_records_one.
    + unfold schema_ok in Hok'. rewrite !andb_true_iff in Hok'. apply Hok'.
    + now apply with_row_has_record.
  - exact (scan_store_after (auth_id user) (scan_params_id req) student s db
             Hfind Hown Hact Huser Hfresh t2 w).
Qed.

Lemma scan_race_one_winner_db0 :
  exists a b db',
    interleave [true; false; false; true] (demo_scan req_aina 20000%Z 20000%Z)
               (demo_scan req_aina 21000%Z 21000%Z) db0 = (a, b, db')
    /\ ((a = Return (mkScanOk true "Aina")
         /\ (b = Send 400%Z ERR_ALREADY_SCANNED \/ b = Throw unique_idx_error))
        \/ (b = Return (mkScanOk true "Aina")
            /\ (a = Send 400%Z ERR_ALREADY_SCANNED \/ a = Throw unique_idx_error)))
    /\ schema_ok db' = true
    /\ List.length (records_of 1%N "stu-a" (attendanceRecords db')) = 1
    /\ run (demo_scan req_aina 21000%Z 21000%Z) db'
       = (Send 400%Z ERR_ALREADY_SCANNED, db').
Proof.
  apply (scan_race_one_winner demo_JSON_parse demo_Date_getTime demo_driver_text
           req_aina lecturer1 obj_aina 10000%Z (mkUser "stu-a" "Aina" "student")
           demo_session db0 20000%Z 20000%Z 21000%Z 21000%Z [true; false; false; true]);
    try reflexivity; try (simpl; lia).
  exact req_aina_carries.
Defined.

(** C2 does not hold as stated: both requests look for Aina's row before
    either inserts.  The first insert goes in; the second is rejected by
    the unique index and the request ends with the rethrown error, not
    with the duplicate message. *)
Lemma racing_scan_ends_with_rethrown_rejection :
  interleave [true; true; true; false; false; false]
             (demo_scan req_aina 20000%Z 20000%Z)
             (demo_scan req_aina 21000%Z 21000%Z) db0
  = (Return (mkScanOk true "Aina"),
     Throw (StoreError (UniqueViolation "attendance_records_unique_idx")),
     mkDb demo_users [demo_session] [mkRecord 1%N "stu-a" present (Some 20000%Z)])
  /\ Throw (StoreError (UniqueViolation "attendance_records_unique_idx"))
     <> Send (A := ScanOk) 400%Z ERR_ALREADY_SCANNED.
Proof. split; [vm_compute; reflexivity | discriminate]. Qed.

(* ================================================================== *)
(** ** Joins over unique keys                                          *)
(* ================================================================== *)

Lemma flat_map_nothing {A B : Type} (f : A -> list B) l :
  (forall a, In a l -> f a = []) -> flat_map f l = [].
Proof.
  induction l as [|a l IH]; simpl; intros H; [reflexivity|].
  rewrite (H a (or_introl eq_refl)), IH; [reflexivity|].
  intros b Hb. apply H. now right.
Qed.

Section JoinLookup.

Context {A B K : Type} (key : A -> K) (eqb : K -> K -> bool).
Hypothesis eqb_eq : forall x y, eqb x y = true <-> x = y.

(** A join on a unique key is a lookup. *)
Lemma join_lookup (k : K) (body : A -> list B) l :
  NoDup (map key l) ->
  flat_map (fun a => if eqb k (key a) then body a else []) l
  = match find (fun a => eqb (key a) k) l with
    | Some a => body a
    | None => []
    end.
Proof.
  induction l as [|a l IH]; simpl; intros Hd; [reflexivity|].
  inversion Hd as [|? ? Hn Hd']; subst.
  destruct (eqb k (key a)) eqn:E.
  - apply eqb_eq in E. subst k.
    replace (eqb (key a) (key a)) with true by (symmetry; now apply eqb_eq).
    rewrite flat_map_nothing; [apply app_nil_r|].
    intros b Hb. destruct (eqb (key a) (key b)) eqn:E'; [|reflexivity].
    apply eqb_eq in E'. exfalso. apply Hn. rewrite E'. now apply in_map.
  - replace (eqb (key a) k) with false.
    + now apply IH.
    + symmetry. destruct (eqb (key a) k) eqn:E'; [|reflexivity].
      apply eqb_eq in E'. subst k.
      assert (eqb (key a) (key a) = true) by now apply eqb_eq. congruence.
Qed.

End JoinLookup.

Lemma distinct_ids_iff l : distinct_ids l = true <-> NoDup l.
Proof.
  induction l as [|x l IH]; simpl.
  - split; [constructor | reflexivity].
  - rewrite andb_true_iff, negb_true_iff, IH. split.
    + intros [Hn Hd]. constructor; [|assumption].
      intros Hin. assert (existsb (N.eqb x) l = true); [|congruence].
      apply existsb_exists. exists x. split; [assumption | apply N.eqb_refl].
    + intros Hd. inversion Hd as [|? ? Hn Hd']; subst. split; [|assumption].
      destruct (existsb (N.eqb x) l) eqn:E; [|reflexivity].
      apply existsb_exists in E as (y & Hy & E). apply N.eqb_eq in E. now subst.
Qed.

Lemma join_session (k : uuid) {B : Type} (body : AttendanceSession -> list B) db :
  sessions_ok db = true ->
  flat_map (fun s => if N.eqb k (session_id s) then body s else [])
           (attendanceSessions db)
  = match find_session k db with
    | Some s => body s
    | None => []
    end.
Proof.
  intros H. apply distinct_ids_iff in H.
  exact (join_lookup session_id N.eqb N.eqb_eq k body _ H).
Qed.

Lemma join_user (k : string) {B : Type} (body : User -> list B) db :
  schema_ok db = true ->
  flat_map (fun u => if String.eqb k (user_id u) then body u else []) (users db)
  = match find_user k db with
    | Some u => body u
    | None => []
    end.
Proof.
  intros H. apply schema_ok_iff in H as (H & _).
  exact (join_lookup user_id String.eqb String.eqb_eq k body _ H).
Qed.

Lemma if_andb {B : Type} (a b : bool) (x y : B) :
  (if a && b then x else y) = if a then (if b then x else y) else y.
Proof. now destruct a. Qed.

(** The three joined queries, record by record. *)
Lemma stat_rows_joined c db :
  schema_ok db = true -> sessions_ok db = true ->
  stat_rows c db
  = flat_map (fun r =>
      match joined r db with
      | Some (s, u) =>
          if session_matches c s
          then [mkRow (record_studentId r) (user_name u) (record_status r)]
          else []
      | None => []
      end) (attendanceRecords db).
Proof.
  intros Hok Hs. unfold stat_rows. apply flat_map_ext. intros r.
  rewrite (flat_map_ext _ _ (fun s => if_andb _ _ _ _)).
  rewrite join_session by assumption. unfold joined.
  destruct (find_session (record_sessionId r) db) as [s|]; [|reflexivity].
  rewrite join_user by assumption.
  destruct (find_user (record_studentId r) db); now destruct (session_matches c s).
Qed.

Lemma export_rows_joined courseId weekStart db :
  schema_ok db = true -> sessions_ok db = true ->
  export_rows courseId weekStart db
  = flat_map (fun r =>
      match joined r db with
      | Some (s, u) =>
          if N.eqb (session_courseId s) courseId
             && opt_matches Z.eqb weekStart (session_week s)
          then [mkExportRow (session_week s) (session_date s) (session_time s)
                            (user_id u) (user_name u) (record_status r)]
          else []
      | None => []
      end) (attendanceRecords db).
Proof.
  intros Hok Hs. unfold export_rows. apply flat_map_ext. intros r.
  rewrite (flat_map_ext _ _ (fun s => if_andb _ _ _ _)).
  rewrite join_session by assumption. unfold joined.
  destruct (find_session (record_sessionId r) db) as [s|]; [|reflexivity].
  rewrite join_user by assumption.
  destruct (find_user (record_studentId r) db); now destruct (_ && _).
Qed.

Lemma today_scan_rows_joined lecturerId today db :
  sessions_ok db = true ->
  today_scan_rows lecturerId today db
  = flat_map (fun r =>
      match find_session (record_sessionId r) db with
      | Some s =>
          if String.eqb (session_lecturerId s) lecturerId
             && String.eqb (session_date s) today
             && status_eqb (record_status r) present
          then [(r, s)] else []
      | None => []
      end) (attendanceRecords db).
Proof.
  intros Hs. unfold today_scan_rows. apply flat_map_ext. intros r.
  rewrite (flat_map_ext _ _ (fun s => if_andb _ _ _ _)).
  now rewrite join_session by assumption.
Qed.

(* ================================================================== *)
(** ** What a scan can do to the store                                 *)
(* ================================================================== *)

Lemma run_faulty_await {A X : Type} faults (s : Stmt X) (k : X -> Prog (Response A)) db :
  run_faulty faults (Await s k) db
  = if hd false faults then (Throw (StoreError StoreUnavailable), db)
    else match exec s db with
         | (inr x, db') => run_faulty (tl faults) (k x) db'
         | (inl e, db') => (Throw (StoreError e), db')
         end.
Proof. destruct faults as [|[|] f]; reflexivity. Qed.

Lemma run_faulty_none {A : Type} (p : Prog (Response A)) : forall db,
  run_faulty [] p db = run p db.
Proof.
  induction p as [r | X s k IH]; intros db; simpl; [reflexivity|].
  destruct (exec s db) as [[e | x] db']; [reflexivity | apply IH].
Qed.

Lemma hd_In_true faults : hd false faults = true -> In true faults.
Proof. destruct faults as [|[|] f]; simpl; intros H; [discriminate | now left | discriminate]. Qed.

Lemma tl_In_true faults : In true (tl faults) -> In true faults.
Proof. destruct faults; simpl; auto. Qed.

Lemma went_wrong_lost {A : Type} faults db :
  hd false faults = true ->
  went_wrong (A := A) faults db (Throw (StoreError StoreUnavailable)) db.
Proof.
  intros H. split; [reflexivity|]. split; [discriminate|].
  intros e' [= <-]. split; [reflexivity | now apply hd_In_true].
Qed.

Lemma went_wrong_sent {A : Type} faults db status msg :
  went_wrong (A := A) faults db (Send status msg) db.
Proof. repeat split; discriminate. Qed.

Lemma went_wrong_later {A : Type} faults db (r : Response A) db' :
  went_wrong (tl faults) db r db' -> went_wrong faults db r db'.
Proof.
  intros (H1 & H2 & H3). split; [assumption|]. split; [assumption|].
  intros e He. destruct (H3 e He) as [H4 H5].
  split; [assumption | now apply tl_In_true].
Qed.

Lemma existsb_find_none {A : Type} (f : A -> bool) l :
  find f l = None -> existsb f l = false.
Proof.
  induction l as [|a l IH]; simpl; [reflexivity|].
  destruct (f a); [discriminate | exact IH].
Qed.

Lemma find_user_id id db u : find_user id db = Some u -> user_id u = id.
Proof. intros H. apply find_some in H as [_ E]. now apply String.eqb_eq. Qed.

Lemma find_user_exists id db u :
  find_user id db = Some u -> user_exists id (users db) = true.
Proof.
  intros H. apply find_some in H as [Hin E].
  apply existsb_exists. exists u. split; assumption.
Qed.

(** From the session lookup on. *)
Lemma scan_store_effect lecturerId sid studentId t faults db :
  let '(r, db') := run_faulty faults (scan_store lecturerId sid studentId t) db in
  went_wrong faults db r db'
  \/ exists s student,
       find_session sid db = Some s
       /\ session_lecturerId s = lecturerId
       /\ session_status s = active
       /\ studentId = Some (user_id student)
       /\ find_user (user_id student) db = Some student
       /\ has_record sid (user_id student) (attendanceRecords db) = false
       /\ r = Return (mkScanOk true (user_name student))
       /\ db' = mkDb (users db) (attendanceSessions db)
                     (attendanceRecords db
                      ++ [mkRecord sid (user_id student) present (Some t)]).
Proof.
  unfold scan_store. rewrite run_faulty_await.
  destruct (hd false faults) eqn:F1; [left; now apply went_wrong_lost|].
  cbn [exec].
  destruct (find_session sid db) as [s|] eqn:Hs; [|left; apply went_wrong_sent].
  destruct (String.eqb_spec (session_lecturerId s) lecturerId) as [Ho|Ho];
    cbn [negb]; [|left; apply went_wrong_sent].
  destruct (session_status s) eqn:Ha; cbn [session_status_eqb negb];
    [|left; apply went_wrong_sent].
  unfold scan_check_student. rewrite run_faulty_await.
  destruct (hd false (tl faults)) eqn:F2;
    [left; apply went_wrong_later; now apply went_wrong_lost|].
  cbn [exec].
  destruct studentId as [stu|]; [|left; apply went_wrong_sent].
  destruct (find_user stu db) as [student|] eqn:Hu; [|left; apply went_wrong_sent].
  pose proof (find_user_id _ _ _ Hu) as <-.
  unfold scan_check_record. rewrite run_faulty_await.
  destruct (hd false (tl (tl faults))) eqn:F3;
    [left; do 2 apply went_wrong_later; now apply went_wrong_lost|].
  cbn [exec].
  destruct (find _ (attendanceRecords db)) eqn:Hr; [left; apply went_wrong_sent|].
  apply existsb_find_none in Hr. fold (has_record sid (user_id student) (attendanceRecords db)) in Hr.
  unfold scan_insert. rewrite run_faulty_await.
  destruct (hd false (tl (tl (tl faults)))) eqn:F4;
    [left; do 3 apply went_wrong_later; now apply went_wrong_lost|].
  cbn [exec insert_rows]. unfold insert_row. cbn [record_sessionId record_studentId].
  rewrite Hr, (find_session_exists _ _ _ Hs), (find_user_exists _ _ _ Hu).
  cbn [negb run_faulty].
  right. exists s, student. repeat split; assumption || reflexivity.
Qed.

Lemma went_wrong_thrown {A : Type} faults db :
  went_wrong (A := A) faults db (Throw TypeError) db.
Proof. repeat split; discriminate. Qed.

Lemma went_wrong_nothing {A : Type} faults db :
  went_wrong (A := A) faults db NoReply db.
Proof. repeat split; discriminate. Qed.

Lemma scan_outcome
      (JSON_parse : string -> option JsValue)
      (Date_getTime : JsValue -> TimeValue)
      (driver_text : option JsValue -> option string)
      faults req now scanTime db :
  let '(r, db') :=
    run_faulty faults (scan JSON_parse Date_getTime driver_text req now scanTime) db in
  went_wrong faults db r db'
  \/ exists user s student,
       scan_auth req = Some user
       /\ auth_role user = "lecturer"
       /\ find_session (scan_params_id req) db = Some s
       /\ session_lecturerId s = auth_id user
       /\ session_status s = active
       /\ find_user (user_id student) db = Some student
       /\ has_record (scan_params_id req) (user_id student) (attendanceRecords db) = false
       /\ r = Return (mkScanOk true (user_name student))
       /\ db' = mkDb (users db) (attendanceSessions db)
                     (attendanceRecords db
                      ++ [mkRecord (scan_params_id req) (user_id student) present
                                   (Some scanTime)]).
Proof.
  unfold scan.
  destruct (scan_auth req) as [user|] eqn:Ha; [|left; apply went_wrong_nothing].
  destruct (String.eqb_spec (auth_role user) "lecturer") as [Hr|Hr]; cbn [negb];
    [|left; apply went_wrong_sent].
  destruct (String.eqb (scan_qrData req) ""); [left; apply went_wrong_sent|].
  destruct (JSON_parse (scan_qrData req)) as [obj|]; [|left; apply went_wrong_sent].
  assert (forall o, o = obj ->
    let '(r, db') :=
      run_faulty faults
        (if outside_window now (qrTime_of Date_getTime (get o "timestamp"))
         then Done (Send 400%Z ERR_EXPIRED)
         else scan_store (auth_id user) (scan_params_id req)
                         (text_param driver_text (get o "studentId")) scanTime) db in
    went_wrong faults db r db'
    \/ exists user0 s student,
         Some user = Some user0 /\ auth_role user0 = "lecturer"
         /\ find_session (scan_params_id req) db = Some s
         /\ session_lecturerId s = auth_id user0
         /\ session_status s = active
         /\ find_user (user_id student) db = Some student
         /\ has_record (scan_params_id req) (user_id student) (attendanceRecords db) = false
         /\ r = Return (mkScanOk true (user_name student))
         /\ db' = mkDb (users db) (attendanceSessions db)
                       (attendanceRecords db
                        ++ [mkRecord (scan_params_id req) (user_id student) present
                                     (Some scanTime)])) as Hgo.
  { intros o _. destruct (outside_window _ _); [left; apply went_wrong_sent|].
    pose proof (scan_store_effect (auth_id user) (scan_params_id req)
                  (text_param driver_text (get o "studentId")) scanTime faults db) as H.
    destruct (run_faulty faults _ db) as [r db'].
    destruct H as [H | (s & student & H1 & H2 & H3 & H4 & H5 & H6 & H7 & H8)];
      [now left | right].
    exists user, s, student. repeat split; assumption. }
  destruct obj; try exact (Hgo _ eq_refl).
  left. apply went_wrong_thrown.
Qed.


(* ================================================================== *)
(** ** What completing can do to the store                             *)
(* ================================================================== *)

Lemma insert_rows_inv rows : forall db db',
  insert_rows rows db = inr db' ->
  db' = mkDb (users db) (attendanceSessions db) (attendanceRecords db ++ rows).
Proof.
  induction rows as [|r rows IH]; intros db db'; simpl.
  - intros [= <-]. rewrite app_nil_r. now destruct db.
  - destruct (insert_row r db) as [e | db1] eqn:E; [discriminate|].
    intros H. apply IH in H. subst db'.
    unfold insert_row in E.
    destruct (has_record _ _ _); [discriminate|].
    destruct (negb (session_exists _ _)); [discriminate|].
    destruct (negb (user_exists _ _)); [discriminate|].
    injection E as <-. simpl. now rewrite <- app_assoc.
Qed.

(** How a run of the handler can end, with the losses [faults]: nothing
    done; the absent rows in but the status not flipped; or both done and
    the success reported. *)
Lemma complete_outcome faults req db :
  let sid := complete_params_id req in
  let '(r, db') := run_faulty faults (complete req) db in
  ((db' = db \/ db' = backfilled sid db) /\ forall body, r <> Return body)
  \/ exists user s,
       complete_auth req = Some user
       /\ auth_role user = "lecturer"
       /\ find_session sid db = Some s
       /\ session_lecturerId s = auth_id user
       /\ r = Return (mkCompleteOk true (List.length (lacking sid db)))
       /\ db' = update_status sid completed (backfilled sid db).
Proof.
  intros sid. unfold complete.
  destruct (complete_auth req) as [user|] eqn:Ha;
    [|left; split; [now left | discriminate]].
  destruct (String.eqb_spec (auth_role user) "lecturer") as [Hr|Hr]; cbn [negb];
    [|left; split; [now left | discriminate]].
  rewrite run_faulty_await.
  destruct (hd false faults); [left; split; [now left | discriminate]|].
  cbn [exec]. fold sid.
  destruct (find_session sid db) as [s|] eqn:Hs;
    [|left; split; [now left | discriminate]].
  destruct (String.eqb_spec (session_lecturerId s) (auth_id user)) as [Ho|Ho];
    cbn [negb]; [|left; split; [now left | discriminate]].
  rewrite run_faulty_await.
  destruct (hd false (tl faults)); [left; split; [now left | discriminate]|].
  cbn [exec]. rewrite run_faulty_await.
  destruct (hd false (tl (tl faults))); [left; split; [now left | discriminate]|].
  cbn [exec]. rewrite unscanned_lacking.
  unfold complete_backfill.
  destruct (lacking sid db) as [|u l] eqn:El.
  - unfold complete_finish. rewrite run_faulty_await.
    destruct (hd false (tl (tl (tl faults))));
      [left; split; [now left | discriminate]|].
    cbn [exec run_faulty]. right. exists user, s.
    rewrite (backfilled_nothing _ _ El). repeat split; assumption || reflexivity.
  - rewrite <- El. rewrite run_faulty_await.
    destruct (hd false (tl (tl (tl faults))));
      [left; split; [now left | discriminate]|].
    cbn [exec].
    destruct (insert_rows _ db) as [e | db1] eqn:Ei;
      [left; split; [now left | discriminate]|].
    apply insert_rows_inv in Ei. fold (backfilled sid db) in Ei. subst db1.
    unfold complete_finish. rewrite run_faulty_await.
    destruct (hd false (tl (tl (tl (tl faults)))));
      [left; split; [now right | discriminate]|].
    cbn [exec run_faulty]. right. exists user, s.
    rewrite El. repeat split; assumption || reflexivity.
Qed.

Lemma session_records_other sid sid' db :
  sid' <> sid ->
  session_records sid' (backfilled sid db) = session_records sid' db.
Proof.
  intros Hne. unfold session_records, backfilled. simpl.
  rewrite filter_app.
  replace (filter _ (map (absent_row sid) (lacking sid db))) with (@nil AttendanceRecord);
    [apply app_nil_r|].
  symmetry. induction (lacking sid db) as [|u l IH]; simpl; [reflexivity|].
  destruct (N.eqb_spec sid sid'); [congruence | exact IH].
Qed.

(** X2. Whatever the request and the losses of the store, completing
    leaves the users alone, keeps every existing record where it is, adds
    only absent rows of that session for students without a row, leaves
    every other session and its records alone, and flips the status only
    in a run that reports success. *)
Theorem complete_touches_only_its_session faults req db :
  let sid := complete_params_id req in
  let '(r, db') := run_faulty faults (complete req) db in
  users db' = users db
  /\ (exists rows,
        attendanceRecords db' = (attendanceRecords db ++ rows)%list
        /\ forall x, In x rows ->
             exists u, In u (users db) /\ user_role u = "student"
                       /\ has_record sid (user_id u) (attendanceRecords db) = false
                       /\ x = mkRecord sid (user_id u) absent None)
  /\ (forall sid', sid' <> sid ->
        find_session sid' db' = find_session sid' db
        /\ session_records sid' db' = session_records sid' db)
  /\ ((forall body, r <> Return body) -> attendanceSessions db' = attendanceSessions db).
Proof.
  intros sid. pose proof (complete_outcome faults req db) as H. fold sid in H.
  destruct (run_faulty faults (complete req) db) as [r db'].
  assert (forall x, In x (map (absent_row sid) (lacking sid db)) ->
            exists u, In u (users db) /\ user_role u = "student"
                      /\ has_record sid (user_id u) (attendanceRecords db) = false
                      /\ x = mkRecord sid (user_id u) absent None) as Hrows.
  { intros x Hx. apply in_map_iff in Hx as (u & <- & Hu).
    apply lacking_In in Hu as (H1 & H2 & H3). exists u. auto. }
  destruct H as [[[-> | ->] Hr] | (user & s & _ & _ & _ & _ & -> & ->)].
  - split; [reflexivity|]. split.
    + exists []. split; [now rewrite app_nil_r | intros x []].
    + split; [auto | reflexivity].
  - split; [reflexivity|]. split.
    + exists (map (absent_row sid) (lacking sid db)). split; [reflexivity | exact Hrows].
    + split; [|reflexivity].
      intros sid' Hne. split; [reflexivity | now apply session_records_other].
  - split; [reflexivity|]. split.
    + exists (map (absent_row sid) (lacking sid db)). split; [reflexivity | exact Hrows].
    + split.
      * intros sid' Hne. split.
        -- now rewrite find_session_other.
        -- exact (session_records_other sid sid' db Hne).
      * intros Hno. exfalso. now apply (Hno (mkCompleteOk true (List.length (lacking sid db)))).
Qed.



(* ================================================================== *)
(** ** Statistics over the store                                       *)
(* ================================================================== *)

Lemma Map_set_In {V : Type} k (v : V) m kv :
  In kv (Map_set k v m) -> kv = (k, v) \/ In kv m.
Proof.
  induction m as [|[k' v'] m IH]; simpl.
  - intros [<- | []]. now left.
  - destruct (String.eqb k k'); simpl.
    + intros [<- | H]; [now left | right; now right].
    + intros [<- | H]; [right; now left|].
      destruct (IH H) as [-> | H']; [now left | right; now right].
Qed.

Lemma fold_Map_set_In {V : Type} (entries : list (string * V)) : forall m kv,
  In kv (fold_left (fun m kv => Map_set (fst kv) (snd kv) m) entries m) ->
  In kv entries \/ In kv m.
Proof.
  induction entries as [|[k v] entries IH]; intros m kv; simpl; [now right|].
  intros H. apply IH in H as [H | H]; [left; now right|].
  apply Map_set_In in H as [-> | H]; [left; now left | now right].
Qed.

(** Deduplication invents no entry. *)
Lemma dedupe_In e l : In e (dedupe l) -> In e l.
Proof.
  unfold dedupe, Map_values, Map_of. intros H.
  apply in_map_iff in H as ([k v] & <- & H).
  apply fold_Map_set_In in H as [H | []].
  apply in_map_iff in H as (p & [= _ <-] & Hp). exact Hp.
Qed.

Lemma fold_Set_add_fresh l : forall acc,
  NoDup (acc ++ l) -> fold_left Set_add l acc = (acc ++ l)%list.
Proof.
  induction l as [|x l IH]; intros acc H; simpl; [now rewrite app_nil_r|].
  assert (Set_has x acc = false) as Hx.
  { destruct (Set_has x acc) eqn:E; [|reflexivity].
    apply Set_has_iff in E. apply NoDup_remove_2 in H.
    exfalso. apply H. apply in_or_app. now left. }
  unfold Set_add at 2. rewrite Hx.
  rewrite IH; rewrite <- app_assoc; [reflexivity | exact H].
Qed.

(** A list without repetition is its own set. *)
Lemma Set_of_distinct l : NoDup l -> Set_of l = l.
Proof. intros H. exact (fold_Set_add_fresh l [] H). Qed.

Lemma NoDup_map_split {A B : Type} (f : A -> B) (p q : A -> bool) l :
  (forall a, q a = negb (p a)) ->
  NoDup (map f l) -> NoDup (map f (filter p l) ++ map f (filter q l)).
Proof.
  intros Hq Hd. apply NoDup_app.
  - now apply NoDup_map_filter.
  - now apply NoDup_map_filter.
  - intros b Hb Hb'.
    apply in_map_iff in Hb as (a & <- & Ha). apply filter_In in Ha as [Ha Hp].
    apply in_map_iff in Hb' as (a' & E & Ha'). apply filter_In in Ha' as [Ha' Hq'].
    rewrite Hq in Hq'. apply negb_true_iff in Hq'.
    assert (a = a'); [|congruence].
    clear Hp Hq'. induction l as [|x l IH]; [destruct Ha|].
    simpl in Hd. inversion Hd as [|? ? Hn Hd']; subst.
    destruct Ha as [-> | Ha], Ha' as [-> | Ha'].
    + reflexivity.
    + exfalso. apply Hn. rewrite <- E. now apply in_map.
    + exfalso. apply Hn. rewrite E. now apply in_map.
    + now apply IH.
Qed.

Section OneSession.

Variables (c : StatConditions) (db : Db).
Hypothesis Hok : schema_ok db = true.
Hypothesis Hone : forall s1 s2,
  In s1 (attendanceSessions db) -> In s2 (attendanceSessions db) ->
  session_matches c s1 = true -> session_matches c s2 = true ->
  session_id s1 = session_id s2.

Local Abbreviation row_of := (fun r =>
  match joined r db with
  | Some (s, u) =>
      if session_matches c s
      then [mkRow (record_studentId r) (user_name u) (record_status r)]
      else []
  | None => []
  end).

Lemma row_of_In r x :
  In x (row_of r) ->
  row_studentId x = record_studentId r
  /\ exists s, In s (attendanceSessions db) /\ session_id s = record_sessionId r
               /\ session_matches c s = true.
Proof.
  unfold joined.
  destruct (find_session (record_sessionId r) db) as [s|] eqn:Hs; [|intros []].
  destruct (find_user (record_studentId r) db) as [u|]; [|intros []].
  destruct (session_matches c s) eqn:Hm; [|intros []].
  intros [<- | []]. split; [reflexivity|].
  exists s. repeat split; [|exact (find_session_id _ _ _ Hs) | exact Hm].
  apply find_some in Hs. apply Hs.
Qed.

(** When the conditions single out one session, no student id comes
    twice among the matching rows. *)
Lemma one_session_rows_distinct rs :
  NoDup (map key_of rs) ->
  NoDup (map row_studentId (flat_map row_of rs)).
Proof.
  induction rs as [|r rs IH]; intros Hd; [constructor|].
  simpl in Hd. inversion Hd as [|? ? Hn Hd']; subst.
  cbn [flat_map]. rewrite map_app. apply NoDup_app.
  - unfold joined. destruct (find_session _ db); [|constructor].
    destruct (find_user _ db); [|constructor].
    destruct (session_matches c _); repeat constructor. intros [].
  - now apply IH.
  - intros id Hid Hid'. apply Hn.
    apply in_map_iff in Hid as (x & <- & Hx).
    apply row_of_In in Hx as (E & s & Hs & Hsid & Hm).
    apply in_map_iff in Hid' as (x' & E' & Hx').
    apply in_flat_map in Hx' as (r' & Hr' & Hx').
    apply row_of_In in Hx' as (E'' & s' & Hs' & Hsid' & Hm').
    apply in_map_iff. exists r'. split; [|exact Hr'].
    unfold key_of. f_equal; [|congruence].
    rewrite <- Hsid, <- Hsid'. now apply Hone.
Qed.

End OneSession.

Lemma statistics_run req user db :
  stat_auth req = Some user ->
  auth_role user = "lecturer" ->
  run (statistics req) db
  = (Return (compute_statistics
               (stat_rows (mkCond (auth_id user) (stat_courseId req) (stat_week req)) db)),
     db).
Proof. intros Ha Hr. unfold statistics. rewrite Ha, Hr. reflexivity. Qed.

Lemma status_absent_not_present st :
  status_eqb st absent = negb (status_eqb st present).
Proof. now destruct st. Qed.





(* ================================================================== *)
(** ** Creating courses and sessions                                   *)
(* ================================================================== *)

Lemma same_slot_iff courseId week date s :
  same_slot courseId week date s = true <-> slot_of s = (courseId, week, date).
Proof.
  unfold same_slot, slot_of.
  rewrite !andb_true_iff, N.eqb_eq, Z.eqb_eq, String.eqb_eq.
  split; [intros [[-> ->] ->]; reflexivity | intros [= -> -> ->]; auto].
Qed.

Lemma slot_taken_iff courseId week date ss :
  slot_taken courseId week date ss = true <-> In (courseId, week, date) (map slot_of ss).
Proof.
  unfold slot_taken. rewrite existsb_exists, in_map_iff.
  split; intros (s & H1 & H2).
  - exists s. split; [apply same_slot_iff|]; assumption.
  - exists s. split; [|apply same_slot_iff]; assumption.
Qed.

Lemma unique_slots_iff ss : unique_slots ss = true <-> NoDup (map slot_of ss).
Proof.
  induction ss as [|s ss IH]; simpl.
  - split; [constructor | reflexivity].
  - rewrite andb_true_iff, negb_true_iff, IH. split.
    + intros [Hn Hd]. constructor; [|assumption].
      intros Hin. apply slot_taken_iff in Hin. congruence.
    + intros Hd. inversion Hd as [|? ? Hn Hd']; subst. split; [|assumption].
      destruct (slot_taken _ _ _ ss) eqn:E; [|reflexivity].
      apply slot_taken_iff in E. contradiction.
Qed.

Lemma session_exists_iff sid ss :
  session_exists sid ss = true <-> In sid (map session_id ss).
Proof.
  unfold session_exists. rewrite existsb_exists, in_map_iff.
  split; intros (s & H1 & H2).
  - exists s. apply N.eqb_eq in H2. auto.
  - exists s. split; [assumption | now apply N.eqb_eq].
Qed.

Lemma course_exists_iff cid cs :
  course_exists cid cs = true <-> In cid (map course_id cs).
Proof.
  unfold course_exists. rewrite existsb_exists, in_map_iff.
  split; intros (c & H1 & H2).
  - exists c. apply N.eqb_eq in H2. auto.
  - exists c. split; [assumption | now apply N.eqb_eq].
Qed.

Lemma code_taken_iff code cs :
  code_taken code cs = true <-> In code (map course_code cs).
Proof.
  unfold code_taken. rewrite existsb_exists, in_map_iff.
  split; intros (c & H1 & H2).
  - exists c. apply String.eqb_eq in H2. auto.
  - exists c. split; [assumption | now apply String.eqb_eq].
Qed.

Lemma find_course_exists cid st c :
  find_course cid st = Some c -> course_exists cid (courses st) = true.
Proof.
  intros H. apply find_some in H as [Hin E].
  apply existsb_exists. exists c. split; assumption.
Qed.

Lemma not_true_false (b : bool) : b <> true -> b = false.
Proof. now destruct b. Qed.

Lemma create_session_returns req newId st row st' :
  create_session req newId st = (Return row, st') <->
  exists user courseId course,
    cs_auth req = Some user
    /\ auth_role user = "lecturer"
    /\ cs_courseId req = Some courseId
    /\ cs_week req <> 0%Z /\ cs_date req <> "" /\ cs_time req <> ""
    /\ find_course courseId st = Some course
    /\ course_lecturerId course = auth_id user
    /\ session_exists newId (attendanceSessions (tables st)) = false
    /\ slot_taken courseId (cs_week req) (cs_date req)
                  (attendanceSessions (tables st)) = false
    /\ user_exists (auth_id user) (users (tables st)) = true
    /\ row = mkSession newId courseId (auth_id user) (cs_week req) (cs_date req)
                       (cs_time req) active
    /\ st' = mkStore (courses st)
                     (mkDb (users (tables st))
                           (attendanceSessions (tables st) ++ [row])
                           (attendanceRecords (tables st))).
Proof.
  unfold create_session. split.
  - destruct (cs_auth req) as [user|]; [|discriminate].
    destruct (String.eqb_spec (auth_role user) "lecturer") as [Hr|Hr]; cbn [negb];
      [|discriminate].
    destruct (cs_courseId req) as [courseId|]; [|discriminate].
    destruct (Z.eqb_spec (cs_week req) 0) as [Hw|Hw]; cbn [orb]; [discriminate|].
    destruct (String.eqb_spec (cs_date req) "") as [Hd|Hd]; cbn [orb]; [discriminate|].
    destruct (String.eqb_spec (cs_time req) "") as [Ht|Ht]; [discriminate|].
    destruct (find_course courseId st) as [course|] eqn:Hc; [|discriminate].
    destruct (String.eqb_spec (course_lecturerId course) (auth_id user)) as [Ho|Ho];
      cbn [negb]; [|discriminate].
    unfold insert_session.
    cbn [session_id session_courseId session_week session_date session_lecturerId].
    destruct (session_exists newId _) eqn:E1; [discriminate|].
    destruct (slot_taken courseId _ _ _) eqn:E2; [discriminate|].
    rewrite (find_course_exists _ _ _ Hc). cbn [negb].
    destruct (user_exists (auth_id user) _) eqn:E3; cbn [negb]; [|discriminate].
    intros [= <- <-]. exists user, courseId, course. repeat split; assumption.
  - intros (user & courseId & course & -> & -> & -> & Hw & Hd & Ht & Hc & Ho
            & E1 & E2 & E3 & -> & ->).
    cbn [String.eqb negb].
    apply Z.eqb_neq in Hw. apply String.eqb_neq in Hd, Ht. rewrite Hw, Hd, Ht.
    cbn [orb]. rewrite Hc, Ho, String.eqb_refl. cbn [negb].
    unfold insert_session.
    cbn [session_id session_courseId session_week session_date session_lecturerId].
    now rewrite E1, E2, (find_course_exists _ _ _ Hc), E3.
Qed.



(** X7. Once a session exists for a course, week and date, a further
    request of the same lecturer for the same course, week and date is
    refused by the store: whatever key is drawn and whatever time is
    given, the unique index rejects the row (or the primary key does,
    when the key drawn is in use), the rejection is rethrown, and the
    store is left as it is. *)
Theorem create_session_again_is_rejected req newId st row st' req2 newId2 :
  create_session req newId st = (Return row, st') ->
  cs_auth req2 = cs_auth req ->
  cs_courseId req2 = cs_courseId req ->
  cs_week req2 = cs_week req ->
  cs_date req2 = cs_date req ->
  cs_time req2 <> "" ->
  create_session req2 newId2 st'
  = (Throw (StoreError (UniqueViolation
                          (if session_exists newId2 (attendanceSessions (tables st'))
                           then "attendance_sessions_pkey"
                           else "attendance_sessions_unique_idx"))),
     st').
Proof.
  intros H Ha Hc Hw Hd Ht.
  apply create_session_returns in H
    as (user & courseId & course & Hau & Hr & Hcid & Hw' & Hd' & _ & Hfc & Ho
        & E1 & E2 & E3 & -> & ->).
  unfold create_session. rewrite Ha, Hau, Hr, Hc, Hcid, Hw, Hd.
  cbn [String.eqb negb].
  apply Z.eqb_neq in Hw'. apply String.eqb_neq in Hd', Ht. rewrite Hw', Hd', Ht.
  cbn [orb]. unfold find_course in *. cbn [courses]. rewrite Hfc, Ho, String.eqb_refl.
  cbn [negb]. unfold insert_session.
  cbn [session_id session_courseId session_week session_date session_lecturerId
       tables attendanceSessions].
  destruct (session_exists newId2 _); [reflexivity|].
  unfold slot_taken. rewrite existsb_app. cbn [existsb].
  unfold same_slot at 2. cbn [session_courseId session_week session_date].
  now rewrite N.eqb_refl, Z.eqb_refl, String.eqb_refl, !orb_true_r.
Qed.

Lemma create_session_again_is_rejected_store1 :
  create_session
    (mkCreateSessionRequest (Some lecturer1) (Some 20%N) 5%Z "2026-02-10" "16:00:00")
    8%N (snd (create_session req_new_session 7%N store1))
  = (Throw (StoreError (UniqueViolation "attendance_sessions_unique_idx")),
     snd (create_session req_new_session 7%N store1)).
Proof.
  apply (create_session_again_is_rejected req_new_session 7%N store1
           (mkSession 7%N 20%N "lec-1" 5%Z "2026-02-10" "14:00:00" active)
           (snd (create_session req_new_session 7%N store1)));
    try reflexivity. discriminate.
Defined.

(* ================================================================== *)
(** ** The constraints of the whole store                              *)
(* ================================================================== *)

Lemma store_ok_iff st :
  store_ok st = true <->
  schema_ok (tables st) = true
  /\ NoDup (map session_id (attendanceSessions (tables st)))
  /\ NoDup (map slot_of (attendanceSessions (tables st)))
  /\ NoDup (map course_id (courses st))
  /\ NoDup (map course_code (courses st))
  /\ (forall s, In s (attendanceSessions (tables st)) ->
        In (session_courseId s) (map course_id (courses st))).
Proof.
  unfold store_ok, sessions_ok.
  rewrite !andb_true_iff, !distinct_ids_iff, unique_slots_iff, distinctb_iff,
    forallb_forall.
  split.
  - intros (((((H1 & H2) & H3) & H4) & H5) & H6). repeat split; try assumption.
    intros s Hs. apply course_exists_iff. now apply H6.
  - intros (H1 & H2 & H3 & H4 & H5 & H6). repeat split; try assumption.
    intros s Hs. apply course_exists_iff. now apply H6.
Qed.

Lemma NoDup_snoc {A : Type} (l : list A) x : NoDup l -> ~ In x l -> NoDup (l ++ [x]).
Proof.
  intros Hd Hn. apply NoDup_app; [assumption | repeat constructor; intros [] |].
  intros y Hy [<- | []]. contradiction.
Qed.

Lemma create_course_store_ok req newId st :
  store_ok st = true -> store_ok (snd (create_course req newId st)) = true.
Proof.
  intros Hok. unfold create_course.
  destruct (cc_auth req) as [user|]; [|exact Hok].
  destruct (negb _); [exact Hok|]. destruct (_ || _); [exact Hok|].
  unfold insert_course. cbn [course_id course_code course_lecturerId].
  destruct (course_exists newId _) eqn:E1; [exact Hok|].
  destruct (code_taken _ _) eqn:E2; [exact Hok|].
  destruct (negb (user_exists _ _)); [exact Hok|]. cbn [snd].
  apply store_ok_iff in Hok as (H1 & H2 & H3 & H4 & H5 & H6).
  apply store_ok_iff. cbn [tables courses]. rewrite !map_app. cbn [map].
  repeat split; try assumption.
  - apply NoDup_snoc; [assumption|]. intros Hin.
    apply course_exists_iff in Hin. cbn in Hin. congruence.
  - apply NoDup_snoc; [assumption|]. intros Hin.
    apply code_taken_iff in Hin. cbn in Hin. congruence.
  - intros s Hs. apply in_or_app. left. now apply H6.
Qed.

Lemma schema_ok_more_sessions db s :
  schema_ok db = true ->
  schema_ok (mkDb (users db) (attendanceSessions db ++ [s]) (attendanceRecords db)) = true.
Proof.
  intros H. apply schema_ok_iff in H as (H1 & H2 & H3).
  apply schema_ok_iff. cbn. repeat split; try assumption.
  - apply session_exists_iff. rewrite map_app. apply in_or_app. left.
    apply session_exists_iff. apply H3, H.
  - apply H3, H.
Qed.

Lemma create_session_store_ok req newId st :
  store_ok st = true -> store_ok (snd (create_session req newId st)) = true.
Proof.
  intros Hok.
  destruct (create_session req newId st) as [r st'] eqn:E. cbn [snd].
  destruct r as [| status msg | row | e].
  - unfold create_session in E.
    destruct (cs_auth req); [|now injection E as <-].
    destruct (negb _); [discriminate|]. destruct (cs_courseId req); [|discriminate].
    destruct (_ || _); [discriminate|]. destruct (find_course _ _); [|discriminate].
    destruct (negb _); [discriminate|]. destruct (insert_session _ _); discriminate.
  - unfold create_session in E.
    destruct (cs_auth req); [|discriminate].
    destruct (negb _); [now injection E as _ _ <-|].
    destruct (cs_courseId req); [|now injection E as _ _ <-].
    destruct (_ || _); [now injection E as _ _ <-|].
    destruct (find_course _ _); [|now injection E as _ _ <-].
    destruct (negb _); [now injection E as _ _ <-|].
    destruct (insert_session _ _); discriminate.
  - apply create_session_returns in E
      as (user & courseId & course & _ & _ & _ & _ & _ & _ & Hc & _ & E1 & E2 & E3 & -> & ->).
    apply store_ok_iff in Hok as (H1 & H2 & H3 & H4 & H5 & H6).
    apply store_ok_iff. cbn [tables courses attendanceSessions]. rewrite !map_app.
    cbn [map]. repeat split; try assumption.
    + now apply schema_ok_more_sessions.
    + apply NoDup_snoc; [assumption|]. intros Hin.
      apply session_exists_iff in Hin. cbn in Hin. congruence.
    + apply NoDup_snoc; [assumption|]. intros Hin.
      apply slot_taken_iff in Hin. cbn in Hin. congruence.
    + intros s Hs. apply in_app_iff in Hs as [Hs | [<- | []]]; [now apply H6|].
      cbn. apply course_exists_iff. exact (find_course_exists _ _ _ Hc).
  - unfold create_session in E.
    destruct (cs_auth req); [|discriminate].
    destruct (negb _); [discriminate|]. destruct (cs_courseId req); [|discriminate].
    destruct (_ || _); [discriminate|]. destruct (find_course _ _); [|discriminate].
    destruct (negb _); [discriminate|].
    destruct (insert_session _ _); [now injection E as _ <-| discriminate].
Qed.

Lemma frame_of_set_status sid st s : frame_of (set_status sid st s) = frame_of s.
Proof. unfold set_status. now destruct (N.eqb _ _). Qed.

Lemma exec_frames {X : Type} (s : Stmt X) db :
  map frame_of (attendanceSessions (snd (exec s db)))
  = map frame_of (attendanceSessions db).
Proof.
  destruct s; try reflexivity; cbn [exec].
  - destruct (insert_rows rows db) as [e | db'] eqn:E; [reflexivity|].
    apply insert_rows_inv in E. now subst db'.
  - cbn. rewrite map_map. apply map_ext. intros s. apply frame_of_set_status.
Qed.

Lemma exec_users {X : Type} (s : Stmt X) db : users (snd (exec s db)) = users db.
Proof.
  destruct s; try reflexivity; cbn [exec].
  destruct (insert_rows rows db) as [e | db'] eqn:E; [reflexivity|].
  apply insert_rows_inv in E. now subst db'.
Qed.

(** A property of the tables kept by every statement is kept by every
    run of every handler, whatever is lost. *)
Lemma run_faulty_keeps (P : Db -> Prop) :
  (forall X (s : Stmt X) db, P db -> P (snd (exec s db))) ->
  forall A (p : Prog (Response A)) faults db,
    P db -> P (snd (run_faulty faults p db)).
Proof.
  intros HP A p. induction p as [r | X s k IH]; intros faults db H; [exact H|].
  rewrite run_faulty_await. destruct (hd false faults); [exact H|].
  pose proof (HP X s db H) as H'.
  destruct (exec s db) as [[e | x] db']; [exact H' | apply IH, H'].
Qed.

Lemma frames_ids ss ss' :
  map frame_of ss' = map frame_of ss ->
  map session_id ss' = map session_id ss
  /\ map slot_of ss' = map slot_of ss
  /\ map session_courseId ss' = map session_courseId ss.
Proof.
  intros H.
  assert (forall l, map session_id l
                    = map (fun f : uuid * uuid * string * Z * string * string =>
                             let '(i, _, _, _, _, _) := f in i) (map frame_of l)) as E1
    by (intros l; rewrite map_map; reflexivity).
  assert (forall l, map slot_of l
                    = map (fun f : uuid * uuid * string * Z * string * string =>
                             let '(_, c, _, w, d, _) := f in (c, w, d)) (map frame_of l)) as E2
    by (intros l; rewrite map_map; reflexivity).
  assert (forall l, map session_courseId l
                    = map (fun f : uuid * uuid * string * Z * string * string =>
                             let '(_, c, _, _, _, _) := f in c) (map frame_of l)) as E3
    by (intros l; rewrite map_map; reflexivity).
  rewrite (E1 ss'), (E2 ss'), (E3 ss'), H, <- E1, <- E2, <- E3. auto.
Qed.

Lemma store_ok_same_frames st db' :
  store_ok st = true ->
  schema_ok db' = true ->
  map frame_of (attendanceSessions db') = map frame_of (attendanceSessions (tables st)) ->
  store_ok (mkStore (courses st) db') = true.
Proof.
  intros Hok Hs Hf. apply frames_ids in Hf as (E1 & E2 & E3).
  apply store_ok_iff in Hok as (H1 & H2 & H3 & H4 & H5 & H6).
  apply store_ok_iff. cbn [tables courses]. rewrite E1, E2.
  repeat split; try assumption.
  intros s Hin. apply (in_map session_courseId) in Hin. rewrite E3 in Hin.
  apply in_map_iff in Hin as (s0 & <- & Hin). now apply H6.
Qed.

Lemma delete_session_store_ok uid sid st :
  store_ok st = true ->
  store_ok (mkStore (courses st) (delete_session uid sid (tables st))) = true.
Proof.
  intros Hok. apply store_ok_iff in Hok as (H1 & H2 & H3 & H4 & H5 & H6).
  apply schema_ok_iff in H1 as (U1 & U2 & U3).
  apply store_ok_iff. cbn [tables courses delete_session attendanceSessions].
  repeat split; try assumption.
  - apply schema_ok_iff. cbn [users attendanceSessions attendanceRecords].
    repeat split.
    + assumption.
    + now apply NoDup_map_filter.
    + apply filter_In in H as [Hr Hkeep]. apply negb_true_iff in Hkeep.
      destruct (U3 r Hr) as [Hs _].
      apply existsb_exists in Hs as (s & Hs & E).
      apply existsb_exists. exists s. split; [|exact E].
      apply filter_In. split; [exact Hs|]. apply negb_true_iff.
      destruct (deletable uid sid s) eqn:Ed; [|reflexivity].
      assert (existsb (N.eqb (record_sessionId r))
                (map session_id (filter (deletable uid sid)
                                        (attendanceSessions (tables st)))) = true);
        [|congruence].
      apply existsb_exists. exists (session_id s). split.
      * apply in_map, filter_In. split; assumption.
      * apply N.eqb_eq in E. rewrite E. apply N.eqb_refl.
    + apply filter_In in H as [Hr _]. apply (U3 r Hr).
  - now apply NoDup_map_filter.
  - now apply NoDup_map_filter.
  - intros s Hs. apply filter_In in Hs as [Hs _]. now apply H6.
Qed.

(** X8. The constraints of the schema (primary keys, the unique indexes
    of records, sessions and course codes, the foreign keys) are kept by
    every operation: creating a course or a session, any run of any
    handler over the tables (so scanning, completing, reading the
    statistics) whatever statement is lost, and deleting a session. *)
Theorem every_operation_keeps_the_constraints st :
  store_ok st = true ->
  (forall req newId, store_ok (snd (create_course req newId st)) = true)
  /\ (forall req newId, store_ok (snd (create_session req newId st)) = true)
  /\ (forall A (p : Prog (Response A)) faults,
        store_ok (mkStore (courses st) (snd (run_faulty faults p (tables st)))) = true)
  /\ (forall uid sid,
        store_ok (mkStore (courses st) (delete_session uid sid (tables st))) = true).
Proof.
  intros Hok. split; [|split; [|split]].
  - intros req newId. now apply create_course_store_ok.
  - intros req newId. now apply create_session_store_ok.
  - intros A p faults.
    assert (schema_ok (tables st) = true) as Hs
      by (apply store_ok_iff in Hok; apply Hok).
    pose proof (run_faulty_keeps
                  (fun d => schema_ok d = true
                            /\ map frame_of (attendanceSessions d)
                               = map frame_of (attendanceSessions (tables st)))) as H.
    destruct (H (fun X s db '(conj H1 H2) =>
                   conj (exec_schema_ok s db H1)
                        (eq_trans (exec_frames s db) H2))
                A p faults (tables st) (conj Hs eq_refl)) as [H1 H2].
    now apply store_ok_same_frames.
  - intros uid sid. now apply delete_session_store_ok.
Qed.

Lemma every_operation_keeps_the_constraints_store2 :
  (forall req newId, store_ok (snd (create_course req newId store2)) = true)
  /\ (forall req newId, store_ok (snd (create_session req newId store2)) = true)
  /\ (forall A (p : Prog (Response A)) faults,
        store_ok (mkStore (courses store2) (snd (run_faulty faults p (tables store2)))) = true)
  /\ (forall uid sid,
        store_ok (mkStore (courses store2) (delete_session uid sid (tables store2))) = true).
Proof. exact (every_operation_keeps_the_constraints store2 eq_refl). Defined.

(* ================================================================== *)
(** ** A session from its creation to its completion                   *)
(* ================================================================== *)

Lemma no_record_of_missing_session db sid stu :
  schema_ok db = true ->
  session_exists sid (attendanceSessions db) = false ->
  has_record sid stu (attendanceRecords db) = false.
Proof.
  intros Hok Hs. destruct (has_record sid stu (attendanceRecords db)) eqn:E; [|reflexivity].
  apply existsb_exists in E as (r & Hr & E).
  apply same_key_iff in E. injection E as E _.
  apply schema_ok_iff in Hok as (_ & _ & H). destruct (H r Hr) as [H' _].
  congruence.
Qed.

Lemma find_new_session row db :
  session_exists (session_id row) (attendanceSessions db) = false ->
  find_session (session_id row)
    (mkDb (users db) (attendanceSessions db ++ [row]) (attendanceRecords db))
  = Some row.
Proof.
  intros H. unfold find_session. cbn [attendanceSessions].
  rewrite find_app_none by (apply find_none_existsb; exact H).
  cbn. now rewrite N.eqb_refl.
Qed.

Lemma filter_filter {A : Type} (p q : A -> bool) l :
  filter p (filter q l) = filter (fun a => q a && p a) l.
Proof.
  induction l as [|a l IH]; simpl; [reflexivity|].
  destruct (q a); simpl; [destruct (p a)|]; now rewrite IH.
Qed.

(** X9. A lecturer creates a session, scans one student with a fresh
    code, and completes the session.  The scan is accepted; completing
    reports as absent every user with role student other than the one
    scanned; and the records of the store are the old ones (none of them
    in the new session), then the present row, then one absent row for
    each of those students; the session ends completed. *)
Theorem session_from_creation_to_completion
        (JSON_parse : string -> option JsValue)
        (Date_getTime : JsValue -> TimeValue)
        (driver_text : option JsValue -> option string)
        req newId st row st' reqs user obj issuedAt student now scanTime :
  schema_ok (tables st) = true ->
  create_session req newId st = (Return row, st') ->
  scan_auth reqs = cs_auth req ->
  scan_params_id reqs = newId ->
  carries JSON_parse reqs user obj ->
  get obj "studentId" = Some (JStr (user_id student)) ->
  qrTime_of Date_getTime (get obj "timestamp") = Some issuedAt ->
  (0 <= now - issuedAt <= 30 * 1000)%Z ->
  find_user (user_id student) (tables st) = Some student ->
  let others :=
    filter (fun u => is_student u && negb (String.eqb (user_id u) (user_id student)))
           (users (tables st)) in
  exists db1 db2,
    run (scan JSON_parse Date_getTime driver_text reqs now scanTime) (tables st')
    = (Return (mkScanOk true (user_name student)), db1)
    /\ run (complete (mkCompleteRequest (cs_auth req) newId)) db1
       = (Return (mkCompleteOk true (List.length others)), db2)
    /\ (forall stu, has_record newId stu (attendanceRecords (tables st)) = false)
    /\ attendanceRecords db2
       = (attendanceRecords (tables st)
          ++ mkRecord newId (user_id student) present (Some scanTime)
          :: map (absent_row newId) others)%list
    /\ find_session newId db2
       = Some (mkSession newId (session_courseId row) (session_lecturerId row)
                         (session_week row) (session_date row) (session_time row)
                         completed).
Proof.
  intros Hok Hcreate Hauth Hid Hc Hstu Ht Hw Huser others.
  apply create_session_returns in Hcreate
    as (lec & courseId & course & Hlec & Hrole & _ & _ & _ & _ & _ & _
        & Hnew & _ & _ & -> & ->).
  cbn [tables session_courseId session_lecturerId session_week session_date session_time].
  set (row := mkSession newId courseId (auth_id lec) (cs_week req) (cs_date req)
                        (cs_time req) active).
  set (db := tables st) in *.
  set (db0' := mkDb (users db) (attendanceSessions db ++ [row]) (attendanceRecords db)).
  assert (forall stu, has_record newId stu (attendanceRecords db) = false) as Hnone
    by (intros stu; now apply no_record_of_missing_session).
  assert (find_session newId db0' = Some row) as Hfind
    by exact (find_new_session row db Hnew).
  assert (user = lec) as ->.
  { destruct Hc as (Ha & _). rewrite Hauth, Hlec in Ha. now injection Ha. }
  assert (scan JSON_parse Date_getTime driver_text reqs now scanTime
          = scan_store (auth_id lec) newId (Some (user_id student)) scanTime) as ->.
  { rewrite (scan_carries _ _ _ _ _ _ _ _ Hc), Ht, Hstu, Hid.
    replace (outside_window now (Some issuedAt)) with false; [reflexivity|].
    symmetry. apply inside_window_iff. lia. }
  pose proof (run_settle (auth_id lec) newId student row db0' Hfind eq_refl eq_refl
                Huser (Hnone (user_id student)) scanTime at_session None) as Hscan.
  cbn [settle next fst snd reply with_row prog_at] in Hscan.
  set (db1 := mkDb (users db0') (attendanceSessions db0')
                   (attendanceRecords db0'
                    ++ [mkRecord newId (user_id student) present (Some scanTime)])) in *.
  exists db1. eexists. split; [exact Hscan|].
  assert (schema_ok db1 = true) as Hok1.
  { pose proof (run_schema_ok (scan_store (auth_id lec) newId (Some (user_id student))
                                          scanTime) db0'
                  (schema_ok_more_sessions db row Hok)) as H.
    now rewrite Hscan in H. }
  assert (lacking newId db1 = others) as Hl.
  { unfold lacking, others. rewrite filter_filter. apply filter_ext. intros u.
    cbn [db1 db0' attendanceRecords users]. rewrite has_record_app, Hnone.
    cbn [has_record existsb orb]. unfold same_key.
    cbn [record_sessionId record_studentId]. rewrite N.eqb_refl, orb_false_r.
    cbn [andb]. now rewrite String.eqb_sym. }
  pose proof (complete_run (mkCompleteRequest (Some lec) newId) lec row db1
                eq_refl Hrole Hfind eq_refl Hok1) as Hcomp.
  cbn [complete_params_id] in Hcomp. rewrite Hl in Hcomp. rewrite Hlec.
  split; [exact Hcomp|]. split; [exact Hnone|]. split.
  - cbn [update_status backfilled attendanceRecords db1 db0']. rewrite Hl.
    now rewrite <- app_assoc.
  - rewrite (find_session_update newId completed (backfilled newId db1) row Hfind).
    unfold set_status, row. cbn [session_id]. now rewrite N.eqb_refl.
Qed.

Lemma session_from_creation_to_completion_store1 :
  exists db1' db2',
    run (demo_scan (mkScanRequest (Some lecturer1) 7%N qr_aina) 20000%Z 20000%Z)
        (tables (snd (create_session req_new_session 7%N store1)))
    = (Return (mkScanOk true "Aina"), db1')
    /\ run (complete (mkCompleteRequest (Some lecturer1) 7%N)) db1'
       = (Return (mkCompleteOk true 1), db2')
    /\ (forall stu, has_record 7%N stu (attendanceRecords db1) = false)
    /\ attendanceRecords db2'
       = [ mkRecord 1%N "stu-a" present (Some 5000%Z);
           mkRecord 7%N "stu-a" present (Some 20000%Z);
           mkRecord 7%N "stu-b" absent None ]
    /\ find_session 7%N db2'
       = Some (mkSession 7%N 20%N "lec-1" 5%Z "2026-02-10" "14:00:00" completed).
Proof.
  apply (session_from_creation_to_completion demo_JSON_parse demo_Date_getTime
           demo_driver_text req_new_session 7%N store1
           (mkSession 7%N 20%N "lec-1" 5%Z "2026-02-10" "14:00:00" active)
           (snd (create_session req_new_session 7%N store1))
           (mkScanRequest (Some lecturer1) 7%N qr_aina) lecturer1 obj_aina 10000%Z
           (mkUser "stu-a" "Aina" "student") 20000%Z 20000%Z);
    try reflexivity; try (simpl; lia).
  repeat split; try reflexivity; intros H; vm_compute in H; discriminate H.
Defined.

(* ================================================================== *)
(** ** Courses                                                         *)
(* ================================================================== *)

Lemma create_course_returns req newId st row st' :
  create_course req newId st = (Return row, st') <->
  exists user,
    cc_auth req = Some user
    /\ auth_role user = "lecturer"
    /\ cc_name req <> "" /\ cc_code req <> ""
    /\ course_exists newId (courses st) = false
    /\ code_taken (cc_code req) (courses st) = false
    /\ user_exists (auth_id user) (users (tables st)) = true
    /\ row = mkCourse newId (cc_name req) (cc_code req) (auth_id user)
    /\ st' = mkStore (courses st ++ [row]) (tables st).
Proof.
  unfold create_course. split.
  - destruct (cc_auth req) as [user|]; [|discriminate].
    destruct (String.eqb_spec (auth_role user) "lecturer") as [Hr|Hr]; cbn [negb];
      [|discriminate].
    destruct (String.eqb_spec (cc_name req) "") as [Hn|Hn]; cbn [orb]; [discriminate|].
    destruct (String.eqb_spec (cc_code req) "") as [Hc|Hc]; [discriminate|].
    unfold insert_course. cbn [course_id course_code course_lecturerId].
    destruct (course_exists newId _) eqn:E1; [discriminate|].
    destruct (code_taken _ _) eqn:E2; [discriminate|].
    destruct (user_exists _ _) eqn:E3; cbn [negb]; [|discriminate].
    intros [= <- <-]. exists user. repeat split; assumption.
  - intros (user & -> & -> & Hn & Hc & E1 & E2 & E3 & -> & ->).
    cbn [String.eqb negb]. apply String.eqb_neq in Hn, Hc. rewrite Hn, Hc. cbn [orb].
    unfold insert_course. cbn [course_id course_code course_lecturerId].
    now rewrite E1, E2, E3.
Qed.

(** X10. A course that has just been created is in its lecturer's list
    of courses: the list is the one that was there and one more entry
    (the last one, rows being read in insertion order), with the name
    and the code of the request; the list of any other user is as it
    was. *)
Theorem created_course_is_listed req newId st row st' :
  create_course req newId st = (Return row, st') ->
  exists before,
    get_courses (cc_auth req) st = Return before
    /\ get_courses (cc_auth req) st'
       = Return (before ++ [mkCourseSummary newId (cc_name req) (cc_code req)])%list
    /\ forall other,
         auth_id other <> course_lecturerId row ->
         get_courses (Some other) st' = get_courses (Some other) st.
Proof.
  intros H. apply create_course_returns in H
    as (user & Ha & Hr & _ & _ & _ & _ & _ & -> & ->).
  unfold get_courses. rewrite Ha, Hr. cbn [String.eqb negb courses].
  eexists. split; [reflexivity|]. split.
  - rewrite filter_app, map_app. cbn [filter course_lecturerId].
    now rewrite String.eqb_refl.
  - intros other Hne. destruct (negb _); [reflexivity|].
    rewrite filter_app. cbn [filter course_lecturerId].
    cbn [course_lecturerId] in Hne. apply not_eq_sym in Hne.
    apply String.eqb_neq in Hne. now rewrite Hne, app_nil_r.
Qed.

Lemma created_course_is_listed_store1 :
  exists before,
    get_courses (Some lecturer1) store1 = Return before
    /\ get_courses (Some lecturer1) (snd (create_course req_new_course 30%N store1))
       = Return (before ++ [mkCourseSummary 30%N "Operating Systems" "CS301"])%list
    /\ forall other,
         auth_id other <> "lec-1" ->
         get_courses (Some other) (snd (create_course req_new_course 30%N store1))
         = get_courses (Some other) store1.
Proof.
  exact (created_course_is_listed req_new_course 30%N store1
           (mkCourse 30%N "Operating Systems" "CS301" "lec-1")
           (snd (create_course req_new_course 30%N store1)) eq_refl).
Defined.

(** X11. A course code can be taken once: after a course has been
    created, a request of any lecturer for a course with the same code
    (and a name) is rejected by the store, the rejection is rethrown, and
    the store is left as it is. *)
Theorem course_code_is_taken_once req newId st row st' req2 user2 newId2 :
  create_course req newId st = (Return row, st') ->
  cc_auth req2 = Some user2 ->
  auth_role user2 = "lecturer" ->
  cc_name req2 <> "" ->
  cc_code req2 = cc_code req ->
  create_course req2 newId2 st'
  = (Throw (StoreError (UniqueViolation
                          (if course_exists newId2 (courses st')
                           then "courses_pkey" else "courses_code_idx"))),
     st').
Proof.
  intros H Ha Hr Hn Hc. apply create_course_returns in H
    as (user & _ & _ & _ & Hcode & _ & _ & _ & -> & ->).
  unfold create_course. rewrite Ha, Hr, Hc. cbn [String.eqb negb].
  apply String.eqb_neq in Hn, Hcode. rewrite Hn, Hcode. cbn [orb].
  unfold insert_course. cbn [course_id course_code course_lecturerId courses].
  destruct (course_exists newId2 _); [reflexivity|].
  unfold code_taken. rewrite existsb_app. cbn [existsb course_code].
  now rewrite String.eqb_refl, !orb_true_r.
Qed.

Lemma course_code_is_taken_once_store1 :
  create_course
    (mkCreateCourseRequest (Some (mkAuth "lec-2" "Dr. Tan" "lecturer"))
                           "Operating Systems II" "CS301")
    31%N (snd (create_course req_new_course 30%N store1))
  = (Throw (StoreError (UniqueViolation "courses_code_idx")),
     snd (create_course req_new_course 30%N store1)).
Proof.
  apply (course_code_is_taken_once req_new_course 30%N store1
           (mkCourse 30%N "Operating Systems" "CS301" "lec-1")
           (snd (create_course req_new_course 30%N store1))
           (mkCreateCourseRequest (Some (mkAuth "lec-2" "Dr. Tan" "lecturer"))
                                  "Operating Systems II" "CS301")
           (mkAuth "lec-2" "Dr. Tan" "lecturer") 31%N);
    try reflexivity. discriminate.
Defined.

(* ================================================================== *)
(** ** Session details                                                 *)
(* ================================================================== *)

Lemma user_exists_find id db :
  user_exists id (users db) = true -> exists u, find_user id db = Some u.
Proof.
  intros H. unfold find_user.
  destruct (find _ (users db)) as [u|] eqn:E; [now exists u|].
  apply existsb_find_none in E. unfold user_exists in H. congruence.
Qed.

Lemma students_of_total rs db :
  schema_ok db = true ->
  (forall r, In r rs -> In r (attendanceRecords db)) ->
  exists l,
    students_of rs db = Some l
    /\ map ss_id l = map record_studentId rs
    /\ map ss_status l = map record_status rs
    /\ forall x, In x l ->
         exists u, In u (users db) /\ ss_id x = user_id u /\ ss_name x = user_name u.
Proof.
  intros Hok. apply schema_ok_iff in Hok as (_ & _ & Hfk).
  induction rs as [|r rs IH]; intros Hin.
  - exists []. repeat split. intros x [].
  - destruct IH as (l & E & H1 & H2 & H3); [intros x Hx; apply Hin; now right|].
    destruct (Hfk r (Hin r (or_introl eq_refl))) as [_ Hu].
    apply user_exists_find in Hu as [u Hu].
    exists (mkStudentStatus (user_id u) (user_name u) (record_status r) :: l).
    cbn [students_of]. rewrite Hu, E. repeat split.
    + cbn. now rewrite H1, (find_user_id _ _ _ Hu).
    + cbn. now rewrite H2.
    + intros x [<- | Hx]; [|now apply H3].
      exists u. repeat split. apply find_some in Hu. apply Hu.
Qed.

Lemma session_record_ids_distinct sid db :
  schema_ok db = true ->
  NoDup (map record_studentId (session_records sid db)).
Proof.
  intros Hok. apply schema_ok_iff in Hok as (_ & Hk & _).
  apply (NoDup_map_filter key_of (fun r => N.eqb (record_sessionId r) sid)) in Hk.
  fold (session_records sid db) in Hk.
  assert (map key_of (session_records sid db)
          = map (pair sid) (map record_studentId (session_records sid db))) as E.
  { rewrite map_map. unfold session_records. apply map_ext_in.
    intros r Hr. apply filter_In in Hr as [_ Hr]. apply N.eqb_eq in Hr.
    unfold key_of. now rewrite Hr. }
  rewrite E in Hk. now apply NoDup_map_inv in Hk.
Qed.

Lemma session_details_run user sid s db :
  schema_ok db = true ->
  auth_role user = "lecturer" ->
  find_session sid db = Some s ->
  session_lecturerId s = auth_id user ->
  exists students,
    session_details (Some user) sid db = Return (mkSessionDetails s students)
    /\ map ss_id students = map record_studentId (session_records sid db)
    /\ map ss_status students = map record_status (session_records sid db)
    /\ NoDup (map ss_id students)
    /\ forall x, In x students ->
         exists u, In u (users db) /\ ss_id x = user_id u /\ ss_name x = user_name u.
Proof.
  intros Hok Hr Hs Ho.
  destruct (students_of_total (session_records sid db) db Hok) as (l & E & H1 & H2 & H3).
  { intros r Hin. unfold session_records in Hin. apply filter_In in Hin. apply Hin. }
  exists l. split.
  - unfold session_details. now rewrite Hr, Hs, Ho, !String.eqb_refl, E.
  - split; [exact H1|]. split; [exact H2|]. split; [|exact H3].
    rewrite H1. now apply session_record_ids_distinct.
Qed.

(** X12. On a store that keeps its constraints, the owner of a session
    gets its details without an error: one entry per record of the
    session (entries and records in the same order), with the status of
    the record and the id and name of the user it belongs to, and no
    student twice. *)
Theorem session_details_lists_each_record user sid s db :
  schema_ok db = true ->
  auth_role user = "lecturer" ->
  find_session sid db = Some s ->
  session_lecturerId s = auth_id user ->
  exists students,
    session_details (Some user) sid db = Return (mkSessionDetails s students)
    /\ map ss_id students = map record_studentId (session_records sid db)
    /\ map ss_status students = map record_status (session_records sid db)
    /\ NoDup (map ss_id students)
    /\ forall x, In x students ->
         exists u, In u (users db) /\ ss_id x = user_id u /\ ss_name x = user_name u.
Proof. apply session_details_run. Qed.

Lemma session_details_lists_each_record_db1 :
  exists students,
    session_details (Some lecturer1) 1%N db1 = Return (mkSessionDetails demo_session students)
    /\ map ss_id students = map record_studentId (session_records 1%N db1)
    /\ map ss_status students = map record_status (session_records 1%N db1)
    /\ NoDup (map ss_id students)
    /\ forall x, In x students ->
         exists u, In u (users db1) /\ ss_id x = user_id u /\ ss_name x = user_name u.
Proof.
  exact (session_details_lists_each_record lecturer1 1%N demo_session db1
           eq_refl eq_refl eq_refl eq_refl).
Defined.

(** X13. After its owner has completed a session, the details of the
    session show it completed and list every user with role student
    exactly once. *)
Theorem session_details_after_complete req user s db :
  schema_ok db = true ->
  complete_auth req = Some user ->
  auth_role user = "lecturer" ->
  find_session (complete_params_id req) db = Some s ->
  session_lecturerId s = auth_id user ->
  exists s' students,
    session_details (Some user) (complete_params_id req) (snd (run (complete req) db))
    = Return (mkSessionDetails s' students)
    /\ session_status s' = completed
    /\ NoDup (map ss_id students)
    /\ forall u, In u (users db) -> user_role u = "student" ->
         In (user_id u) (map ss_id students).
Proof.
  intros Hok Ha Hr Hs Ho.
  rewrite (complete_run req user s db Ha Hr Hs Ho Hok). cbn [snd].
  set (sid := complete_params_id req) in *.
  pose proof (find_session_exists _ _ _ Hs) as Hex.
  destruct (session_details_run user sid (set_status sid completed s)
              (update_status sid completed (backfilled sid db))) as (l & E & H1 & _ & H3 & _).
  - apply update_status_schema_ok, backfilled_schema_ok; assumption.
  - exact Hr.
  - apply (find_session_update sid completed (backfilled sid db) s). exact Hs.
  - now rewrite set_status_lecturer.
  - exists (set_status sid completed s), l. split; [exact E|]. split.
    + apply set_status_status. exact (find_session_id _ _ _ Hs).
    + split; [exact H3|]. intros u Hu Hst. rewrite H1.
      pose proof (backfilled_has_record sid db u Hu Hst) as Hh.
      apply existsb_exists in Hh as (r & Hin & Hk).
      apply same_key_iff in Hk. injection Hk as Hk1 Hk2.
      apply in_map_iff. exists r. split; [exact Hk2|].
      unfold session_records. apply filter_In. split; [exact Hin|].
      now apply N.eqb_eq.
Qed.

Lemma session_details_after_complete_db1 :
  exists s' students,
    session_details (Some lecturer1) 1%N (snd (run (complete req_complete) db1))
    = Return (mkSessionDetails s' students)
    /\ session_status s' = completed
    /\ NoDup (map ss_id students)
    /\ forall u, In u (users db1) -> user_role u = "student" ->
         In (user_id u) (map ss_id students).
Proof.
  exact (session_details_after_complete req_complete lecturer1 demo_session db1
           eq_refl eq_refl eq_refl eq_refl eq_refl).
Defined.

(* ================================================================== *)
(** ** The dashboard                                                   *)
(* ================================================================== *)

Lemma dashboard_run user today db :
  auth_role user = "lecturer" ->
  dashboard (Some user) today db
  = Return (mkDashboard
              (List.length (filter (ongoing (auth_id user)) (attendanceSessions db)))
              (List.length (today_scan_rows (auth_id user) today db))
              (auth_name user)).
Proof. intros Hr. unfold dashboard. now rewrite Hr. Qed.

Lemma flat_map_length_ext {A B C : Type} (f : A -> list B) (g : A -> list C) l :
  (forall a, In a l -> List.length (f a) = List.length (g a)) ->
  List.length (flat_map f l) = List.length (flat_map g l).
Proof.
  induction l as [|a l IH]; intros H; simpl; [reflexivity|].
  rewrite !length_app, (H a (or_introl eq_refl)), IH; [reflexivity|].
  intros b Hb. apply H. now right.
Qed.

Lemma find_session_any_update k sid st db :
  find_session k (update_status sid st db)
  = option_map (set_status sid st) (find_session k db).
Proof.
  unfold find_session, update_status. cbn [attendanceSessions].
  induction (attendanceSessions db) as [|x ss IH]; simpl; [reflexivity|].
  rewrite set_status_id. destruct (N.eqb (session_id x) k); [reflexivity | exact IH].
Qed.

Lemma set_status_date sid st s : session_date (set_status sid st s) = session_date s.
Proof. unfold set_status. now destruct (N.eqb _ _). Qed.

Lemma set_status_elsewhere sid st ss :
  ~ In sid (map session_id ss) -> map (set_status sid st) ss = ss.
Proof.
  induction ss as [|x ss IH]; simpl; intros H; [reflexivity|].
  rewrite IH by tauto. f_equal. unfold set_status.
  destruct (N.eqb_spec (session_id x) sid); [|reflexivity]. tauto.
Qed.

(** Flipping one session of the lecturer to completed takes it off the
    ongoing ones, if it was among them. *)
Lemma ongoing_after_flip lecturerId sid s ss :
  NoDup (map session_id ss) ->
  find (fun x => N.eqb (session_id x) sid) ss = Some s ->
  session_lecturerId s = lecturerId ->
  List.length (filter (ongoing lecturerId) (map (set_status sid completed) ss))
  = List.length (filter (ongoing lecturerId) ss)
    - (if session_status_eqb (session_status s) active then 1 else 0).
Proof.
  intros Hd Hf Ho. induction ss as [|x ss IH]; [discriminate|].
  simpl in Hd, Hf. inversion Hd as [|? ? Hn Hd']; subst.
  cbn [map filter].
  destruct (N.eqb_spec (session_id x) sid) as [E|E].
  - injection Hf as ->. rewrite <- E in *.
    rewrite (set_status_elsewhere _ _ _ Hn).
    assert (ongoing (session_lecturerId s) (set_status (session_id s) completed s) = false)
      as ->.
    { unfold ongoing, set_status. rewrite N.eqb_refl.
      cbn [session_lecturerId session_status session_status_eqb].
      apply andb_false_r. }
    assert (ongoing (session_lecturerId s) s
            = session_status_eqb (session_status s) active) as ->.
    { unfold ongoing. now rewrite String.eqb_refl. }
    destruct (session_status_eqb (session_status s) active); cbn [List.length]; lia.
  - specialize (IH Hd' Hf).
    replace (set_status sid completed x) with x
      by (unfold set_status; destruct (N.eqb_spec (session_id x) sid); congruence).
    destruct (ongoing (session_lecturerId s) x); cbn [List.length]; [|exact IH].
    rewrite IH.
    assert (List.length (filter (ongoing (session_lecturerId s)) ss)
            >= (if session_status_eqb (session_status s) active then 1 else 0)).
    { apply find_some in Hf as [Hin Hid].
      destruct (session_status_eqb (session_status s) active) eqn:Ea; [|lia].
      assert (In s (filter (ongoing (session_lecturerId s)) ss)) as Hin'.
      { apply filter_In. split; [exact Hin|]. unfold ongoing.
        now rewrite String.eqb_refl, Ea. }
      destruct (filter _ ss); [destruct Hin' | cbn; lia]. }
    lia.
Qed.

(** X14. A scan that succeeds raises the lecturer's count of today's scans
    by one when the session is dated today, and leaves it as it is
    otherwise; the count of ongoing sessions does not move. *)
Theorem dashboard_counts_a_scan
        (JSON_parse : string -> option JsValue)
        (Date_getTime : JsValue -> TimeValue)
        (driver_text : option JsValue -> option string)
        req user now scanTime today db body db' :
  sessions_ok db = true ->
  scan_auth req = Some user ->
  run (scan JSON_parse Date_getTime driver_text req now scanTime) db = (Return body, db') ->
  exists s n m,
    find_session (scan_params_id req) db = Some s
    /\ dashboard (Some user) today db = Return (mkDashboard n m (auth_name user))
    /\ dashboard (Some user) today db'
       = Return (mkDashboard n (m + (if String.eqb (session_date s) today then 1 else 0))
                             (auth_name user)).
Proof.
  intros Hs Ha Hrun.
  pose proof (scan_outcome JSON_parse Date_getTime driver_text [] req now scanTime db) as H.
  rewrite run_faulty_none, Hrun in H.
  destruct H as [(_ & H & _) | (u & s & student & Hu & Hr & Hf & Ho & _ & _ & _ & _ & ->)];
    [now destruct (H body)|].
  rewrite Ha in Hu. injection Hu as <-.
  exists s. do 2 eexists. split; [exact Hf|].
  rewrite !dashboard_run by exact Hr. split; [reflexivity|].
  f_equal. f_equal. rewrite !today_scan_rows_joined by exact Hs.
  cbn [attendanceRecords]. rewrite flat_map_app, length_app. f_equal.
  cbn [flat_map record_sessionId record_status status_eqb].
  change (find_session (scan_params_id req) _) with (find_session (scan_params_id req) db).
  rewrite Hf, Ho, String.eqb_refl. cbn [andb].
  now destruct (String.eqb (session_date s) today).
Qed.

Lemma dashboard_counts_a_scan_db0 :
  exists s n m,
    find_session 1%N db0 = Some s
    /\ dashboard (Some lecturer1) "2026-01-27" db0
       = Return (mkDashboard n m "Dr. Lim")
    /\ dashboard (Some lecturer1) "2026-01-27"
                 (snd (run (demo_scan req_aina 20000%Z 20000%Z) db0))
       = Return (mkDashboard n (m + (if String.eqb (session_date s) "2026-01-27"
                                     then 1 else 0)) "Dr. Lim").
Proof.
  exact (dashboard_counts_a_scan demo_JSON_parse demo_Date_getTime demo_driver_text
           req_aina lecturer1 20000%Z 20000%Z "2026-01-27" db0 _ _
           eq_refl eq_refl eq_refl).
Defined.

(** X15. Completing a session takes it off the lecturer's ongoing
    sessions if it was active (and changes nothing if it was completed
    already); the count of today's scans does not move, the absent rows
    not being scans. *)
Theorem dashboard_after_complete req user s today db :
  schema_ok db = true ->
  sessions_ok db = true ->
  complete_auth req = Some user ->
  auth_role user = "lecturer" ->
  find_session (complete_params_id req) db = Some s ->
  session_lecturerId s = auth_id user ->
  exists n m,
    dashboard (Some user) today db = Return (mkDashboard n m (auth_name user))
    /\ dashboard (Some user) today (snd (run (complete req) db))
       = Return (mkDashboard
                   (n - (if session_status_eqb (session_status s) active then 1 else 0))
                   m (auth_name user)).
Proof.
  intros Hok Hs Ha Hr Hf Ho.
  rewrite (complete_run req user s db Ha Hr Hf Ho Hok). cbn [snd].
  set (sid := complete_params_id req) in *.
  do 2 eexists. rewrite !dashboard_run by exact Hr. split; [reflexivity|].
  f_equal. f_equal.
  - cbn [update_status backfilled attendanceSessions].
    apply ongoing_after_flip; [now apply distinct_ids_iff | exact Hf | exact Ho].
  - rewrite !today_scan_rows_joined.
    + cbn [update_status backfilled attendanceRecords].
      rewrite flat_map_app, length_app.
      rewrite (flat_map_nothing _ (map (absent_row sid) (lacking sid db))).
      * cbn [List.length]. rewrite Nat.add_0_r.
        apply flat_map_length_ext. intros r _.
        rewrite find_session_any_update.
        change (find_session (record_sessionId r) (backfilled sid db))
          with (find_session (record_sessionId r) db).
        destruct (find_session (record_sessionId r) db) as [x|]; [|reflexivity].
        cbn [option_map]. rewrite set_status_lecturer, set_status_date.
        now destruct (_ && _).
      * intros r Hin. apply in_map_iff in Hin as (u & <- & _).
        cbn [absent_row record_status status_eqb].
        destruct (find_session (record_sessionId _) (update_status _ _ _));
          [|reflexivity].
        now rewrite andb_false_r.
    + exact Hs.
    + unfold sessions_ok. cbn [update_status backfilled attendanceSessions].
      rewrite map_map.
      rewrite (map_ext _ session_id (fun x => set_status_id sid completed x)).
      exact Hs.
Qed.

Lemma dashboard_after_complete_db1 :
  exists n m,
    dashboard (Some lecturer1) "2026-01-27" db1 = Return (mkDashboard n m "Dr. Lim")
    /\ dashboard (Some lecturer1) "2026-01-27" (snd (run (complete req_complete) db1))
       = Return (mkDashboard
                   (n - (if session_status_eqb (session_status demo_session) active
                         then 1 else 0))
                   m "Dr. Lim").
Proof.
  exact (dashboard_after_complete req_complete lecturer1 demo_session "2026-01-27" db1
           eq_refl eq_refl eq_refl eq_refl eq_refl eq_refl).
Defined.

(* ================================================================== *)
(** ** The export                                                      *)
(* ================================================================== *)

Lemma export_rows_of courseId week db rs :
  schema_ok db = true ->
  (forall r, In r rs -> In r (attendanceRecords db)) ->
  let rows :=
    flat_map (fun r =>
      match joined r db with
      | Some (s, u) =>
          if N.eqb (session_courseId s) courseId
             && opt_matches Z.eqb week (session_week s)
          then [mkExportRow (session_week s) (session_date s) (session_time s)
                            (user_id u) (user_name u) (record_status r)]
          else []
      | None => []
      end) rs in
  map (fun x => (er_studentId x, er_status x)) rows
  = map (fun r => (record_studentId r, record_status r))
        (filter (in_course_week courseId week db) rs)
  /\ forall x, In x rows ->
       exists s, In s (attendanceSessions db)
                 /\ session_courseId s = courseId
                 /\ opt_matches Z.eqb week (session_week s) = true
                 /\ er_week x = session_week s /\ er_date x = session_date s
                 /\ er_time x = session_time s.
Proof.
  intros Hok. apply schema_ok_iff in Hok as (_ & _ & Hfk).
  induction rs as [|r rs IH]; intros Hin rows; [split; [reflexivity | intros x []]|].
  destruct (IH (fun x Hx => Hin x (or_intror Hx))) as [IH1 IH2]. clear IH.
  destruct (Hfk r (Hin r (or_introl eq_refl))) as [Hs Hu].
  apply user_exists_find in Hu as [u Hu].
  assert (exists s, find_session (record_sessionId r) db = Some s) as [s Hs'].
  { unfold find_session. destruct (find _ (attendanceSessions db)) as [s|] eqn:E;
      [now exists s|].
    apply existsb_find_none in E. unfold session_exists in Hs. congruence. }
  assert (joined r db = Some (s, u)) as Hj by (unfold joined; now rewrite Hs', Hu).
  assert (in_course_week courseId week db r
          = N.eqb (session_courseId s) courseId
            && opt_matches Z.eqb week (session_week s)) as Hp
    by (unfold in_course_week; now rewrite Hs').
  subst rows. cbn [flat_map filter]. rewrite Hj, Hp.
  destruct (N.eqb (session_courseId s) courseId
            && opt_matches Z.eqb week (session_week s)) eqn:Ec.
  - cbn [app map er_studentId er_status]. split.
    + rewrite IH1, (find_user_id _ _ _ Hu). reflexivity.
    + intros x Hx. apply in_inv in Hx as [<- | Hx]; [|now apply IH2].
      apply andb_true_iff in Ec as [Ec1 Ec2]. apply N.eqb_eq in Ec1.
      exists s. repeat split; try assumption.
      apply find_some in Hs'. apply Hs'.
  - cbn [app]. split; [exact IH1 | exact IH2].
Qed.



(* ================================================================== *)
(** ** Deleting a session                                              *)
(* ================================================================== *)

Lemma filter_all {A : Type} (p : A -> bool) l :
  (forall a, In a l -> p a = true) -> filter p l = l.
Proof.
  induction l as [|a l IH]; simpl; intros H; [reflexivity|].
  rewrite (H a (or_introl eq_refl)), IH; [reflexivity|].
  intros b Hb. apply H. now right.
Qed.

Lemma session_by_id ss x y :
  NoDup (map session_id ss) -> In x ss -> In y ss ->
  session_id x = session_id y -> x = y.
Proof.
  induction ss as [|z ss IH]; intros Hd Hx Hy E; [destruct Hx|].
  simpl in Hd. inversion Hd as [|? ? Hn Hd']; subst.
  destruct Hx as [-> | Hx], Hy as [-> | Hy]; try reflexivity.
  - exfalso. apply Hn. rewrite E. now apply in_map.
  - exfalso. apply Hn. rewrite <- E. now apply in_map.
  - now apply IH.
Qed.

Lemma find_kept_session uid sid sid' ss :
  sid' <> sid ->
  find (fun x => N.eqb (session_id x) sid')
       (filter (fun x => negb (deletable uid sid x)) ss)
  = find (fun x => N.eqb (session_id x) sid') ss.
Proof.
  intros Hne. induction ss as [|y ss IH]; [reflexivity|].
  cbn [filter find]. destruct (deletable uid sid y) eqn:Ed; cbn [negb].
  - rewrite IH. apply andb_true_iff in Ed as [Ed _]. apply N.eqb_eq in Ed.
    destruct (N.eqb_spec (session_id y) sid'); [congruence | reflexivity].
  - cbn [find]. destruct (N.eqb (session_id y) sid'); [reflexivity | exact IH].
Qed.

(** X17. Deleting a session as its lecturer removes the session and all
    its records, and nothing else: the users, every other session and
    the records of every other session stay as they are.  Under the
    delete policy, deleting it as anybody else changes nothing.  The
    status of the session plays no part. *)
Theorem delete_session_cascades uid sid s db :
  sessions_ok db = true ->
  find_session sid db = Some s ->
  let db' := delete_session uid sid db in
  users db' = users db
  /\ (forall sid', sid' <> sid ->
        find_session sid' db' = find_session sid' db
        /\ session_records sid' db' = session_records sid' db)
  /\ (session_lecturerId s = uid ->
        find_session sid db' = None /\ session_records sid db' = [])
  /\ (session_lecturerId s <> uid -> db' = db).
Proof.
  intros Hs Hf db'. apply distinct_ids_iff in Hs.
  pose proof (find_some _ _ Hf) as [Hin Hid]. apply N.eqb_eq in Hid.
  assert (forall x, In x (attendanceSessions db) -> session_id x = sid -> x = s) as Hsame.
  { intros x Hx Ex. apply (session_by_id _ x s Hs Hx Hin). congruence. }
  assert (forall x, In x (attendanceSessions db) -> deletable uid sid x = true ->
                    x = s /\ session_lecturerId s = uid) as Honly.
  { intros x Hx Hd. apply andb_true_iff in Hd as [Hd1 Hd2].
    apply N.eqb_eq in Hd1. apply String.eqb_eq in Hd2.
    rewrite <- (Hsame x Hx Hd1). auto. }
  split; [reflexivity|]. split; [|split].
  - intros sid' Hne. split.
    + exact (find_kept_session uid sid sid' (attendanceSessions db) Hne).
    + unfold session_records, db', delete_session. cbn [attendanceRecords].
      rewrite filter_filter. apply filter_ext_in. intros r _.
      destruct (N.eqb_spec (record_sessionId r) sid') as [E|E];
        [|now rewrite andb_false_r].
      rewrite andb_true_r. apply negb_true_iff.
      destruct (existsb _ _) eqn:Ex; [|reflexivity].
      apply existsb_exists in Ex as (i & Hi & Ei). apply N.eqb_eq in Ei.
      apply in_map_iff in Hi as (x & <- & Hx). apply filter_In in Hx as [_ Hx].
      apply andb_true_iff in Hx as [Hx _]. apply N.eqb_eq in Hx. congruence.
  - intros Ho.
    assert (deletable uid sid s = true) as Hd.
    { unfold deletable. now rewrite Hid, N.eqb_refl, Ho, String.eqb_refl. }
    split.
    + unfold find_session, db', delete_session. cbn [attendanceSessions].
      apply find_none_existsb. apply not_true_false. intros Hex.
      apply existsb_exists in Hex as (x & Hx & Ex).
      apply filter_In in Hx as [Hx Hk]. apply negb_true_iff in Hk.
      apply N.eqb_eq in Ex. rewrite (Hsame x Hx Ex) in Hk. congruence.
    + unfold session_records, db', delete_session. cbn [attendanceRecords].
      rewrite filter_filter.
      destruct (filter _ (attendanceRecords db)) as [|r l] eqn:E; [reflexivity|].
      assert (In r (r :: l)) as Hr by now left.
      rewrite <- E in Hr. apply filter_In in Hr as [_ Hr].
      apply andb_true_iff in Hr as [Hk Hsid]. apply negb_true_iff in Hk.
      apply N.eqb_eq in Hsid.
      assert (existsb (N.eqb (record_sessionId r))
                (map session_id (filter (deletable uid sid) (attendanceSessions db))) = true);
        [|congruence].
      apply existsb_exists. exists (session_id s). split.
      * apply in_map, filter_In. split; assumption.
      * rewrite Hsid, Hid. apply N.eqb_refl.
  - intros Hne.
    assert (filter (deletable uid sid) (attendanceSessions db) = []) as Hnone.
    { destruct (filter _ (attendanceSessions db)) as [|x l] eqn:E; [reflexivity|].
      assert (In x (x :: l)) as Hx by now left.
      rewrite <- E in Hx. apply filter_In in Hx as [Hx Hd].
      destruct (Honly x Hx Hd) as [_ H]. contradiction. }
    unfold db', delete_session. rewrite Hnone. cbn [map existsb negb].
    rewrite (filter_all _ (attendanceRecords db)) by reflexivity.
    rewrite (filter_all _ (attendanceSessions db)).
    + now destruct db.
    + intros x Hx. apply negb_true_iff. apply not_true_false. intros Hd.
      destruct (Honly x Hx Hd) as [_ H]. contradiction.
Qed.

Lemma delete_session_cascades_db2 :
  let db' := delete_session "lec-1" 1%N db2 in
  users db' = users db2
  /\ (forall sid', sid' <> 1%N ->
        find_session sid' db' = find_session sid' db2
        /\ session_records sid' db' = session_records sid' db2)
  /\ (session_lecturerId demo_session = "lec-1" ->
        find_session 1%N db' = None /\ session_records 1%N db' = [])
  /\ (session_lecturerId demo_session <> "lec-1" -> db' = db2).
Proof.
  exact (delete_session_cascades "lec-1" 1%N demo_session db2 eq_refl eq_refl).
Defined.

(* ================================================================== *)
(** ** The code of a student, from the device to the record            *)
(* ================================================================== *)

(** The run of the scan route from the session lookup on, without
    losses: the first check that fails decides, and the insert is never
    refused. *)
Lemma scan_store_run lecturerId sid x t db :
  run (scan_store lecturerId sid (Some x) t) db
  = match find_session sid db with
    | None => (Send 404%Z ERR_SESSION_NOT_FOUND, db)
    | Some s =>
        if negb (String.eqb (session_lecturerId s) lecturerId)
        then (Send 403%Z ERR_SCAN_NOT_OWNER, db)
        else if negb (session_status_eqb (session_status s) active)
        then (Send 400%Z ERR_NOT_ACTIVE, db)
        else match find_user x db with
             | None => (Send 404%Z ERR_STUDENT_NOT_FOUND, db)
             | Some u =>
                 if has_record sid x (attendanceRecords db)
                 then (Send 400%Z ERR_ALREADY_SCANNED, db)
                 else (Return (mkScanOk true (user_name u)),
                       mkDb (users db) (attendanceSessions db)
                            (attendanceRecords db
                             ++ [mkRecord sid x present (Some t)]))
             end
    end.
Proof.
  unfold scan_store. cbn [run exec].
  destruct (find_session sid db) as [s|] eqn:Hs; [|reflexivity].
  destruct (negb (String.eqb (session_lecturerId s) lecturerId)); [reflexivity|].
  destruct (negb (session_status_eqb (session_status s) active)); [reflexivity|].
  unfold scan_check_student. cbn [run exec].
  destruct (find_user x db) as [u|] eqn:Hu; [|reflexivity].
  unfold scan_check_record. cbn [run exec].
  destruct (find _ (attendanceRecords db)) eqn:Hr.
  - apply find_some in Hr as [Hin Hk].
    assert (has_record sid x (attendanceRecords db) = true) as ->; [|reflexivity].
    apply existsb_exists. eexists. split; eassumption.
  - apply existsb_find_none in Hr.
    fold (has_record sid x (attendanceRecords db)) in Hr. rewrite Hr.
    unfold scan_insert. cbn [run exec insert_rows]. unfold insert_row.
    cbn [record_sessionId record_studentId].
    rewrite Hr, (find_session_exists _ _ _ Hs).
    pose proof (find_user_exists _ _ _ Hu) as He. rewrite He.
    reflexivity.
Qed.

Section CodeFacts.

Variable JSON_stringify : JsValue -> string.
Variable toISOString : Z -> string.
Variable JSON_parse : string -> option JsValue.
Variable Date_getTime : JsValue -> TimeValue.
Variable driver_text : option JsValue -> option string.

Local Abbreviation scan_code := (scan JSON_parse Date_getTime driver_text).

(** The scan of a text that the builtins read back as the object of
    [studentId], [name] and the time [issuedAt]. *)
Lemma scan_of_code lec sid code studentId name issuedAt now scanTime :
  auth_role lec = "lecturer" ->
  code <> "" ->
  JSON_parse code = Some (qr_object studentId name (toISOString issuedAt)) ->
  Date_getTime (JStr (toISOString issuedAt)) = Some issuedAt ->
  scan_code (mkScanRequest (Some lec) sid code) now scanTime
  = if outside_window now (Some issuedAt)
    then Done (Send 400%Z ERR_EXPIRED)
    else scan_store (auth_id lec) sid (Some studentId) scanTime.
Proof.
  intros Hrole Hne Hp Ht.
  assert (carries JSON_parse (mkScanRequest (Some lec) sid code) lec
                  (qr_object studentId name (toISOString issuedAt))) as Hc.
  { repeat split; try assumption; discriminate. }
  rewrite (scan_carries _ _ _ _ _ _ _ _ Hc).
  cbn [get qr_object assoc String.eqb Ascii.eqb Bool.eqb qrTime_of text_param
       scan_params_id].
  now rewrite Ht.
Qed.

Lemma window_as_test now issuedAt :
  outside_window now (Some issuedAt)
  = negb ((0 <=? now - issuedAt)%Z && (now - issuedAt <=? 30000)%Z).
Proof.
  destruct (outside_window now (Some issuedAt)) eqn:E.
  - apply outside_window_iff in E. symmetry. apply negb_true_iff.
    apply andb_false_iff. destruct E; [left | right]; lia.
  - apply inside_window_iff in E. symmetry. apply negb_false_iff.
    apply andb_true_iff. split; lia.
Qed.

(** X18. The code that GET /api/student/qr issues to a student at
    [issuedAt], once the builtins read back what they wrote, is accepted
    by the scan route for the owner of an active session exactly while
    0 <= now - issuedAt <= 30000 ms: the student of the code gets one
    present row and the reply carries the name of the users table.
    Outside these bounds the reply is 400 and nothing is recorded. *)
Theorem issued_code_is_read_for_30_seconds stu issuedAt lec sid s u db now scanTime :
  auth_role stu = "student" ->
  let object := qr_object (auth_id stu) (auth_name stu) (toISOString issuedAt) in
  JSON_parse (JSON_stringify object) = Some object ->
  JSON_stringify object <> "" ->
  Date_getTime (JStr (toISOString issuedAt)) = Some issuedAt ->
  auth_role lec = "lecturer" ->
  find_session sid db = Some s ->
  session_lecturerId s = auth_id lec ->
  session_status s = active ->
  find_user (auth_id stu) db = Some u ->
  has_record sid (auth_id stu) (attendanceRecords db) = false ->
  exists body,
    student_qr JSON_stringify toISOString (Some stu) issuedAt = Return body
    /\ run (scan_code (mkScanRequest (Some lec) sid (qr_qrData body)) now scanTime) db
       = if (0 <=? now - issuedAt)%Z && (now - issuedAt <=? 30000)%Z
         then (Return (mkScanOk true (user_name u)),
               mkDb (users db) (attendanceSessions db)
                    (attendanceRecords db
                     ++ [mkRecord sid (auth_id stu) present (Some scanTime)]))
         else (Send 400%Z ERR_EXPIRED, db).
Proof.
  intros Hstu object Hp Hne Ht Hlec Hs Hown Hact Hu Hr.
  eexists. split.
  - unfold student_qr. rewrite Hstu. cbn. reflexivity.
  - cbn [qr_qrData]. fold object.
    rewrite (scan_of_code lec sid _ _ _ issuedAt now scanTime Hlec Hne Hp Ht).
    rewrite window_as_test.
    destruct ((0 <=? now - issuedAt)%Z && (now - issuedAt <=? 30000)%Z);
      cbn [negb]; [|reflexivity].
    rewrite scan_store_run, Hs, Hown, String.eqb_refl, Hact, Hu, Hr. reflexivity.
Qed.

(** X19. The scan screen and the scan route read one code against one
    clock.  The screen calls the code expired only when it is older than
    30 s, and marks the attendance otherwise: for a code of the last 30 s
    both go on, for an older one both refuse it, and a code issued after
    the clock's time is refused by the route while the screen shows the
    attendance as marked. *)
Theorem scan_screen_marks_a_code_of_the_future req user obj issuedAt now scanTime screen :
  carries JSON_parse req user obj ->
  qrTime_of Date_getTime (get obj "timestamp") = Some issuedAt ->
  scanned screen = false ->
  processing screen = false ->
  let shown := handleBarCodeScanned JSON_parse Date_getTime (scan_qrData req) now screen in
  let marked := (Some (AttendanceMarked (get obj "name") (get obj "studentId")),
                 mkScanScreen true true) in
  let route := scan_code req now scanTime in
  ((30000 < now - issuedAt)%Z ->
     shown = (Some QrCodeExpired, mkScanScreen false false)
     /\ route = Done (Send 400%Z ERR_EXPIRED))
  /\ ((0 <= now - issuedAt <= 30000)%Z ->
       shown = marked
       /\ route = scan_store (auth_id user) (scan_params_id req)
                             (text_param driver_text (get obj "studentId")) scanTime)
  /\ ((now - issuedAt < 0)%Z ->
       shown = marked /\ route = Done (Send 400%Z ERR_EXPIRED)).
Proof.
  intros Hc Ht Hs Hp shown marked route.
  assert (shown = if (30000 <? now - issuedAt)%Z
                  then (Some QrCodeExpired, mkScanScreen false false)
                  else marked) as Hshown.
  { unfold shown, handleBarCodeScanned. rewrite Hs, Hp. cbn [orb].
    destruct Hc as (_ & _ & _ & Hparse & Hnull). rewrite Hparse, Ht.
    assert (js_gt (seconds_between now (Some issuedAt)) 30
            = (30000 <? now - issuedAt)%Z) as ->.
    { pose proof (outside_window_iff now issuedAt) as Ho.
      pose proof (inside_window_iff now issuedAt) as Hi.
      unfold outside_window in Ho, Hi.
      destruct (js_gt (seconds_between now (Some issuedAt)) 30) eqn:G.
      - rewrite orb_true_r in Ho. symmetry. apply Z.ltb_lt.
        destruct (proj1 Ho eq_refl) as [H|H]; [|exact H].
        exfalso. unfold js_gt, js_lt, seconds_between in G.
        destruct (_ ?= 30)%Q eqn:C in G; try discriminate.
        apply Qgt_alt in C. unfold Qlt, Qdiv, Qmult, Qinv, inject_Z in C.
        cbn in C. lia.
      - symmetry. apply Z.ltb_ge.
        unfold js_gt, seconds_between in G.
        destruct (_ ?= 30)%Q eqn:C in G; try discriminate.
        + apply Qeq_alt in C. unfold Qeq, Qdiv, Qmult, Qinv, inject_Z in C.
          cbn in C. lia.
        + apply Qlt_alt in C. unfold Qlt, Qdiv, Qmult, Qinv, inject_Z in C.
          cbn in C. lia. }
    destruct obj; try reflexivity. now contradiction Hnull. }
  assert (route = if outside_window now (Some issuedAt)
                  then Done (Send 400%Z ERR_EXPIRED)
                  else scan_store (auth_id user) (scan_params_id req)
                         (text_param driver_text (get obj "studentId")) scanTime)
    as Hroute.
  { unfold route. rewrite (scan_carries _ _ _ _ _ _ _ _ Hc). now rewrite Ht. }
  split; [|split]; intros Hw; rewrite Hshown, Hroute.
  - replace (30000 <? now - issuedAt)%Z with true by (symmetry; apply Z.ltb_lt; lia).
    replace (outside_window now (Some issuedAt)) with true; [split; reflexivity|].
    symmetry. apply outside_window_iff. lia.
  - replace (30000 <? now - issuedAt)%Z with false by (symmetry; apply Z.ltb_ge; lia).
    replace (outside_window now (Some issuedAt)) with false; [split; reflexivity|].
    symmetry. apply inside_window_iff. lia.
  - replace (30000 <? now - issuedAt)%Z with false by (symmetry; apply Z.ltb_ge; lia).
    replace (outside_window now (Some issuedAt)) with true; [split; reflexivity|].
    symmetry. apply outside_window_iff. lia.
Qed.

(** X20. The code that the student screen builds by itself names the
    e-mail address of the signed-in user (STUDENT123 without one) as
    studentId.  The scan route looks this text up among the ids of the
    users: read within its 30 s by the owner of an active session, the
    code is answered with 404 and nothing is recorded as long as no user
    has that text as id. *)
Theorem local_code_names_no_student user issuedAt lec sid s db now scanTime :
  let studentId :=
    or_text (match user with Some u => client_email u | None => "" end) "STUDENT123" in
  let name :=
    or_text (match user with Some u => client_name u | None => "" end) "Student Name" in
  let code := generateQRData JSON_stringify toISOString user issuedAt in
  JSON_parse code = Some (qr_object studentId name (toISOString issuedAt)) ->
  code <> "" ->
  Date_getTime (JStr (toISOString issuedAt)) = Some issuedAt ->
  auth_role lec = "lecturer" ->
  find_session sid db = Some s ->
  session_lecturerId s = auth_id lec ->
  session_status s = active ->
  (0 <= now - issuedAt <= 30000)%Z ->
  (forall u, In u (users db) -> user_id u <> studentId) ->
  run (scan_code (mkScanRequest (Some lec) sid code) now scanTime) db
  = (Send 404%Z ERR_STUDENT_NOT_FOUND, db).
Proof.
  intros studentId name code Hp Hne Ht Hlec Hs Hown Hact Hw Hnone.
  rewrite (scan_of_code lec sid code studentId name issuedAt now scanTime Hlec Hne Hp Ht).
  replace (outside_window now (Some issuedAt)) with false
    by (symmetry; apply inside_window_iff; lia).
  rewrite scan_store_run, Hs, Hown, String.eqb_refl, Hact. cbn [negb session_status_eqb].
  destruct (find_user studentId db) as [u|] eqn:Hu; [|reflexivity].
  pose proof (find_user_id _ _ _ Hu) as Hid.
  apply find_some in Hu as [Hin _]. now destruct (Hnone u Hin).
Qed.

End CodeFacts.

Lemma issued_code_is_read_for_30_seconds_db0 :
  exists body,
    student_qr demo_JSON_stringify demo_toISOString (Some student_aina) 10000%Z
    = Return body
    /\ run (demo_scan (mkScanRequest (Some lecturer1) 1%N (qr_qrData body))
                      20000%Z 20000%Z) db0
       = (Return (mkScanOk true "Aina"),
          mkDb demo_users [demo_session] [mkRecord 1%N "stu-a" present (Some 20000%Z)]).
Proof.
  apply (issued_code_is_read_for_30_seconds demo_JSON_stringify demo_toISOString
           demo_JSON_parse demo_Date_getTime demo_driver_text
           student_aina 10000%Z lecturer1 1%N demo_session
           (mkUser "stu-a" "Aina" "student") db0 20000%Z 20000%Z);
    try reflexivity.
  intros H; vm_compute in H; discriminate H.
Defined.

Lemma scan_screen_marks_a_code_of_the_future_at_5s :
  handleBarCodeScanned demo_JSON_parse demo_Date_getTime qr_aina 5000%Z
                       (mkScanScreen false false)
  = (Some (AttendanceMarked (Some (JStr "Aina")) (Some (JStr "stu-a"))),
     mkScanScreen true true)
  /\ demo_scan req_aina 5000%Z 5000%Z = Done (Send 400%Z ERR_EXPIRED).
Proof.
  apply (scan_screen_marks_a_code_of_the_future demo_JSON_parse demo_Date_getTime
           demo_driver_text req_aina lecturer1 obj_aina 10000%Z 5000%Z 5000%Z
           (mkScanScreen false false) req_aina_carries eq_refl eq_refl eq_refl).
  lia.
Defined.

Lemma local_code_names_no_student_db0 :
  run (scan demo_JSON_parse_local demo_Date_getTime demo_driver_text
         (mkScanRequest (Some lecturer1) 1%N
            (generateQRData demo_JSON_stringify demo_toISOString (Some client_aina)
                            10000%Z))
         20000%Z 20000%Z) db0
  = (Send 404%Z ERR_STUDENT_NOT_FOUND, db0).
Proof.
  apply (local_code_names_no_student demo_JSON_stringify demo_toISOString
           demo_JSON_parse_local demo_Date_getTime demo_driver_text
           (Some client_aina) 10000%Z lecturer1 1%N demo_session db0 20000%Z 20000%Z);
    try reflexivity.
  - intros H; vm_compute in H; discriminate H.
  - lia.
  - intros u Hin. vm_compute in Hin.
    destruct Hin as [<- | [<- | [<- | []]]]; intros H; vm_compute in H; discriminate H.
Defined.
